(** * InkSoul back end: coupon engine and order lifecycle

    A shallow embedding of the rule-driven parts of the back end:

    - [models/Coupon.js]: [validate], [calculateDiscount], [apply], the
      virtuals and [findByCode];
    - [models/Order.js]: the schema validators, the [pre('save')] hook and
      [updateStatus];
    - [models/Product.js]: the slug, [calculateAverageRating] and
      [discountPercentage];
    - [routes/orders.js]: creating, paying, cancelling, setting the status
      and the pagination of the listings;
    - [routes/coupons.js]: validating and applying a coupon.

    Conventions of the embedding.

    - A JavaScript [Number] that holds money is an exact rational ([Q]);
      counters and quantities are integers ([Z]).  [Math.round] is
      [floor (x + 1/2)].  The code computes in IEEE doubles, where a product
      or quotient can fall just below the half that the exact amount is on:
      10 percent of 10.05 is 1.005 exactly and rounds to 1.01, the code
      computes 1.00499... and returns 1.  So the result of a rounding in the
      code is the model's or its neighbour on the other side of a half, and
      what is stated about a rounded result below is stated up to that: as a
      distance of at most half a unit from the exact amount, or as a bound
      that both neighbours meet.
    - A [Date] is its number of milliseconds since the epoch ([Z]).  Every
      reading of the clock ([new Date()], [Date.now()]) is an explicit
      argument of the function that performs it.
    - An [ObjectId] is the string [toString()] gives for it; a reference that
      may be [null] or [undefined] is an [option].
    - A method is a computation on its receiver [this]: it is given the
      receiver, returns it (possibly changed) and either returns a value or
      throws.  Route handlers are computations of the same shape on the
      persistent store. *)

From Stdlib Require Import QArith Qabs Qround Qminmax Lqa DecimalString.
From stdpp Require Import base option list strings gmap.

Local Open Scope Z_scope.

(** ** JavaScript primitives *)

Module JS.

Inductive Exn : Type :=
| TypeError   (* property access on null or undefined *)
| CastError   (* Mongoose could not cast an identifier *)
| StoreError  (* the store failed *)
| ValidationError. (* a document does not pass the validators of its schema *)

Inductive Outcome (A : Type) : Type :=
| Returned (a : A)
| Thrown (e : Exn).
Arguments Returned {A} a.
Arguments Thrown {A} e.

#[export] Instance Outcome_ret : MRet Outcome := fun A a => Returned a.
#[export] Instance Outcome_bind : MBind Outcome := fun A B f m =>
  match m with
  | Returned a => f a
  | Thrown e => Thrown e
  end.

(** A computation on a state [S]: what a method does to [this], or a handler
    to the store.  A throw keeps the state reached so far: nothing is rolled
    back. *)
Definition M (S A : Type) : Type := S -> Outcome A * S.

#[export] Instance M_ret {S} : MRet (M S) := fun A a s => (Returned a, s).
#[export] Instance M_bind {S} : MBind (M S) := fun A B f m s =>
  match m s with
  | (Returned a, s') => f a s'
  | (Thrown e, s') => (Thrown e, s')
  end.

Definition get {S} : M S S := fun s => (Returned s, s).
Definition modify {S} (f : S -> S) : M S unit := fun s => (Returned tt, f s).
Definition lift {S A} (o : Outcome A) : M S A := fun s => (o, s).

(** A statement either returns from the enclosing function ([Some r]) or
    falls through to the next statement ([None]). *)
Definition seq {S R} (stmt : M S (option R)) (rest : M S R) : M S R :=
  r ← stmt; match r with Some v => mret v | None => rest end.
Notation "s1 ;;; s2" := (seq s1 s2) (at level 100, s2 at level 200, right associativity).

(** [if (c) return r;] *)
Definition return_if {S R} (c : bool) (r : R) : M S (option R) :=
  mret (if c then Some r else None).

(** Truthiness of a number and of a string. *)
Definition truthy_num (q : Q) : bool := negb (Qeq_bool q 0).
Definition truthy_int (n : Z) : bool := negb (n =? 0).
Definition truthy_str (s : string) : bool := negb (String.eqb s "").

(** [x || d] on an optional string. *)
Definition or_else (x : option string) (d : string) : string :=
  match x with
  | Some s => if truthy_str s then s else d
  | None => d
  end.

Definition Math_round (q : Q) : Z := Qfloor (q + (1 # 2)).
Definition Math_min (a b : Q) : Q := if Qle_bool a b then a else b.
Definition Math_abs (a : Q) : Q := Qabs a.

(** [o.toString()] on a reference that may be null. *)
Definition toString (o : option string) : Outcome string :=
  match o with
  | Some s => Returned s
  | None => Thrown TypeError
  end.

(** [Array.prototype.filter] and [some] with a callback that may throw.
    [filter] calls the callback on every element; [some] stops at the first
    element for which it is true. *)
Fixpoint Array_filter {A} (f : A -> Outcome bool) (l : list A) : Outcome (list A) :=
  match l with
  | [] => Returned []
  | x :: l' =>
      b ← f x;
      r ← Array_filter f l';
      mret (if b : bool then x :: r else r)
  end.

Fixpoint Array_some {A} (f : A -> Outcome bool) (l : list A) : Outcome bool :=
  match l with
  | [] => Returned false
  | x :: l' =>
      b ← f x;
      if b : bool then Returned true else Array_some f l'
  end.

Definition Array_includes (l : list string) (x : option string) : bool :=
  match x with
  | Some s => existsb (String.eqb s) l
  | None => false
  end.

(** [String(n)] for an integer and [s.padStart(len, '0')]. *)
Definition String_of (n : Z) : string := NilZero.string_of_int (Z.to_int n).

Definition padStart (len : nat) (s : string) : string :=
  String.concat "" (replicate (len - String.length s)%nat "0"%string) +:+ s.

(** A piece of a template literal: text, or an interpolated number. *)
Inductive Part : Type :=
| Lit (s : string)
| Num (q : Q).

Definition Template : Type := list Part.

End JS.

Import JS.

Definition Time : Type := Z.

(** ** models/Coupon.js *)

Module Coupon.

Inductive CouponType : Type := percentage | fixed | free_shipping.

Record UsedBy : Type := {
  user : option string;
  usedAt : Time;
  orderValue : Q
}.

Record Coupon : Type := {
  code : string;
  description : option string;
  type : CouponType;
  value : Q;
  minOrderValue : Q;
  maxDiscount : option Q;
  maxUses : option Z;          (* null means unlimited *)
  maxUsesPerUser : Z;
  usedCount : Z;
  usedBy : list UsedBy;
  applicableProducts : list string;
  applicableCategories : list string;
  excludedProducts : list string;
  isActive : bool;
  isPublic : bool;
  startDate : Time;
  expiresAt : Time;
  createdBy : string
}.

(** The validators of the schema ([min: ...]): what every saved coupon
    satisfies. *)
Definition schema_ok (c : Coupon) : bool :=
  Qle_bool 0 (value c)
  && Qle_bool 0 (minOrderValue c)
  && match maxDiscount c with Some m => Qle_bool 0 m | None => true end
  && match maxUses c with Some m => 1 <=? m | None => true end
  && (1 <=? maxUsesPerUser c)
  && (0 <=? usedCount c).

Record CartItem : Type := {
  product : option string;
  category : option string
}.

Record ValidationResult : Type := {
  valid : bool;
  message : Template
}.

Definition invalid (msg : Template) : ValidationResult :=
  {| valid := false; message := msg |}.

(** The callback of [cartItems.some] in [validate]. *)
Definition item_applicable (this : Coupon) (item : CartItem) : Outcome bool :=
  productMatch ← Array_some
    (fun p => s ← toString (product item); mret (String.eqb p s))
    (applicableProducts this);
  let categoryMatch := Array_includes (applicableCategories this) (category item) in
  isExcluded ← Array_some
    (fun p => s ← toString (product item); mret (String.eqb p s))
    (excludedProducts this);
  mret ((productMatch || categoryMatch) && negb isExcluded).

Definition validate (now : Time) (orderValue : Q) (userId : option string)
    (cartItems : list CartItem) : M Coupon ValidationResult :=
  this ← get;
  (* Check if active *)
  return_if (negb (isActive this))
    (invalid [Lit "This coupon is not active"]) ;;;
  (* Check expiration *)
  return_if (expiresAt this <? now)
    (invalid [Lit "This coupon has expired"]) ;;;
  (* Check start date *)
  return_if (now <? startDate this)
    (invalid [Lit "This coupon is not yet valid"]) ;;;
  (* Check max uses *)
  return_if
    match maxUses this with
    | Some m => truthy_int m && (m <=? usedCount this)
    | None => false
    end
    (invalid [Lit "This coupon has been fully redeemed"]) ;;;
  (* Check user usage limit *)
  match userId with
  | Some uid =>
      if truthy_str uid then
        uses ← lift (Array_filter
                       (fun u => s ← toString (user u); mret (String.eqb s uid))
                       (usedBy this));
        let userUses := Z.of_nat (length uses) in
        return_if (maxUsesPerUser this <=? userUses)
          (invalid [Lit "You have already used this coupon the maximum number of times"])
      else mret None
  | None => mret None
  end ;;;
  (* Check minimum order value *)
  return_if (negb (Qle_bool (minOrderValue this) orderValue))
    (invalid [Lit "Minimum order value of $"; Num (minOrderValue this); Lit " required"]) ;;;
  (* Check product/category restrictions *)
  (if (0 <? length (applicableProducts this))%nat
      || (0 <? length (applicableCategories this))%nat
   then
     hasApplicableItem ← lift (Array_some (item_applicable this) cartItems);
     return_if (negb hasApplicableItem)
       (invalid [Lit "This coupon is not applicable to your cart items"])
   else mret None) ;;;
  mret {| valid := true; message := [Lit "Coupon is valid"] |}.

Definition calculateDiscount (orderValue : Q) : M Coupon Q :=
  this ← get;
  let discount :=
    match type this with
    | percentage =>
        let discount := (orderValue * value this / 100)%Q in
        match maxDiscount this with
        | Some m =>
            if truthy_num m && negb (Qle_bool discount m) then m else discount
        | None => discount
        end
    | fixed => Math_min (value this) orderValue
    | free_shipping => 0%Q (* Shipping discount handled separately *)
    end in
  mret (inject_Z (Math_round (discount * 100)) / 100)%Q.

Definition set_usedCount (n : Z) (c : Coupon) : Coupon :=
  {| code := code c; description := description c; type := type c;
     value := value c; minOrderValue := minOrderValue c;
     maxDiscount := maxDiscount c; maxUses := maxUses c;
     maxUsesPerUser := maxUsesPerUser c; usedCount := n;
     usedBy := usedBy c; applicableProducts := applicableProducts c;
     applicableCategories := applicableCategories c;
     excludedProducts := excludedProducts c; isActive := isActive c;
     isPublic := isPublic c; startDate := startDate c;
     expiresAt := expiresAt c; createdBy := createdBy c |}.

Definition set_usedBy (l : list UsedBy) (c : Coupon) : Coupon :=
  {| code := code c; description := description c; type := type c;
     value := value c; minOrderValue := minOrderValue c;
     maxDiscount := maxDiscount c; maxUses := maxUses c;
     maxUsesPerUser := maxUsesPerUser c; usedCount := usedCount c;
     usedBy := l; applicableProducts := applicableProducts c;
     applicableCategories := applicableCategories c;
     excludedProducts := excludedProducts c; isActive := isActive c;
     isPublic := isPublic c; startDate := startDate c;
     expiresAt := expiresAt c; createdBy := createdBy c |}.

(** [now] is the clock reading that fills the default of [usedAt] when the
    entry is pushed. *)
Definition apply (now : Time) (userId : option string) (orderValue : Q) : M Coupon unit :=
  modify (fun this => set_usedCount (usedCount this + 1) this) ;;
  match userId with
  | Some uid =>
      if truthy_str uid then
        modify (fun this =>
          set_usedBy (usedBy this ++ [{| user := Some uid; usedAt := now;
                                         orderValue := orderValue |}]) this)
      else mret tt
  | None => mret tt
  end.

End Coupon.

(** ** models/Order.js *)

Module Order.

Module Item.
Record OrderItem : Type := {
  product : string;
  name : string;
  image : string;
  price : Q;
  quantity : Z;
  size : string;
  color : string
}.
End Item.

Module History.
Record Entry : Type := {
  status : string;
  date : Time;
  note : string
}.
End History.

Module Payment.
Record PaymentResult : Type := {
  id : option string;
  status : option string;
  update_time : option string;
  email_address : option string
}.
End Payment.

Record ShippingAddress : Type := {
  firstName : string;
  lastName : string;
  email : string;
  phone : string;
  address : string;
  city : string;
  state : string;
  zipCode : string;
  country : string
}.

(** [isNew] is the flag Mongoose keeps on a document: true until the document
    has been saved once. *)
Record Order : Type := {
  _id : string;
  isNew : bool;
  user : string;
  orderNumber : option string;
  orderItems : list Item.OrderItem;
  shippingAddress : option ShippingAddress;
  paymentMethod : string;
  paymentResult : option Payment.PaymentResult;
  itemsPrice : Q;
  taxPrice : Q;
  shippingPrice : Q;
  totalPrice : Q;
  discountAmount : Q;
  couponCode : string;
  isPaid : bool;
  paidAt : option Time;
  isDelivered : bool;
  deliveredAt : option Time;
  status : string;
  trackingNumber : string;
  shippingCarrier : string;
  notes : option string;
  statusHistory : list History.Entry
}.

(** The validators of the schema, on the fields above.  A [required] string
    must not be empty; [required] on a field that the record always has is
    met; [shippingAddress] is not required, its fields are. *)
Definition item_ok (i : Item.OrderItem) : bool :=
  truthy_str (Item.name i) && truthy_str (Item.image i)
  && Qle_bool 0 (Item.price i) && (1 <=? Item.quantity i).

Definition address_ok (a : ShippingAddress) : bool :=
  truthy_str (firstName a) && truthy_str (lastName a) && truthy_str (email a)
  && truthy_str (phone a) && truthy_str (address a) && truthy_str (city a)
  && truthy_str (state a) && truthy_str (zipCode a) && truthy_str (country a).

Definition payment_methods : list string :=
  ["stripe"; "paypal"; "cash_on_delivery"]%string.

Definition statuses : list string :=
  ["pending"; "processing"; "shipped"; "delivered"; "cancelled"; "refunded"]%string.

Definition schema_ok (o : Order) : bool :=
  match orderNumber o with Some n => truthy_str n | None => false end
  && forallb item_ok (orderItems o)
  && match shippingAddress o with Some a => address_ok a | None => true end
  && existsb (String.eqb (paymentMethod o)) payment_methods
  && Qle_bool 0 (itemsPrice o) && Qle_bool 0 (taxPrice o)
  && Qle_bool 0 (shippingPrice o) && Qle_bool 0 (totalPrice o)
  && Qle_bool 0 (discountAmount o)
  && existsb (String.eqb (status o)) statuses
  && match notes o with Some n => (String.length n <=? 500)%nat | None => true end
  && forallb (fun e => truthy_str (History.status e)) (statusHistory o).

(** Assignments to the fields the code writes. *)
Definition set_isNew (b : bool) (o : Order) : Order :=
  {| _id := _id o; isNew := b; user := user o; orderNumber := orderNumber o;
     orderItems := orderItems o; shippingAddress := shippingAddress o;
     paymentMethod := paymentMethod o; paymentResult := paymentResult o;
     itemsPrice := itemsPrice o; taxPrice := taxPrice o;
     shippingPrice := shippingPrice o; totalPrice := totalPrice o;
     discountAmount := discountAmount o; couponCode := couponCode o;
     isPaid := isPaid o; paidAt := paidAt o; isDelivered := isDelivered o;
     deliveredAt := deliveredAt o; status := status o;
     trackingNumber := trackingNumber o; shippingCarrier := shippingCarrier o;
     notes := notes o; statusHistory := statusHistory o |}.

Definition set_orderNumber (n : option string) (o : Order) : Order :=
  {| _id := _id o; isNew := isNew o; user := user o; orderNumber := n;
     orderItems := orderItems o; shippingAddress := shippingAddress o;
     paymentMethod := paymentMethod o; paymentResult := paymentResult o;
     itemsPrice := itemsPrice o; taxPrice := taxPrice o;
     shippingPrice := shippingPrice o; totalPrice := totalPrice o;
     discountAmount := discountAmount o; couponCode := couponCode o;
     isPaid := isPaid o; paidAt := paidAt o; isDelivered := isDelivered o;
     deliveredAt := deliveredAt o; status := status o;
     trackingNumber := trackingNumber o; shippingCarrier := shippingCarrier o;
     notes := notes o; statusHistory := statusHistory o |}.

Definition set_status (s : string) (o : Order) : Order :=
  {| _id := _id o; isNew := isNew o; user := user o; orderNumber := orderNumber o;
     orderItems := orderItems o; shippingAddress := shippingAddress o;
     paymentMethod := paymentMethod o; paymentResult := paymentResult o;
     itemsPrice := itemsPrice o; taxPrice := taxPrice o;
     shippingPrice := shippingPrice o; totalPrice := totalPrice o;
     discountAmount := discountAmount o; couponCode := couponCode o;
     isPaid := isPaid o; paidAt := paidAt o; isDelivered := isDelivered o;
     deliveredAt := deliveredAt o; status := s;
     trackingNumber := trackingNumber o; shippingCarrier := shippingCarrier o;
     notes := notes o; statusHistory := statusHistory o |}.

Definition set_statusHistory (h : list History.Entry) (o : Order) : Order :=
  {| _id := _id o; isNew := isNew o; user := user o; orderNumber := orderNumber o;
     orderItems := orderItems o; shippingAddress := shippingAddress o;
     paymentMethod := paymentMethod o; paymentResult := paymentResult o;
     itemsPrice := itemsPrice o; taxPrice := taxPrice o;
     shippingPrice := shippingPrice o; totalPrice := totalPrice o;
     discountAmount := discountAmount o; couponCode := couponCode o;
     isPaid := isPaid o; paidAt := paidAt o; isDelivered := isDelivered o;
     deliveredAt := deliveredAt o; status := status o;
     trackingNumber := trackingNumber o; shippingCarrier := shippingCarrier o;
     notes := notes o; statusHistory := h |}.

Definition set_isDelivered (b : bool) (o : Order) : Order :=
  {| _id := _id o; isNew := isNew o; user := user o; orderNumber := orderNumber o;
     orderItems := orderItems o; shippingAddress := shippingAddress o;
     paymentMethod := paymentMethod o; paymentResult := paymentResult o;
     itemsPrice := itemsPrice o; taxPrice := taxPrice o;
     shippingPrice := shippingPrice o; totalPrice := totalPrice o;
     discountAmount := discountAmount o; couponCode := couponCode o;
     isPaid := isPaid o; paidAt := paidAt o; isDelivered := b;
     deliveredAt := deliveredAt o; status := status o;
     trackingNumber := trackingNumber o; shippingCarrier := shippingCarrier o;
     notes := notes o; statusHistory := statusHistory o |}.

Definition set_deliveredAt (t : option Time) (o : Order) : Order :=
  {| _id := _id o; isNew := isNew o; user := user o; orderNumber := orderNumber o;
     orderItems := orderItems o; shippingAddress := shippingAddress o;
     paymentMethod := paymentMethod o; paymentResult := paymentResult o;
     itemsPrice := itemsPrice o; taxPrice := taxPrice o;
     shippingPrice := shippingPrice o; totalPrice := totalPrice o;
     discountAmount := discountAmount o; couponCode := couponCode o;
     isPaid := isPaid o; paidAt := paidAt o; isDelivered := isDelivered o;
     deliveredAt := t; status := status o;
     trackingNumber := trackingNumber o; shippingCarrier := shippingCarrier o;
     notes := notes o; statusHistory := statusHistory o |}.

(** [this.statusHistory.push(e)] *)
Definition push_history (e : History.Entry) : M Order unit :=
  modify (fun this => set_statusHistory (statusHistory this ++ [e]) this).

(** The body of the [pre('save')] hook.  [count] is what
    [countDocuments()] answered, [now_ms] the reading of [Date.now()] and
    [now] that of [new Date()]; none of them is used unless the document is
    new. *)
Definition pre_save (count : Z) (now_ms now : Time) : M Order unit :=
  this ← get;
  if isNew this then
    modify (set_orderNumber
              (Some ("INK" +:+ String_of now_ms +:+ padStart 4 (String_of (count + 1))))) ;;
    (* Add initial status to history *)
    this ← get;
    push_history {| History.status := status this; History.date := now;
                    History.note := "Order created" |}
  else mret tt.

(** [updateStatus(newStatus, note = '')]: [now1] and [now2] are the two
    readings of [new Date()], the second one taken only for ['delivered']. *)
Definition updateStatus (now1 now2 : Time) (newStatus : string)
    (note : option string) : M Order unit :=
  let note := default ""%string note in
  modify (set_status newStatus) ;;
  push_history {| History.status := newStatus; History.date := now1;
                  History.note := note |} ;;
  (* Update specific fields based on status *)
  if String.eqb newStatus "delivered" then
    modify (set_isDelivered true) ;;
    modify (set_deliveredAt (Some now2))
  else if String.eqb newStatus "cancelled" || String.eqb newStatus "refunded" then
    (* Handle cancellation/refund logic *)
    mret tt
  else mret tt.

End Order.

(** ** models/Product.js (the fields the order routes read) *)

Module Product.

Record Product : Type := {
  name : string;
  price : Q;
  stock : Z;
  isActive : bool;
  images : list string   (* the [url] of each image *)
}.

Definition add_stock (d : Z) (p : Product) : Product :=
  {| name := name p; price := price p; stock := stock p + d;
     isActive := isActive p; images := images p |}.

End Product.

(** ** The persistent store

    The two collections the order routes use, and what a handler cannot
    control: whether a call to the store fails, and what the clock reads.
    [faults] answers the successive store calls of a request ([Some e]: the
    call throws [e]; once the list is used up no call fails); [clock] gives
    the successive clock readings.  A call to the store may fail for any
    reason, a violated unique index included. *)

Module Store.

Record World : Type := {
  products : gmap string Product.Product;
  orders : gmap string Order.Order;
  faults : list (option Exn);
  clock : nat -> Time;
  reads : nat
}.

Definition set_products (m : gmap string Product.Product) (w : World) : World :=
  {| products := m; orders := orders w; faults := faults w;
     clock := clock w; reads := reads w |}.

Definition set_orders (m : gmap string Order.Order) (w : World) : World :=
  {| products := products w; orders := m; faults := faults w;
     clock := clock w; reads := reads w |}.

Definition set_faults (f : list (option Exn)) (w : World) : World :=
  {| products := products w; orders := orders w; faults := f;
     clock := clock w; reads := reads w |}.

Definition set_reads (n : nat) (w : World) : World :=
  {| products := products w; orders := orders w; faults := faults w;
     clock := clock w; reads := n |}.

(** One round trip to the store: it fails if the next fault says so. *)
Definition await : M World unit := fun w =>
  match faults w with
  | Some e :: fs => (Thrown e, set_faults fs w)
  | None :: fs => (Returned tt, set_faults fs w)
  | [] => (Returned tt, w)
  end.

(** [new Date()] and [Date.now()] *)
Definition Date_now : M World Time := fun w =>
  (Returned (clock w (reads w)), set_reads (S (reads w)) w).

Definition Product_findById (id : string) : M World (option Product.Product) :=
  await ;;
  w ← get;
  mret (products w !! id).

(** [Product.findByIdAndUpdate(id, { $inc: { stock: d } })]: no effect when
    there is no such product. *)
Definition Product_inc_stock (id : string) (d : Z) : M World unit :=
  await ;;
  modify (fun w => set_products (alter (Product.add_stock d) id (products w)) w).

(** A document read from the store is not new. *)
Definition Order_findById (id : string) : M World (option Order.Order) :=
  await ;;
  w ← get;
  mret (Order.set_isNew false <$> orders w !! id).

Definition Order_countDocuments : M World Z :=
  await ;;
  w ← get;
  mret (Z.of_nat (size (orders w))).

(** Run a method on a document held by the handler. *)
Definition call {A} (m : M Order.Order A) (doc : Order.Order) : M World (A * Order.Order) :=
  fun w =>
    match m doc with
    | (Returned a, doc') => (Returned (a, doc'), w)
    | (Thrown e, _) => (Thrown e, w)
    end.

(** The validation that Mongoose runs on [save] before the [pre('save')]
    hooks of the schema: a document that does not pass is rejected with what
    it was given, not with what the hook would have made of it.  A document
    that is not new has been read from the store, where it was written after
    it had passed; the handlers assign to it a status of the enumeration,
    dates, booleans and strings without validators, so that for it the
    validation is taken to pass. *)
Definition validate_before_save (doc : Order.Order) : M World unit :=
  if Order.isNew doc && negb (Order.schema_ok doc)
  then lift (Thrown ValidationError)
  else mret tt.

(** [doc.save()]: the validation, the [pre('save')] hook, then the write.
    The hook asks the store and the clock only for a new document (see
    [Order.pre_save]). *)
Definition save (doc : Order.Order) : M World Order.Order :=
  validate_before_save doc ;;
  hooked ←
    (if Order.isNew doc then
       count ← Order_countDocuments;
       now_ms ← Date_now;
       now ← Date_now;
       call (Order.pre_save count now_ms now) doc
     else call (Order.pre_save 0 0 0) doc);
  await ;;
  let saved := Order.set_isNew false (snd hooked) in
  modify (fun w => set_orders (<[Order._id saved := saved]> (orders w)) w) ;;
  mret saved.

(** [doc.updateStatus(newStatus, note)] with the clock readings it takes. *)
Definition Order_updateStatus (newStatus : string) (note : option string)
    (doc : Order.Order) : M World Order.Order :=
  now1 ← Date_now;
  now2 ← (if String.eqb newStatus "delivered" then Date_now else mret now1);
  updated ← call (Order.updateStatus now1 now2 newStatus note) doc;
  mret (snd updated).

(** [try { body } catch (error) { handler }] *)
Definition try_catch {S A} (body : M S A) (handler : Exn -> M S A) : M S A :=
  fun s =>
    match body s with
    | (Returned a, s') => (Returned a, s')
    | (Thrown e, s') => handler e s'
    end.

(** [for (const x of l) { await f(x) }] *)
Fixpoint for_of {S A} (l : list A) (f : A -> M S unit) : M S unit :=
  match l with
  | [] => mret tt
  | x :: l' => f x ;; for_of l' f
  end.

(** [m] never changes the part [part] of the store, whether it returns or
    throws. *)
Definition keeps {T A} (part : World -> T) (m : M World A) : Prop :=
  forall w, part (snd (m w)) = part w.

End Store.

(** ** routes/orders.js *)

Module OrdersRoute.

Import Store.

Record ItemBody : Type := {
  product : string;
  name : option string;
  quantity : Z;
  size : option string;
  color : option string
}.

(** The request as the handler of [POST /api/orders] sees it:
    [validationErrors] is what the express-validator chain left on the
    request, [userId] comes from the [auth] middleware, the rest is
    [req.body]. *)
Record CreateRequest : Type := {
  userId : string;
  validationErrors : list string;
  orderItems : list ItemBody;
  shippingAddress : option Order.ShippingAddress;
  paymentMethod : string;
  itemsPrice : option Q;
  taxPrice : option Q;
  shippingPrice : option Q;
  totalPrice : option Q;
  couponCode : option string;
  discountAmount : option Q
}.

Record Response : Type := {
  status : Z;
  success : bool;
  message : Template;
  data : option Order.Order
}.

Definition reject (st : Z) (msg : Template) : Response :=
  {| status := st; success := false; message := msg; data := None |}.

(** [x || d] on an optional number. *)
Definition num_or (x : option Q) (d : Q) : Q :=
  match x with
  | Some q => if truthy_num q then q else d
  | None => d
  end.

(** Interpolation of a string that may be undefined. *)
Definition interp (x : option string) : Part := Lit (default "undefined"%string x).

(** The first loop of [POST /api/orders]: validate order items and check
    stock.  [inl] is an early [return res.status(...)]. *)
Fixpoint validate_items (items : list ItemBody)
    (validatedItems : list Order.Item.OrderItem) (calculatedItemsPrice : Q)
    : M World (Response + list Order.Item.OrderItem * Q) :=
  match items with
  | [] => mret (inr (validatedItems, calculatedItemsPrice))
  | item :: rest =>
      found ← Product_findById (product item);
      match found with
      | None =>
          mret (inl (reject 404 [Lit "Product not found: "; interp (name item)]))
      | Some product =>
          if negb (Product.isActive product) then
            mret (inl (reject 400
              [Lit "Product is not available: "; Lit (Product.name product)]))
          else if Product.stock product <? quantity item then
            mret (inl (reject 400
              [Lit "Insufficient stock for "; Lit (Product.name product);
               Lit ". Available: "; Num (inject_Z (Product.stock product))]))
          else
            validate_items rest
              (validatedItems ++
                 [{| Order.Item.product := OrdersRoute.product item;
                     Order.Item.name := Product.name product;
                     Order.Item.image := or_else (head (Product.images product)) "";
                     Order.Item.price := Product.price product;
                     Order.Item.quantity := quantity item;
                     Order.Item.size := or_else (size item) "One Size";
                     Order.Item.color := or_else (color item) "Default" |}])
              (calculatedItemsPrice + Product.price product * inject_Z (quantity item))%Q
      end
  end.

(** [new Order({...})] in [POST /api/orders], with the defaults of the
    schema; [oid] is the identifier the new document gets. *)
Definition new_order (oid : string) (req : CreateRequest)
    (validatedItems : list Order.Item.OrderItem) (expectedItemsPrice : Q) : Order.Order :=
  {| Order._id := oid;
     Order.isNew := true;
     Order.user := userId req;
     Order.orderNumber := None;
     Order.orderItems := validatedItems;
     Order.shippingAddress := shippingAddress req;
     Order.paymentMethod := paymentMethod req;
     Order.paymentResult := None;
     Order.itemsPrice := expectedItemsPrice;
     Order.taxPrice := num_or (taxPrice req) 0;
     Order.shippingPrice := num_or (shippingPrice req) 0;
     Order.totalPrice := num_or (totalPrice req) expectedItemsPrice;
     Order.discountAmount := num_or (discountAmount req) 0;
     Order.couponCode := or_else (couponCode req) "";
     Order.isPaid := false;
     Order.paidAt := None;
     Order.isDelivered := false;
     Order.deliveredAt := None;
     Order.status := "pending";
     Order.trackingNumber := "";
     Order.shippingCarrier := "";
     Order.notes := None;
     Order.statusHistory := [] |}.

(** [POST /api/orders] *)
Definition create_order (oid : string) (req : CreateRequest) : M World Response :=
  try_catch
    ((* Check for validation errors *)
     return_if (negb (Nat.eqb (length (validationErrors req)) 0))
       (reject 400 [Lit "Validation failed"]) ;;;
     (* Validate order items and check stock *)
     checked ← validate_items (orderItems req) [] 0%Q;
     match checked with
     | inl response => mret response
     | inr (validatedItems, calculatedItemsPrice) =>
         (* Validate pricing (basic validation) *)
         let expectedItemsPrice :=
           (inject_Z (Math_round (calculatedItemsPrice * 100)) / 100)%Q in
         return_if
           match itemsPrice req with
           | Some p => negb (Qle_bool (Math_abs (p - expectedItemsPrice)) (1 # 100))
           | None => false
           end
           (reject 400 [Lit "Price mismatch detected"]) ;;;
         (* Create order *)
         let order := new_order oid req validatedItems expectedItemsPrice in
         savedOrder ← save order;
         (* Update product stock *)
         for_of validatedItems (fun item =>
           Product_inc_stock (Order.Item.product item) (- Order.Item.quantity item)) ;;
         mret {| status := 201; success := true;
                 message := [Lit "Order created successfully"];
                 data := Some savedOrder |}
     end)
    (fun error => mret (reject 500 [Lit "Server error while creating order"])).

(** [PUT /api/orders/:id/cancel]: [id] is [req.params.id], [userId] comes
    from the [auth] middleware and [reason] is [req.body.reason]. *)
Definition cancel_order (id : string) (userId : string) (reason : option string)
    : M World Response :=
  try_catch
    (found ← Order_findById id;
     match found with
     | None => mret (reject 404 [Lit "Order not found"])
     | Some order =>
         (* Check if user owns this order *)
         return_if (negb (String.eqb (Order.user order) userId))
           (reject 403 [Lit "Access denied"]) ;;;
         (* Check if order can be cancelled *)
         return_if
           (Array_includes ["shipped"; "delivered"; "cancelled"]%string
              (Some (Order.status order)))
           (reject 400 [Lit "Cannot cancel order with status: ";
                        Lit (Order.status order)]) ;;;
         (* Update order status *)
         order ← Order_updateStatus "cancelled"
                    (Some (or_else reason "Cancelled by customer")) order;
         (* Restore product stock *)
         for_of (Order.orderItems order) (fun item =>
           Product_inc_stock (Order.Item.product item) (Order.Item.quantity item)) ;;
         updatedOrder ← save order;
         mret {| status := 200; success := true;
                 message := [Lit "Order cancelled successfully"];
                 data := Some updatedOrder |}
     end)
    (fun error =>
       match error with
       | CastError => mret (reject 404 [Lit "Order not found"])
       | _ => mret (reject 500 [Lit "Server error while cancelling order"])
       end).

End OrdersRoute.

(** ** The coupon rules as the specification words them

    These definitions follow the wording of the specification, not the code;
    the theorems below compare them with [Coupon.validate] and
    [Coupon.calculateDiscount]. *)

Module CouponSpec.

Import Coupon.

(** A user id is provided when the caller passes a non-empty id. *)
Definition provided (userId : option string) : bool :=
  match userId with
  | Some uid => negb (String.eqb uid "")
  | None => false
  end.

(** The number of [usedBy] entries whose user equals [uid]. *)
Definition uses_of (c : Coupon) (uid : string) : nat :=
  length (filter (fun u => user u = Some uid) (usedBy c)).

Definition user_uses (c : Coupon) (userId : option string) : nat :=
  match userId with
  | Some uid => uses_of c uid
  | None => 0
  end.

(** A cart item matches an included product or category and does not appear
    in [excludedProducts]. *)
Definition in_products (l : list string) (i : CartItem) : bool :=
  match product i with
  | Some p => bool_decide (p ∈ l)
  | None => false
  end.

Definition in_categories (l : list string) (i : CartItem) : bool :=
  match category i with
  | Some k => bool_decide (k ∈ l)
  | None => false
  end.

Definition item_matches (c : Coupon) (i : CartItem) : bool :=
  (in_products (applicableProducts c) i || in_categories (applicableCategories c) i)
  && negb (in_products (excludedProducts c) i).

Definition restricted (c : Coupon) : bool :=
  negb (bool_decide (applicableProducts c = []))
  || negb (bool_decide (applicableCategories c = [])).

(** The seven checks, in the order of the specification, each with the
    reason it reports when it fails. *)
Definition checks (now : Time) (c : Coupon) (orderValue : Q)
    (userId : option string) (cartItems : list CartItem) : list (bool * Template) :=
  [ (isActive c,
     [Lit "This coupon is not active"]);
    (now <=? expiresAt c,
     [Lit "This coupon has expired"]);
    (startDate c <=? now,
     [Lit "This coupon is not yet valid"]);
    (match maxUses c with Some m => usedCount c <? m | None => true end,
     [Lit "This coupon has been fully redeemed"]);
    (if provided userId
     then Z.of_nat (user_uses c userId) <? maxUsesPerUser c else true,
     [Lit "You have already used this coupon the maximum number of times"]);
    (Qle_bool (minOrderValue c) orderValue,
     [Lit "Minimum order value of $"; Num (minOrderValue c); Lit " required"]);
    (if restricted c then existsb (item_matches c) cartItems else true,
     [Lit "This coupon is not applicable to your cart items"]) ].

(** The result is the reason of the first check that fails, or valid. *)
Definition validate_spec (now : Time) (c : Coupon) (orderValue : Q)
    (userId : option string) (cartItems : list CartItem) : ValidationResult :=
  match List.find (fun ck => negb (fst ck)) (checks now c orderValue userId cartItems) with
  | Some ck => {| valid := false; message := snd ck |}
  | None => {| valid := true; message := [Lit "Coupon is valid"] |}
  end.

(** The first [n] checks of the list all pass. *)
Definition passes_first (n : nat) (now : Time) (c : Coupon) (orderValue : Q)
    (userId : option string) (cartItems : list CartItem) : bool :=
  forallb fst (take n (checks now c orderValue userId cartItems)).

(** Rounding to two decimal places, half up. *)
Definition round2 (q : Q) : Q := (inject_Z (Qfloor (q * 100 + (1 # 2))) / 100)%Q.

(** An amount with at most two decimal places. *)
Definition whole_cents (q : Q) : Prop := (inject_Z (Qfloor (q * 100)) == q * 100)%Q.

(** The discount before rounding: the percentage of the order value, clamped
    to [maxDiscount] if that is set; the smaller of [value] and the order
    value; nothing. *)
Definition discount_spec (c : Coupon) (orderValue : Q) : Q :=
  match type c with
  | percentage =>
      let d := (orderValue * value c / 100)%Q in
      match maxDiscount c with
      | Some m => Qmin d m
      | None => d
      end
  | fixed => Qmin (value c) orderValue
  | free_shipping => 0%Q
  end.

(** Inputs on which [validate] dereferences nothing that is absent. *)
Definition users_present (c : Coupon) (userId : option string) : Prop :=
  provided userId = true -> Forall (fun u => user u <> None) (usedBy c).

Definition products_present (c : Coupon) (cartItems : list CartItem) : Prop :=
  applicableProducts c <> [] \/ excludedProducts c <> [] ->
  Forall (fun i => product i <> None) cartItems.

End CouponSpec.

(** ** Concrete coupons and carts *)

Module Examples.

Import Coupon.

Definition base (t : CouponType) (v : Q) (cap : option Q) : Coupon :=
  {| code := "SAVE"; description := None; type := t; value := v;
     minOrderValue := 0; maxDiscount := cap; maxUses := None;
     maxUsesPerUser := 1; usedCount := 0; usedBy := [];
     applicableProducts := []; applicableCategories := [];
     excludedProducts := []; isActive := true; isPublic := true;
     startDate := 0; expiresAt := 1000; createdBy := "admin" |}.

(** 150 percent off, no cap. *)
Definition percent150 : Coupon := base percentage 150 None.

(** 50 off. *)
Definition fixed50 : Coupon := base fixed 50 None.

(** 20 percent off, capped at 10; and capped at 0. *)
Definition percent20_cap10 : Coupon := base percentage 20 (Some 10%Q).
Definition percent20_cap0 : Coupon := base percentage 20 (Some 0%Q).

(** A coupon one of whose redemptions carries no user. *)
Definition with_null_user : Coupon :=
  set_usedBy [{| user := None; usedAt := 1; orderValue := 10 |}] (base fixed 5 None).

Definition deactivate (c : Coupon) : Coupon :=
  {| code := code c; description := description c; type := type c;
     value := value c; minOrderValue := minOrderValue c;
     maxDiscount := maxDiscount c; maxUses := maxUses c;
     maxUsesPerUser := maxUsesPerUser c; usedCount := usedCount c;
     usedBy := usedBy c; applicableProducts := applicableProducts c;
     applicableCategories := applicableCategories c;
     excludedProducts := excludedProducts c; isActive := false;
     isPublic := isPublic c; startDate := startDate c;
     expiresAt := expiresAt c; createdBy := createdBy c |}.

(** A coupon restricted to one product, and a cart whose only item has a
    category but no product. *)
Definition only_p1 : Coupon :=
  {| code := "TEE"; description := None; type := fixed; value := 5;
     minOrderValue := 0; maxDiscount := None; maxUses := None;
     maxUsesPerUser := 1; usedCount := 0; usedBy := [];
     applicableProducts := ["p1"%string]; applicableCategories := [];
     excludedProducts := []; isActive := true; isPublic := true;
     startDate := 0; expiresAt := 1000; createdBy := "admin" |}.

(** The same coupon, already used once by user [u1]. *)
Definition only_p1_used : Coupon :=
  set_usedBy [{| user := Some "u1"%string; usedAt := 1; orderValue := 10 |}] only_p1.

Definition cart_without_product : list CartItem :=
  [{| product := None; category := Some "T-Shirts"%string |}].

Definition cart_p1 : list CartItem :=
  [{| product := Some "p1"%string; category := None |}].

End Examples.

(** ** The order rules as the specification words them *)

Module OrderSpec.

Import Store OrdersRoute.

(** An item of a request that cannot be ordered from the store as it is: its
    product is missing or inactive, or has less stock than the quantity. *)
Definition unavailable (w : World) (item : ItemBody) : bool :=
  match products w !! product item with
  | Some p => negb (Product.isActive p) || (Product.stock p <? quantity item)
  | None => true
  end.

(** The order number of an order created at [now_ms] when the collection
    holds [count] orders. *)
Definition order_number (now_ms : Time) (count : Z) : string :=
  "INK" +:+ String_of now_ms +:+ padStart 4 (String_of (count + 1)).

(** The statuses from which the workflow refuses to cancel. *)
Definition not_cancellable : list string := ["shipped"; "delivered"; "cancelled"]%string.

(** The history entry written at creation. *)
Definition created_entry (initial : string) (now : Time) : Order.History.Entry :=
  {| Order.History.status := initial; Order.History.date := now;
     Order.History.note := "Order created" |}.

End OrderSpec.

(** ** Concrete stores and requests *)

Module OrderExamples.

Import Store OrdersRoute.

Definition tee : Product.Product :=
  {| Product.name := "Tee"; Product.price := 20; Product.stock := 5;
     Product.isActive := true; Product.images := ["tee.png"%string] |}.

Definition socks : Product.Product :=
  {| Product.name := "Socks"; Product.price := 5; Product.stock := 5;
     Product.isActive := true; Product.images := [] |}.

Definition shop (orders : gmap string Order.Order) (faults : list (option Exn)) : World :=
  {| products := <["p1"%string := tee]> (<["p2"%string := socks]> ∅);
     orders := orders; faults := faults;
     clock := fun n => 1000 + Z.of_nat n; reads := 0 |}.

Definition line (p : string) (q : Z) : ItemBody :=
  {| product := p; name := Some p; quantity := q; size := None; color := None |}.

(** Two tees and three pairs of socks, 55 in all. *)
Definition two_items : CreateRequest :=
  {| userId := "u1"; validationErrors := [];
     orderItems := [line "p1" 2; line "p2" 3];
     shippingAddress := None; paymentMethod := "stripe";
     itemsPrice := Some 55%Q; taxPrice := None; shippingPrice := None;
     totalPrice := None; couponCode := None; discountAmount := None |}.

(** An order of user [u1] in a given status, already saved. *)
Definition placed (st : string) : Order.Order :=
  {| Order._id := "o1"; Order.isNew := false; Order.user := "u1";
     Order.orderNumber := Some "INK10000001"%string;
     Order.orderItems :=
       [{| Order.Item.product := "p1"; Order.Item.name := "Tee";
           Order.Item.image := "tee.png"; Order.Item.price := 20;
           Order.Item.quantity := 2; Order.Item.size := "One Size";
           Order.Item.color := "Default" |}];
     Order.shippingAddress := None; Order.paymentMethod := "stripe";
     Order.paymentResult := None; Order.itemsPrice := 40; Order.taxPrice := 0;
     Order.shippingPrice := 0; Order.totalPrice := 40;
     Order.discountAmount := 0; Order.couponCode := "";
     Order.isPaid := true; Order.paidAt := Some 900; Order.isDelivered := false;
     Order.deliveredAt := None; Order.status := st;
     Order.trackingNumber := ""; Order.shippingCarrier := "";
     Order.notes := None;
     Order.statusHistory :=
       [{| Order.History.status := "pending"; Order.History.date := 800;
           Order.History.note := "Order created" |}] |}.

(** A new order that has not been saved yet, as [POST /api/orders] makes
    it: without order number. *)
Definition fresh : Order.Order :=
  Order.set_isNew true
    (Order.set_orderNumber None (Order.set_statusHistory [] (placed "pending"))).

(** A new order that was given an order number when it was made. *)
Definition fresh_numbered : Order.Order :=
  Order.set_orderNumber (Some "DRAFT"%string) fresh.

End OrderExamples.

(** ** models/Coupon.js: the virtuals *)

Module CouponVirtuals.

Import Coupon.

(** [isExpired]: [now] is the reading of [new Date()]. *)
Definition isExpired (now : Time) (this : Coupon) : bool :=
  expiresAt this <? now.

Definition isExhausted (this : Coupon) : bool :=
  match maxUses this with
  | Some m => if negb (truthy_int m) then false else m <=? usedCount this
  | None => false
  end.

End CouponVirtuals.

(** ** routes/coupons.js: validating and applying a coupon

    The coupons of the store are kept under the identifier of their
    document.  [toUpperCase] stands for JavaScript's
    [String.prototype.toUpperCase], of which nothing is assumed. *)

Module CouponsRoute.

Record World : Type := {
  coupons : gmap string Coupon.Coupon;
  faults : list (option Exn);
  clock : nat -> Time;
  reads : nat
}.

Definition set_coupons (m : gmap string Coupon.Coupon) (w : World) : World :=
  {| coupons := m; faults := faults w; clock := clock w; reads := reads w |}.

Definition set_faults (f : list (option Exn)) (w : World) : World :=
  {| coupons := coupons w; faults := f; clock := clock w; reads := reads w |}.

Definition set_reads (n : nat) (w : World) : World :=
  {| coupons := coupons w; faults := faults w; clock := clock w; reads := n |}.

(** One round trip to the store. *)
Definition await : M World unit := fun w =>
  match faults w with
  | Some e :: fs => (Thrown e, set_faults fs w)
  | None :: fs => (Returned tt, set_faults fs w)
  | [] => (Returned tt, w)
  end.

Definition Date_now : M World Time := fun w =>
  (Returned (clock w (reads w)), set_reads (S (reads w)) w).

(** Run a method on a coupon held by the handler. *)
Definition call {A} (m : M Coupon.Coupon A) (doc : Coupon.Coupon)
    : M World (A * Coupon.Coupon) :=
  fun w =>
    match m doc with
    | (Returned a, doc') => (Returned (a, doc'), w)
    | (Thrown e, _) => (Thrown e, w)
    end.

(** [coupon.save()] for the document with identifier [id]: the coupon is
    written as the handler holds it.  (Mongoose writes the fields that the
    handler changed, [usedCount] as its new value and [usedBy] as a push:
    the same, unless another write came in since the handler read the
    coupon, and then still the same for [usedCount].) *)
Definition save (id : string) (doc : Coupon.Coupon) : M World unit :=
  await ;;
  modify (fun w => set_coupons (<[id := doc]> (coupons w)) w).

(** A computation whose answer does not depend on the coupons in the
    store: it gives the same answer in two stores that differ at most in
    their coupons, and leaves two such stores. *)
Definition same_but_coupons (w1 w2 : World) : Prop :=
  faults w1 = faults w2
  /\ clock w1 = clock w2
  /\ reads w1 = reads w2.

Definition blind {A} (m : M World A) : Prop :=
  forall w1 w2,
    same_but_coupons w1 w2 ->
    fst (m w1) = fst (m w2) /\ same_but_coupons (snd (m w1)) (snd (m w2)).

(** [Math.max(0, x)] *)
Definition Math_max0 (x : Q) : Q := if Qle_bool 0 x then x else 0%Q.

(** [x || null] on the user id the middleware may have left. *)
Definition or_null (x : option string) : option string :=
  match x with
  | Some s => if truthy_str s then Some s else None
  | None => None
  end.

(** The body of the answer; a key that an answer does not have is [None]. *)
Record Data : Type := {
  code : string;
  type : option Coupon.CouponType;
  value : option Q;
  discount : Q;
  description : option string;
  finalPrice : option Q
}.

Record Response : Type := {
  status : Z;
  success : bool;
  message : Template;
  data : option Data
}.

Definition reject (st : Z) (msg : Template) : Response :=
  {| status := st; success := false; message := msg; data := None |}.

(** What the two handlers read of the request: [validationErrors] is what
    the express-validator chain left, [user] the user id set by the [auth]
    middleware if it ran, the rest is [req.body]. *)
Record Request : Type := {
  validationErrors : list string;
  user : option string;
  body_code : string;
  orderValue : Q;
  cartItems : option (list Coupon.CartItem)
}.

Section Routes.

Variable toUpperCase : string -> string.

(** [Coupon.findByCode(code)]: [findOne({ code: code.toUpperCase(),
    isActive: true })]. *)
Definition findByCode (code : string) : M World (option (string * Coupon.Coupon)) :=
  await ;;
  w ← get;
  mret (List.find
          (fun d => String.eqb (Coupon.code (snd d)) (toUpperCase code)
                    && Coupon.isActive (snd d))
          (map_to_list (coupons w))).

(** [POST /api/coupons/validate] *)
Definition validate_route (req : Request) : M World Response :=
  Store.try_catch
    (return_if (negb (Nat.eqb (length (validationErrors req)) 0))
       (reject 400 [Lit "Validation failed"]) ;;;
     let cartItems := default [] (cartItems req) in
     let userId := or_null (user req) in
     found ← findByCode (body_code req);
     match found with
     | None => mret (reject 404 [Lit "Invalid coupon code"])
     | Some (id, coupon) =>
         now ← Date_now;
         validated ← call (Coupon.validate now (orderValue req) userId cartItems) coupon;
         let validation := fst validated in
         let coupon := snd validated in
         return_if (negb (Coupon.valid validation))
           (reject 400 (Coupon.message validation)) ;;;
         discounted ← call (Coupon.calculateDiscount (orderValue req)) coupon;
         let discount := fst discounted in
         let coupon := snd discounted in
         mret {| status := 200; success := true;
                 message := [Lit "Coupon is valid"];
                 data := Some {| code := Coupon.code coupon;
                                 type := Some (Coupon.type coupon);
                                 value := Some (Coupon.value coupon);
                                 discount := discount;
                                 description := Coupon.description coupon;
                                 finalPrice := None |} |}
     end)
    (fun error => mret (reject 500 [Lit "Server error while validating coupon"])).

(** [POST /api/coupons/apply]: [userId] is [req.user.userId], set by the
    [auth] middleware.  [validate] is called without cart items. *)
Definition apply_route (userId : string) (req : Request) : M World Response :=
  Store.try_catch
    (return_if (negb (Nat.eqb (length (validationErrors req)) 0))
       (reject 400 [Lit "Validation failed"]) ;;;
     found ← findByCode (body_code req);
     match found with
     | None => mret (reject 404 [Lit "Invalid coupon code"])
     | Some (id, coupon) =>
         now ← Date_now;
         validated ← call (Coupon.validate now (orderValue req) (Some userId) []) coupon;
         let validation := fst validated in
         let coupon := snd validated in
         return_if (negb (Coupon.valid validation))
           (reject 400 (Coupon.message validation)) ;;;
         discounted ← call (Coupon.calculateDiscount (orderValue req)) coupon;
         let discount := fst discounted in
         let coupon := snd discounted in
         usedAt ← Date_now;
         applied ← call (Coupon.apply usedAt (Some userId) (orderValue req)) coupon;
         let coupon := snd applied in
         save id coupon ;;
         mret {| status := 200; success := true;
                 message := [Lit "Coupon applied successfully"];
                 data := Some {| code := Coupon.code coupon;
                                 type := None;
                                 value := None;
                                 discount := discount;
                                 description := None;
                                 finalPrice :=
                                   Some (Math_max0 (orderValue req - discount)%Q) |} |}
     end)
    (fun error => mret (reject 500 [Lit "Server error while applying coupon"])).

(** [POST /api/coupons/apply] as the event loop runs it.  A handler gives
    way to other requests where it [await]s: while [findByCode] is answered
    and while [save] is.  [apply_read] is the handler up to the answer of
    [findByCode]: what it holds there is an answer already made, or what was
    found, a copy of the stored coupon.  [apply_resume] is the handler from
    there on. *)
Definition apply_read (req : Request)
    : M World (Response + option (string * Coupon.Coupon)) :=
  Store.try_catch
    (return_if (negb (Nat.eqb (length (validationErrors req)) 0))
       (inl (reject 400 [Lit "Validation failed"])) ;;;
     found ← findByCode (body_code req);
     mret (inr found))
    (fun error =>
       mret (inl (reject 500 [Lit "Server error while applying coupon"]))).

Definition apply_resume (userId : string) (req : Request)
    (held : Response + option (string * Coupon.Coupon)) : M World Response :=
  match held with
  | inl response => mret response
  | inr found =>
      Store.try_catch
        match found with
        | None => mret (reject 404 [Lit "Invalid coupon code"])
        | Some (id, coupon) =>
            now ← Date_now;
            validated ← call (Coupon.validate now (orderValue req) (Some userId) []) coupon;
            let validation := fst validated in
            let coupon := snd validated in
            return_if (negb (Coupon.valid validation))
              (reject 400 (Coupon.message validation)) ;;;
            discounted ← call (Coupon.calculateDiscount (orderValue req)) coupon;
            let discount := fst discounted in
            let coupon := snd discounted in
            usedAt ← Date_now;
            applied ← call (Coupon.apply usedAt (Some userId) (orderValue req)) coupon;
            let coupon := snd applied in
            save id coupon ;;
            mret {| status := 200; success := true;
                    message := [Lit "Coupon applied successfully"];
                    data := Some {| code := Coupon.code coupon;
                                    type := None;
                                    value := None;
                                    discount := discount;
                                    description := None;
                                    finalPrice :=
                                      Some (Math_max0 (orderValue req - discount)%Q) |} |}
        end
        (fun error =>
           mret (reject 500 [Lit "Server error while applying coupon"]))
  end.

(** Two requests, one after the other. *)
Definition apply_in_turn (userA : string) (reqA : Request)
    (userB : string) (reqB : Request) : M World (Response * Response) :=
  responseA ← apply_route userA reqA;
  responseB ← apply_route userB reqB;
  mret (responseA, responseB).

(** Two requests at the same time, where [findByCode] has answered both
    before either handler goes on. *)
Definition apply_both_read_first (userA : string) (reqA : Request)
    (userB : string) (reqB : Request) : M World (Response * Response) :=
  heldA ← apply_read reqA;
  heldB ← apply_read reqB;
  responseA ← apply_resume userA reqA heldA;
  responseB ← apply_resume userB reqB heldB;
  mret (responseA, responseB).

End Routes.

End CouponsRoute.

(** ** routes/orders.js: paying, setting the status, listing *)

Module OrdersAdmin.

Import Store.

(** Assignments to the fields these handlers write. *)
Definition set_isPaid (b : bool) (o : Order.Order) : Order.Order :=
  {| Order._id := Order._id o; Order.isNew := Order.isNew o;
     Order.user := Order.user o; Order.orderNumber := Order.orderNumber o;
     Order.orderItems := Order.orderItems o;
     Order.shippingAddress := Order.shippingAddress o;
     Order.paymentMethod := Order.paymentMethod o;
     Order.paymentResult := Order.paymentResult o;
     Order.itemsPrice := Order.itemsPrice o; Order.taxPrice := Order.taxPrice o;
     Order.shippingPrice := Order.shippingPrice o;
     Order.totalPrice := Order.totalPrice o;
     Order.discountAmount := Order.discountAmount o;
     Order.couponCode := Order.couponCode o;
     Order.isPaid := b; Order.paidAt := Order.paidAt o;
     Order.isDelivered := Order.isDelivered o;
     Order.deliveredAt := Order.deliveredAt o; Order.status := Order.status o;
     Order.trackingNumber := Order.trackingNumber o;
     Order.shippingCarrier := Order.shippingCarrier o;
     Order.notes := Order.notes o; Order.statusHistory := Order.statusHistory o |}.

Definition set_paidAt (t : option Time) (o : Order.Order) : Order.Order :=
  {| Order._id := Order._id o; Order.isNew := Order.isNew o;
     Order.user := Order.user o; Order.orderNumber := Order.orderNumber o;
     Order.orderItems := Order.orderItems o;
     Order.shippingAddress := Order.shippingAddress o;
     Order.paymentMethod := Order.paymentMethod o;
     Order.paymentResult := Order.paymentResult o;
     Order.itemsPrice := Order.itemsPrice o; Order.taxPrice := Order.taxPrice o;
     Order.shippingPrice := Order.shippingPrice o;
     Order.totalPrice := Order.totalPrice o;
     Order.discountAmount := Order.discountAmount o;
     Order.couponCode := Order.couponCode o;
     Order.isPaid := Order.isPaid o; Order.paidAt := t;
     Order.isDelivered := Order.isDelivered o;
     Order.deliveredAt := Order.deliveredAt o; Order.status := Order.status o;
     Order.trackingNumber := Order.trackingNumber o;
     Order.shippingCarrier := Order.shippingCarrier o;
     Order.notes := Order.notes o; Order.statusHistory := Order.statusHistory o |}.

Definition set_paymentResult (r : option Order.Payment.PaymentResult)
    (o : Order.Order) : Order.Order :=
  {| Order._id := Order._id o; Order.isNew := Order.isNew o;
     Order.user := Order.user o; Order.orderNumber := Order.orderNumber o;
     Order.orderItems := Order.orderItems o;
     Order.shippingAddress := Order.shippingAddress o;
     Order.paymentMethod := Order.paymentMethod o;
     Order.paymentResult := r;
     Order.itemsPrice := Order.itemsPrice o; Order.taxPrice := Order.taxPrice o;
     Order.shippingPrice := Order.shippingPrice o;
     Order.totalPrice := Order.totalPrice o;
     Order.discountAmount := Order.discountAmount o;
     Order.couponCode := Order.couponCode o;
     Order.isPaid := Order.isPaid o; Order.paidAt := Order.paidAt o;
     Order.isDelivered := Order.isDelivered o;
     Order.deliveredAt := Order.deliveredAt o; Order.status := Order.status o;
     Order.trackingNumber := Order.trackingNumber o;
     Order.shippingCarrier := Order.shippingCarrier o;
     Order.notes := Order.notes o; Order.statusHistory := Order.statusHistory o |}.

Definition set_trackingNumber (s : string) (o : Order.Order) : Order.Order :=
  {| Order._id := Order._id o; Order.isNew := Order.isNew o;
     Order.user := Order.user o; Order.orderNumber := Order.orderNumber o;
     Order.orderItems := Order.orderItems o;
     Order.shippingAddress := Order.shippingAddress o;
     Order.paymentMethod := Order.paymentMethod o;
     Order.paymentResult := Order.paymentResult o;
     Order.itemsPrice := Order.itemsPrice o; Order.taxPrice := Order.taxPrice o;
     Order.shippingPrice := Order.shippingPrice o;
     Order.totalPrice := Order.totalPrice o;
     Order.discountAmount := Order.discountAmount o;
     Order.couponCode := Order.couponCode o;
     Order.isPaid := Order.isPaid o; Order.paidAt := Order.paidAt o;
     Order.isDelivered := Order.isDelivered o;
     Order.deliveredAt := Order.deliveredAt o; Order.status := Order.status o;
     Order.trackingNumber := s;
     Order.shippingCarrier := Order.shippingCarrier o;
     Order.notes := Order.notes o; Order.statusHistory := Order.statusHistory o |}.

Definition set_shippingCarrier (s : string) (o : Order.Order) : Order.Order :=
  {| Order._id := Order._id o; Order.isNew := Order.isNew o;
     Order.user := Order.user o; Order.orderNumber := Order.orderNumber o;
     Order.orderItems := Order.orderItems o;
     Order.shippingAddress := Order.shippingAddress o;
     Order.paymentMethod := Order.paymentMethod o;
     Order.paymentResult := Order.paymentResult o;
     Order.itemsPrice := Order.itemsPrice o; Order.taxPrice := Order.taxPrice o;
     Order.shippingPrice := Order.shippingPrice o;
     Order.totalPrice := Order.totalPrice o;
     Order.discountAmount := Order.discountAmount o;
     Order.couponCode := Order.couponCode o;
     Order.isPaid := Order.isPaid o; Order.paidAt := Order.paidAt o;
     Order.isDelivered := Order.isDelivered o;
     Order.deliveredAt := Order.deliveredAt o; Order.status := Order.status o;
     Order.trackingNumber := Order.trackingNumber o;
     Order.shippingCarrier := s;
     Order.notes := Order.notes o; Order.statusHistory := Order.statusHistory o |}.

(** [if (x) order.field = x] *)
Definition assign_if_truthy (x : option string)
    (set : string -> Order.Order -> Order.Order) (o : Order.Order) : Order.Order :=
  match x with
  | Some s => if truthy_str s then set s o else o
  | None => o
  end.

(** [PUT /api/orders/:id/pay]: [id] is [req.params.id], [userId] comes from
    the [auth] middleware and [body] is what the handler copies of
    [req.body] into [paymentResult]. *)
Definition pay_order (id : string) (userId : string)
    (body : Order.Payment.PaymentResult) : M World OrdersRoute.Response :=
  try_catch
    (found ← Order_findById id;
     match found with
     | None => mret (OrdersRoute.reject 404 [Lit "Order not found"])
     | Some order =>
         (* Check if user owns this order *)
         return_if (negb (String.eqb (Order.user order) userId))
           (OrdersRoute.reject 403 [Lit "Access denied"]) ;;;
         return_if (Order.isPaid order)
           (OrdersRoute.reject 400 [Lit "Order is already paid"]) ;;;
         (* Update order *)
         let order := set_isPaid true order in
         paidAt ← Date_now;
         let order := set_paidAt (Some paidAt) order in
         order ← Order_updateStatus "processing" (Some "Payment received"%string) order;
         let order := set_paymentResult (Some body) order in
         updatedOrder ← save order;
         mret {| OrdersRoute.status := 200; OrdersRoute.success := true;
                 OrdersRoute.message := [Lit "Order marked as paid"];
                 OrdersRoute.data := Some updatedOrder |}
     end)
    (fun error =>
       match error with
       | CastError => mret (OrdersRoute.reject 404 [Lit "Order not found"])
       | _ => mret (OrdersRoute.reject 500
                      [Lit "Server error while updating order payment"])
       end).

(** The request of [PUT /api/orders/:id/status] as its handler sees it. *)
Record StatusRequest : Type := {
  validationErrors : list string;
  status : string;
  note : option string;
  trackingNumber : option string;
  shippingCarrier : option string
}.

(** [PUT /api/orders/:id/status] (admin only) *)
Definition update_status (id : string) (req : StatusRequest)
    : M World OrdersRoute.Response :=
  try_catch
    ((* Check for validation errors *)
     return_if (negb (Nat.eqb (length (validationErrors req)) 0))
       (OrdersRoute.reject 400 [Lit "Validation failed"]) ;;;
     found ← Order_findById id;
     match found with
     | None => mret (OrdersRoute.reject 404 [Lit "Order not found"])
     | Some order =>
         (* Update order *)
         order ← Order_updateStatus (status req) (note req) order;
         let order := assign_if_truthy (trackingNumber req) set_trackingNumber order in
         let order := assign_if_truthy (shippingCarrier req) set_shippingCarrier order in
         updatedOrder ← save order;
         mret {| OrdersRoute.status := 200; OrdersRoute.success := true;
                 OrdersRoute.message := [Lit "Order status updated successfully"];
                 OrdersRoute.data := Some updatedOrder |}
     end)
    (fun error =>
       match error with
       | CastError => mret (OrdersRoute.reject 404 [Lit "Order not found"])
       | _ => mret (OrdersRoute.reject 500
                      [Lit "Server error while updating order status"])
       end).

(** The [pagination] object of [GET /api/orders] and
    [GET /api/orders/admin/all]: [page] and [limit] are what [parseInt] gives
    for the query parameters when they are numbers, [total] is the count of
    the matching orders.  The quotient is that of the rationals, which is
    JavaScript's for a [limit] other than 0. *)
Record Pagination : Type := {
  currentPage : Z;
  totalPages : Z;
  totalOrders : Z;
  hasNextPage : bool;
  hasPrevPage : bool
}.

Definition skip (page limit : Z) : Z := (page - 1) * limit.

Definition pagination (page limit total : Z) : Pagination :=
  let totalPages := Qceiling (inject_Z total / inject_Z limit) in
  {| currentPage := page;
     totalPages := totalPages;
     totalOrders := total;
     hasNextPage := page <? totalPages;
     hasPrevPage := 1 <? page |}.

End OrdersAdmin.

(** ** models/Product.js: slug, rating, discount *)

Module ProductModel.

(** A JavaScript string as the sequence of its UTF-16 code units. *)
Definition text : Type := list N.

Definition dash : N := 45%N.

(** [[a-zA-Z0-9]] *)
Definition is_alnum (c : N) : bool :=
  ((48 <=? c) && (c <=? 57) || (65 <=? c) && (c <=? 90)
   || (97 <=? c) && (c <=? 122))%N.

(** [s.replace(/[^a-zA-Z0-9]/g, '-')] *)
Definition replace_non_alnum (s : text) : text :=
  List.map (fun c => if is_alnum c then c else dash) s.

(** [s.replace(/-+/g, '-')] *)
Fixpoint collapse_dashes (s : text) : text :=
  match s with
  | [] => []
  | c :: s' =>
      if (c =? dash)%N && match s' with d :: _ => (d =? dash)%N | [] => false end
      then collapse_dashes s'
      else c :: collapse_dashes s'
  end.

(** [s.replace(/^-|-$/g, '')]: a dash at the start goes, and a dash at the
    end of what is left. *)
Definition strip_leading (s : text) : text :=
  match s with
  | c :: s' => if (c =? dash)%N then s' else s
  | [] => []
  end.

Definition strip_trailing (s : text) : text :=
  match List.rev s with
  | c :: r => if (c =? dash)%N then List.rev r else s
  | [] => []
  end.

Definition trim_dashes (s : text) : text := strip_trailing (strip_leading s).

(** The slug the [pre('save')] hook computes from the name; [toLowerCase] is
    JavaScript's [String.prototype.toLowerCase]. *)
Definition slug_of (toLowerCase : text -> text) (name : text) : text :=
  trim_dashes (collapse_dashes (replace_non_alnum (toLowerCase name))).

Module Review.
Record Review : Type := {
  user : string;
  name : string;
  rating : Q;
  comment : string
}.
End Review.

(** The fields of a product that the methods below read or write. *)
Record Product : Type := {
  price : Q;
  comparePrice : option Q;
  reviews : list Review.Review;
  rating : Q;
  numReviews : Z
}.

Definition set_rating (r : Q) (n : Z) (p : Product) : Product :=
  {| price := price p; comparePrice := comparePrice p; reviews := reviews p;
     rating := r; numReviews := n |}.

(** [reviews.reduce((sum, review) => sum + review.rating, 0)] *)
Definition totalRating (l : list Review.Review) : Q :=
  List.fold_left (fun sum review => (sum + Review.rating review)%Q) l 0%Q.

Definition calculateAverageRating : M Product unit :=
  this ← get;
  if Nat.eqb (length (reviews this)) 0 then
    modify (set_rating 0 0)
  else
    let totalRating := totalRating (reviews this) in
    modify (set_rating
              (inject_Z (Math_round
                           (totalRating / inject_Z (Z.of_nat (length (reviews this))) * 10))
               / 10)%Q
              (Z.of_nat (length (reviews this)))).

(** The virtual [discountPercentage]. *)
Definition discountPercentage (this : Product) : Z :=
  match comparePrice this with
  | Some cp =>
      if truthy_num cp && negb (Qle_bool cp (price this))
      then Math_round ((cp - price this) / cp * 100)
      else 0
  | None => 0
  end.

End ProductModel.

(** ** More concrete coupons *)

Module MoreExamples.

Import Coupon.

(** A coupon for a single use that has been used. *)
Definition sold_out : Coupon :=
  {| code := "ONCE"; description := None; type := fixed; value := 5;
     minOrderValue := 0; maxDiscount := None; maxUses := Some 1;
     maxUsesPerUser := 1; usedCount := 1; usedBy := [];
     applicableProducts := []; applicableCategories := [];
     excludedProducts := []; isActive := true; isPublic := true;
     startDate := 0; expiresAt := 1000; createdBy := "admin" |}.

(** A coupon redeemed once, by user [u1]. *)
Definition used_once : Coupon := set_usedCount 1 Examples.only_p1_used.

(** A coupon for a single use that has not been used. *)
Definition single_use : Coupon := set_usedCount 0 sold_out.

(** The 20 percent coupon, withdrawn. *)
Definition withdrawn : Coupon := Examples.deactivate Examples.percent20_cap10.

End MoreExamples.

(** ** The limits of a coupon, for the routes *)

Module CouponLimits.

Import Coupon.

(** The counter has not passed the limit, where there is one ([0] and
    [null] are no limit for the code). *)
Definition within_maxUses (c : Coupon) : Prop :=
  match maxUses c with
  | Some m => m = 0 \/ usedCount c <= m
  | None => True
  end.

(** No user has more entries than one user may have. *)
Definition within_user_limit (c : Coupon) : Prop :=
  forall uid, Z.of_nat (CouponSpec.uses_of c uid) <= maxUsesPerUser c.

(** A store with two coupons: 20 percent capped at 10, and one restricted to
    a product. *)
Definition shop (faults : list (option Exn)) : CouponsRoute.World :=
  {| CouponsRoute.coupons :=
       <["c1"%string := Examples.percent20_cap10]>
         (<["c2"%string := Examples.only_p1]> ∅);
     CouponsRoute.faults := faults;
     CouponsRoute.clock := fun n => 5 + Z.of_nat n;
     CouponsRoute.reads := 0 |}.

(** A store with a coupon for a single use, and a withdrawn coupon. *)
Definition limited_shop (faults : list (option Exn)) : CouponsRoute.World :=
  {| CouponsRoute.coupons :=
       <["c3"%string := MoreExamples.single_use]>
         (<["c4"%string := MoreExamples.withdrawn]> ∅);
     CouponsRoute.faults := faults;
     CouponsRoute.clock := fun n => 5 + Z.of_nat n;
     CouponsRoute.reads := 0 |}.

Definition request (code : string) (orderValue : Q) : CouponsRoute.Request :=
  {| CouponsRoute.validationErrors := []; CouponsRoute.user := None;
     CouponsRoute.body_code := code; CouponsRoute.orderValue := orderValue;
     CouponsRoute.cartItems := Some Examples.cart_p1 |}.

End CouponLimits.

(** ** Orders and stock over time, for the routes *)

Module OrderLedger.

(** Every order is stored under its own identifier. *)
Definition keyed (w : Store.World) : Prop :=
  forall k o, Store.orders w !! k = Some o -> Order._id o = k.

(** [o'] is a later state of the order [o]: what was ordered, by whom and at
    what price is the same, the history has only grown, and a payment or a
    delivery that was recorded still is. *)
Record later (o o' : Order.Order) : Prop := {
  later_id : Order._id o' = Order._id o;
  later_user : Order.user o' = Order.user o;
  later_orderNumber : Order.orderNumber o' = Order.orderNumber o;
  later_orderItems : Order.orderItems o' = Order.orderItems o;
  later_shippingAddress : Order.shippingAddress o' = Order.shippingAddress o;
  later_paymentMethod : Order.paymentMethod o' = Order.paymentMethod o;
  later_itemsPrice : Order.itemsPrice o' = Order.itemsPrice o;
  later_taxPrice : Order.taxPrice o' = Order.taxPrice o;
  later_shippingPrice : Order.shippingPrice o' = Order.shippingPrice o;
  later_totalPrice : Order.totalPrice o' = Order.totalPrice o;
  later_discountAmount : Order.discountAmount o' = Order.discountAmount o;
  later_couponCode : Order.couponCode o' = Order.couponCode o;
  later_history : Order.statusHistory o `prefix_of` Order.statusHistory o';
  later_paid :
    Order.isPaid o = true ->
    Order.isPaid o' = true /\ Order.paidAt o' = Order.paidAt o
    /\ Order.paymentResult o' = Order.paymentResult o;
  later_delivered : Order.isDelivered o = true -> Order.isDelivered o' = true
}.

(** Every order of [w] is in [w'], in a later state. *)
Definition grows (w w' : Store.World) : Prop :=
  forall k o, Store.orders w !! k = Some o ->
    exists o', Store.orders w' !! k = Some o' /\ later o o'.

(** The units of product [p] on the items of an order. *)
Definition quantity_of (p : string) (items : list Order.Item.OrderItem) : Z :=
  foldr (fun item total =>
           if String.eqb (Order.Item.product item) p
           then Order.Item.quantity item + total else total) 0 items.

End OrderLedger.

(** ** More concrete orders and requests *)

Module MoreOrderExamples.

(** An order of user [u1] that has not been paid. *)
Definition unpaid : Order.Order :=
  OrdersAdmin.set_paidAt None
    (OrdersAdmin.set_isPaid false (OrderExamples.placed "pending")).

(** A store that holds one order, under its identifier. *)
Definition shop_with (o : Order.Order) (faults : list (option Exn)) : Store.World :=
  OrderExamples.shop (<[Order._id o := o]> ∅) faults.

Definition receipt : Order.Payment.PaymentResult :=
  {| Order.Payment.id := Some "pay_1"%string;
     Order.Payment.status := Some "COMPLETED"%string;
     Order.Payment.update_time := None;
     Order.Payment.email_address := None |}.

(** An admin marks an order as delivered. *)
Definition deliver : OrdersAdmin.StatusRequest :=
  {| OrdersAdmin.validationErrors := []; OrdersAdmin.status := "delivered";
     OrdersAdmin.note := None; OrdersAdmin.trackingNumber := Some "TRK1"%string;
     OrdersAdmin.shippingCarrier := None |}.

End MoreOrderExamples.

(** ** Concrete products *)

Module ProductExamples.

Import ProductModel.

(** A tee reduced from 25 to 20, with two reviews that have not been
    counted yet. *)
Definition reviewed_tee : Product :=
  {| price := 20; comparePrice := Some 25%Q;
     reviews := [{| Review.user := "u1"; Review.name := "A";
                    Review.rating := 5; Review.comment := "good" |};
                 {| Review.user := "u2"; Review.name := "B";
                    Review.rating := 4; Review.comment := "fine" |}];
     rating := 0; numReviews := 0 |}.

End ProductExamples.
(** * Properties of the coupon engine *)

Section Callbacks.

Context {A : Type}.

Lemma Array_filter_pure (f : A -> Outcome bool) (P : A -> Prop)
    `{!forall x, Decision (P x)} (l : list A) :
  Forall (fun x => f x = Returned (bool_decide (P x))) l ->
  Array_filter f l = Returned (filter P l).
Proof.
  induction 1 as [|x l Hx _ IH]; [reflexivity|].
  cbn [Array_filter]. rewrite Hx, IH. rewrite filter_cons.
  destruct (decide (P x)) as [HP|HP].
  - rewrite bool_decide_eq_true_2 by assumption. reflexivity.
  - rewrite bool_decide_eq_false_2 by assumption. reflexivity.
Qed.

Lemma Array_some_pure (f : A -> Outcome bool) (g : A -> bool) (l : list A) :
  Forall (fun x => f x = Returned (g x)) l ->
  Array_some f l = Returned (existsb g l).
Proof.
  induction 1 as [|x l Hx _ IH]; [reflexivity|].
  cbn [Array_some existsb]. rewrite Hx. cbn.
  destruct (g x); [reflexivity|exact IH].
Qed.

End Callbacks.

Lemma existsb_eqb_elem (s : string) (l : list string) :
  existsb (fun p => String.eqb p s) l = bool_decide (s ∈ l).
Proof.
  induction l as [|p l IH]; cbn [existsb].
  - symmetry. apply bool_decide_eq_false_2. inversion 1.
  - rewrite IH. destruct (String.eqb_spec p s) as [->|Hne]; cbn.
    + symmetry. apply bool_decide_eq_true_2. left.
    + apply bool_decide_ext. rewrite elem_of_cons. split; [tauto|].
      intros [Heq|Hin]; [congruence|exact Hin].
Qed.

Lemma existsb_eqb_elem' (s : string) (l : list string) :
  existsb (String.eqb s) l = bool_decide (s ∈ l).
Proof.
  rewrite <- existsb_eqb_elem.
  induction l as [|p l IH]; [reflexivity|].
  cbn [existsb]. by rewrite IH, String.eqb_sym.
Qed.

(** [products.some(p => p.toString() === item.product.toString())]: without a
    product the test throws, unless there is nothing to compare with. *)
Lemma product_in_list (l : list string) (i : Coupon.CartItem) :
  l = [] \/ Coupon.product i <> None ->
  Array_some (fun p => s ← toString (Coupon.product i); mret (String.eqb p s)) l
  = Returned (CouponSpec.in_products l i).
Proof.
  unfold CouponSpec.in_products. intros [->|Hp].
  - cbn [Array_some]. destruct (Coupon.product i); reflexivity.
  - destruct (Coupon.product i) as [s|]; [|congruence].
    rewrite <- existsb_eqb_elem. apply Array_some_pure.
    apply Forall_forall. intros p _. reflexivity.
Qed.

Lemma item_applicable_spec (c : Coupon.Coupon) (i : Coupon.CartItem) :
  (Coupon.applicableProducts c <> [] \/ Coupon.excludedProducts c <> [] ->
   Coupon.product i <> None) ->
  Coupon.item_applicable c i = Returned (CouponSpec.item_matches c i).
Proof.
  intros Hi. unfold Coupon.item_applicable, CouponSpec.item_matches.
  rewrite !product_in_list.
  - cbn. unfold CouponSpec.in_categories, Array_includes.
    destruct (Coupon.category i); [rewrite existsb_eqb_elem'|]; reflexivity.
  - destruct (Coupon.applicableProducts c) eqn:E; [by left|right].
    apply Hi. left. discriminate.
  - destruct (Coupon.excludedProducts c) eqn:E; [by left|right].
    apply Hi. right. discriminate.
Qed.

Lemma cart_applicable_spec (c : Coupon.Coupon) (cart : list Coupon.CartItem) :
  CouponSpec.products_present c cart ->
  Array_some (Coupon.item_applicable c) cart
  = Returned (existsb (CouponSpec.item_matches c) cart).
Proof.
  intros Hc. apply Array_some_pure. apply Forall_forall. intros i Hi.
  apply item_applicable_spec. intros Hl.
  specialize (Hc Hl). rewrite Forall_forall in Hc. by apply Hc.
Qed.

Lemma user_uses_spec (c : Coupon.Coupon) (uid : string) :
  Forall (fun u => Coupon.user u <> None) (Coupon.usedBy c) ->
  Array_filter (fun u => s ← toString (Coupon.user u); mret (String.eqb s uid))
    (Coupon.usedBy c)
  = Returned (filter (fun u => Coupon.user u = Some uid) (Coupon.usedBy c)).
Proof.
  intros Hu. apply Array_filter_pure.
  eapply Forall_impl; [exact Hu|]. intros u Hn. cbn beta in *.
  destruct (Coupon.user u) as [s|]; [|congruence]. cbn.
  unfold mret, Outcome_ret. f_equal.
  destruct (String.eqb_spec s uid) as [->|Hne]; symmetry.
  - by apply bool_decide_eq_true_2.
  - apply bool_decide_eq_false_2. congruence.
Qed.

Section Statements.

Context {S R : Type}.

Lemma seq_return_if (b : bool) (r : R) (rest : M S R) (s : S) :
  (return_if b r ;;; rest) s = if b then (Returned r, s) else rest s.
Proof. destruct b; reflexivity. Qed.

Lemma seq_skip (rest : M S R) (s : S) : (mret None ;;; rest) s = rest s.
Proof. reflexivity. Qed.

Lemma bind_get {A} (k : S -> M S A) (s : S) : (this ← get; k this) s = k s s.
Proof. reflexivity. Qed.

Lemma seq_bind_lift {A} (o : Outcome A) (k : A -> M S (option R)) (rest : M S R) (s : S) :
  ((x ← lift o; k x) ;;; rest) s =
  match o with Returned a => (k a ;;; rest) s | Thrown e => (Thrown e, s) end.
Proof. destruct o; reflexivity. Qed.

End Statements.

Lemma schema_ok_maxUses (c : Coupon.Coupon) (m : Z) :
  Coupon.schema_ok c = true -> Coupon.maxUses c = Some m -> 1 <= m.
Proof.
  unfold Coupon.schema_ok. intros H E. rewrite E in H.
  rewrite !andb_true_iff in H. destruct H as [[[_ H] _] _].
  by apply Z.leb_le.
Qed.

Lemma restricted_lengths (c : Coupon.Coupon) :
  (0 <? length (Coupon.applicableProducts c))%nat
  || (0 <? length (Coupon.applicableCategories c))%nat
  = CouponSpec.restricted c.
Proof.
  unfold CouponSpec.restricted.
  destruct (Coupon.applicableProducts c), (Coupon.applicableCategories c);
    reflexivity.
Qed.

(** C1.  On a saved coupon, [validate] returns what the seven checks of the
    specification give when they are applied in the order listed: the result
    is invalid with the reason of the first check that fails, and valid when
    all of them pass.  The inputs must be such that nothing absent is
    dereferenced by a check that is reached: if the first four checks pass,
    every [usedBy] entry has a user (when a user id is given); if the first
    six pass, every cart item has a product (when the coupon lists
    applicable or excluded products). *)
Theorem validate_checks_in_order (now : Time) (c : Coupon.Coupon) (orderValue : Q)
    (userId : option string) (cartItems : list Coupon.CartItem) :
  Coupon.schema_ok c = true ->
  (CouponSpec.passes_first 4 now c orderValue userId cartItems = true ->
   CouponSpec.users_present c userId) ->
  (CouponSpec.passes_first 6 now c orderValue userId cartItems = true ->
   CouponSpec.products_present c cartItems) ->
  fst (Coupon.validate now orderValue userId cartItems c)
  = Returned (CouponSpec.validate_spec now c orderValue userId cartItems).
Proof.
  intros Hschema Husers Hcart.
  unfold CouponSpec.passes_first, CouponSpec.checks in Husers, Hcart.
  cbn [take forallb fst] in Husers, Hcart.
  unfold Coupon.validate, CouponSpec.validate_spec, CouponSpec.checks.
  rewrite bind_get. cbn [List.find fst snd].
  (* 1 *)
  rewrite seq_return_if. destruct (Coupon.isActive c); [|reflexivity].
  cbn [negb].
  (* 2 *)
  rewrite seq_return_if, (Z.ltb_antisym now (Coupon.expiresAt c)).
  destruct (now <=? Coupon.expiresAt c); [|reflexivity]. cbn [negb].
  (* 3 *)
  rewrite seq_return_if, (Z.ltb_antisym (Coupon.startDate c) now).
  destruct (Coupon.startDate c <=? now); [|reflexivity]. cbn [negb].
  (* 4 *)
  rewrite seq_return_if.
  assert (match Coupon.maxUses c with
          | Some m => truthy_int m && (m <=? Coupon.usedCount c)
          | None => false
          end = negb match Coupon.maxUses c with
                     | Some m => Coupon.usedCount c <? m
                     | None => true
                     end) as ->.
  { destruct (Coupon.maxUses c) as [m|] eqn:E; [|reflexivity].
    pose proof (schema_ok_maxUses c m Hschema E) as Hm.
    unfold truthy_int. rewrite (Z.ltb_antisym m).
    destruct (Z.eqb_spec m 0); [lia|]. by rewrite negb_involutive. }
  destruct (match Coupon.maxUses c with Some m => _ | None => true end);
    [|reflexivity]. cbn [negb andb] in *.
  specialize (Husers eq_refl).
  (* 5 *)
  assert ((match userId with
           | Some uid =>
               if truthy_str uid then
                 uses ← lift (Array_filter
                   (fun u => s ← toString (Coupon.user u); mret (String.eqb s uid))
                   (Coupon.usedBy c));
                 return_if (Coupon.maxUsesPerUser c <=? Z.of_nat (length uses))
                   (Coupon.invalid
                      [Lit "You have already used this coupon the maximum number of times"])
               else mret None
           | None => mret None
           end : M Coupon.Coupon (option Coupon.ValidationResult))
          = return_if
              (negb (if CouponSpec.provided userId
                     then Z.of_nat (CouponSpec.user_uses c userId)
                          <? Coupon.maxUsesPerUser c
                     else true))
              (Coupon.invalid
                 [Lit "You have already used this coupon the maximum number of times"]))
    as ->.
  { unfold CouponSpec.users_present in Husers.
    destruct userId as [uid|]; [|reflexivity].
    cbn [CouponSpec.provided CouponSpec.user_uses] in *.
    fold (truthy_str uid) in *.
    destruct (truthy_str uid); [|reflexivity].
    rewrite (user_uses_spec c uid (Husers eq_refl)).
    unfold CouponSpec.uses_of. rewrite (Z.ltb_antisym (Coupon.maxUsesPerUser c)).
    rewrite negb_involutive. reflexivity. }
  rewrite seq_return_if.
  destruct (if CouponSpec.provided userId then _ else true); [|reflexivity].
  cbn [negb andb] in *.
  (* 6 *)
  rewrite seq_return_if.
  destruct (Qle_bool (Coupon.minOrderValue c) orderValue); [|reflexivity].
  cbn [negb andb] in *. specialize (Hcart eq_refl).
  (* 7 *)
  rewrite restricted_lengths.
  destruct (CouponSpec.restricted c); [|reflexivity].
  rewrite seq_bind_lift, (cart_applicable_spec c cartItems Hcart), seq_return_if.
  destruct (existsb (CouponSpec.item_matches c) cartItems); reflexivity.
Qed.

Lemma validate_checks_in_order_witness :
  fst (Coupon.validate 5 100 (Some "u1"%string) Examples.cart_p1 Examples.only_p1_used)
  = Returned (CouponSpec.validate_spec 5 Examples.only_p1_used 100
                (Some "u1"%string) Examples.cart_p1).
Proof.
  apply validate_checks_in_order.
  - reflexivity.
  - intros _ _. constructor; [discriminate|constructor].
  - intros _ _. constructor; [discriminate|constructor].
Defined.

Example validate_already_used :
  CouponSpec.validate_spec 5 Examples.only_p1_used 100 (Some "u1"%string) Examples.cart_p1
  = Coupon.invalid [Lit "You have already used this coupon the maximum number of times"].
Proof. reflexivity. Qed.

(** The checks are short-circuited before anything absent is touched: an
    inactive coupon is reported as such whatever its [usedBy] entries and
    whatever the cart. *)
Example validate_inactive_first :
  fst (Coupon.validate 5 100 (Some "u1"%string) Examples.cart_without_product
         (Examples.deactivate Examples.with_null_user))
  = Returned (Coupon.invalid [Lit "This coupon is not active"]).
Proof. reflexivity. Qed.

(** [validate] and [calculateDiscount] only read the coupon. *)
Lemma validate_state (now : Time) (c : Coupon.Coupon) (orderValue : Q)
    (userId : option string) (cartItems : list Coupon.CartItem) :
  snd (Coupon.validate now orderValue userId cartItems c) = c.
Proof.
  unfold Coupon.validate. rewrite bind_get.
  do 4 (rewrite seq_return_if;
        match goal with |- context [if ?b then _ else _] => destruct b end;
        [reflexivity|]).
  destruct userId as [uid|]; [destruct (truthy_str uid)|].
  1: rewrite seq_bind_lift; destruct (Array_filter _ _); [|reflexivity].
  1: rewrite seq_return_if; destruct (_ <=? _); [reflexivity|].
  2,3: rewrite seq_skip.
  all: rewrite seq_return_if; destruct (negb _); [reflexivity|].
  all: destruct (_ || _); [|reflexivity].
  all: rewrite seq_bind_lift; destruct (Array_some _ _) as [[]|]; reflexivity.
Qed.

Lemma calculateDiscount_state (c : Coupon.Coupon) (orderValue : Q) :
  snd (Coupon.calculateDiscount orderValue c) = c.
Proof. reflexivity. Qed.

Lemma apply_state (now : Time) (c : Coupon.Coupon) (userId : option string)
    (orderValue : Q) :
  snd (Coupon.apply now userId orderValue c)
  = Coupon.set_usedBy
      (Coupon.usedBy c ++
         if CouponSpec.provided userId
         then [{| Coupon.user := userId; Coupon.usedAt := now;
                  Coupon.orderValue := orderValue |}]
         else [])
      (Coupon.set_usedCount (Coupon.usedCount c + 1) c).
Proof.
  unfold Coupon.apply, CouponSpec.provided.
  destruct userId as [uid|]; [fold (truthy_str uid); destruct (truthy_str uid)|].
  - reflexivity.
  - rewrite app_nil_r. destruct c; reflexivity.
  - rewrite app_nil_r. destruct c; reflexivity.
Qed.

(** C10.  [validate] and [calculateDiscount] leave every field of the coupon
    as it was, whatever the coupon and the arguments; [apply] returns
    normally, makes [usedCount] exactly one more than it was, appends to
    [usedBy] one entry (the user, the time, the order value) when a user id
    is provided and nothing otherwise, and leaves each of the other sixteen
    fields as it was. *)
Theorem coupon_methods_frame (now : Time) (c : Coupon.Coupon) (orderValue : Q)
    (userId : option string) (cartItems : list Coupon.CartItem) :
  snd (Coupon.validate now orderValue userId cartItems c) = c
  /\ snd (Coupon.calculateDiscount orderValue c) = c
  /\ fst (Coupon.apply now userId orderValue c) = Returned tt
  /\ let c' := snd (Coupon.apply now userId orderValue c) in
     Coupon.usedCount c' = Coupon.usedCount c + 1
     /\ Coupon.usedBy c'
        = Coupon.usedBy c ++
            (if CouponSpec.provided userId
             then [{| Coupon.user := userId; Coupon.usedAt := now;
                      Coupon.orderValue := orderValue |}]
             else [])
     /\ Coupon.code c' = Coupon.code c
     /\ Coupon.description c' = Coupon.description c
     /\ Coupon.type c' = Coupon.type c
     /\ Coupon.value c' = Coupon.value c
     /\ Coupon.minOrderValue c' = Coupon.minOrderValue c
     /\ Coupon.maxDiscount c' = Coupon.maxDiscount c
     /\ Coupon.maxUses c' = Coupon.maxUses c
     /\ Coupon.maxUsesPerUser c' = Coupon.maxUsesPerUser c
     /\ Coupon.applicableProducts c' = Coupon.applicableProducts c
     /\ Coupon.applicableCategories c' = Coupon.applicableCategories c
     /\ Coupon.excludedProducts c' = Coupon.excludedProducts c
     /\ Coupon.isActive c' = Coupon.isActive c
     /\ Coupon.isPublic c' = Coupon.isPublic c
     /\ Coupon.startDate c' = Coupon.startDate c
     /\ Coupon.expiresAt c' = Coupon.expiresAt c
     /\ Coupon.createdBy c' = Coupon.createdBy c.
Proof.
  split; [apply validate_state|].
  split; [apply calculateDiscount_state|].
  split.
  { unfold Coupon.apply. destruct userId as [uid|]; [destruct (truthy_str uid)|];
      reflexivity. }
  cbv zeta. rewrite apply_state. destruct c. cbn. repeat split.
Qed.

Lemma Array_filter_throws {A} (f : A -> Outcome bool) (e : Exn) (l : list A) :
  Forall (fun x => (exists b, f x = Returned b) \/ f x = Thrown e) l ->
  Exists (fun x => f x = Thrown e) l ->
  Array_filter f l = Thrown e.
Proof.
  induction 1 as [|x l Hx _ IH]; intros Hex; [inversion Hex|].
  cbn [Array_filter]. destruct Hx as [[b Hb]|Hx].
  - rewrite Hb. apply Exists_cons in Hex as [Hhd|Htl]; [congruence|].
    cbn. rewrite (IH Htl). reflexivity.
  - rewrite Hx. reflexivity.
Qed.

(** Whenever the first four checks pass and a user id is given, one [usedBy]
    entry without a user is enough to make [validate] throw. *)
Lemma validate_throws_without_user (now : Time) (c : Coupon.Coupon)
    (orderValue : Q) (uid : string) (cartItems : list Coupon.CartItem) :
  CouponSpec.passes_first 4 now c orderValue (Some uid) cartItems = true ->
  CouponSpec.provided (Some uid) = true ->
  Exists (fun u => Coupon.user u = None) (Coupon.usedBy c) ->
  fst (Coupon.validate now orderValue (Some uid) cartItems c) = Thrown TypeError.
Proof.
  intros Hpass Hprov Hex.
  unfold CouponSpec.passes_first, CouponSpec.checks in Hpass.
  cbn [take forallb fst] in Hpass.
  rewrite !andb_true_iff in Hpass. destruct Hpass as (H1 & H2 & H3 & H4 & _).
  unfold Coupon.validate. rewrite bind_get.
  rewrite seq_return_if, H1. cbn [negb].
  rewrite seq_return_if, (Z.ltb_antisym now), H2. cbn [negb].
  rewrite seq_return_if, (Z.ltb_antisym (Coupon.startDate c)), H3. cbn [negb].
  rewrite seq_return_if.
  assert (match Coupon.maxUses c with
          | Some m => truthy_int m && (m <=? Coupon.usedCount c)
          | None => false
          end = false) as ->.
  { destruct (Coupon.maxUses c) as [m|]; [|reflexivity].
    apply Z.ltb_lt in H4. apply andb_false_iff. right. apply Z.leb_gt. exact H4. }
  cbn [CouponSpec.provided] in Hprov. fold (truthy_str uid) in Hprov.
  rewrite Hprov, seq_bind_lift.
  rewrite (Array_filter_throws _ TypeError); [reflexivity| |].
  - apply Forall_forall. intros u _.
    destruct (Coupon.user u); [left; eexists; reflexivity|right; reflexivity].
  - eapply Exists_impl; [exact Hex|]. intros u Hu. cbn beta in *.
    rewrite Hu. reflexivity.
Qed.

(** C8.  [validate] throws a [TypeError] instead of returning a result: on a
    coupon one of whose [usedBy] entries has no user, when a user id is
    given; and on a cart item without a product, when the coupon names
    applicable products. *)
Theorem validate_throws_on_absent_reference :
  fst (Coupon.validate 5 100 (Some "u1"%string) [] Examples.with_null_user)
  = Thrown TypeError
  /\ fst (Coupon.validate 5 100 None Examples.cart_without_product Examples.only_p1)
     = Thrown TypeError.
Proof. split; vm_compute; reflexivity. Qed.

(** ** Rounding to cents *)

Local Open Scope Q_scope.

Lemma calculateDiscount_round2 (c : Coupon.Coupon) (orderValue : Q) :
  exists discount,
    fst (Coupon.calculateDiscount orderValue c) = Returned (CouponSpec.round2 discount)
    /\ discount =
       match Coupon.type c with
       | Coupon.percentage =>
           let d := orderValue * Coupon.value c / 100 in
           match Coupon.maxDiscount c with
           | Some m => if truthy_num m && negb (Qle_bool d m) then m else d
           | None => d
           end
       | Coupon.fixed => Math_min (Coupon.value c) orderValue
       | Coupon.free_shipping => 0
       end.
Proof. eexists. split; reflexivity. Qed.

Lemma round2_le (x y : Q) : x <= y -> CouponSpec.round2 x <= CouponSpec.round2 y.
Proof.
  intros Hxy. unfold CouponSpec.round2.
  apply Qmult_le_compat_r; [|discriminate].
  rewrite <- Zle_Qle. apply Qfloor_resp_le. lra.
Qed.

Lemma round2_comp (x y : Q) : x == y -> CouponSpec.round2 x == CouponSpec.round2 y.
Proof. intros E. apply Qle_antisym; apply round2_le; rewrite E; apply Qle_refl. Qed.

Lemma round2_nonneg (x : Q) : 0 <= x -> 0 <= CouponSpec.round2 x.
Proof.
  intros H. apply Qle_trans with (CouponSpec.round2 0); [discriminate|].
  by apply round2_le.
Qed.

Lemma Qfloor_half (n : Z) : Qfloor (inject_Z n + (1 # 2)) = n.
Proof.
  unfold Qfloor, Qplus, inject_Z. cbn [Qnum Qden].
  change (Z.pos (1 * 2)) with 2%Z. symmetry.
  apply Z.div_unique with 1%Z; lia.
Qed.

Lemma round2_whole_cents (q : Q) : CouponSpec.whole_cents q -> CouponSpec.round2 q == q.
Proof.
  unfold CouponSpec.whole_cents, CouponSpec.round2. intros H.
  rewrite <- H at 1. rewrite Qfloor_half, H. field.
Qed.

Lemma Math_min_le_r (a b : Q) : Math_min a b <= b.
Proof.
  unfold Math_min. destruct (Qle_bool a b) eqn:E; [|apply Qle_refl].
  by apply Qle_bool_iff.
Qed.

Lemma Math_min_Qmin (a b : Q) : Math_min a b == Qmin a b.
Proof.
  unfold Math_min. destruct (Qle_bool a b) eqn:E.
  - symmetry. apply Q.min_l. by apply Qle_bool_iff.
  - symmetry. apply Q.min_r. apply Qnot_lt_le. intros Hlt.
    apply Qlt_le_weak, Qle_bool_iff in Hlt. congruence.
Qed.

Lemma schema_ok_fields (c : Coupon.Coupon) :
  Coupon.schema_ok c = true ->
  0 <= Coupon.value c
  /\ forall m, Coupon.maxDiscount c = Some m -> 0 <= m.
Proof.
  unfold Coupon.schema_ok. rewrite !andb_true_iff.
  intros [[[[[Hv _] Hm] _] _] _]. split; [by apply Qle_bool_iff|].
  intros m E. rewrite E in Hm. by apply Qle_bool_iff.
Qed.

(** The discount before rounding lies between 0 and the order value. *)
Lemma discount_within_order_value (c : Coupon.Coupon) (orderValue : Q) :
  Coupon.schema_ok c = true ->
  0 <= orderValue ->
  (Coupon.type c = Coupon.percentage -> Coupon.value c <= 100) ->
  let discount :=
    match Coupon.type c with
    | Coupon.percentage =>
        let d := orderValue * Coupon.value c / 100 in
        match Coupon.maxDiscount c with
        | Some m => if truthy_num m && negb (Qle_bool d m) then m else d
        | None => d
        end
    | Coupon.fixed => Math_min (Coupon.value c) orderValue
    | Coupon.free_shipping => 0
    end in
  0 <= discount /\ discount <= orderValue.
Proof.
  intros Hs Hov Hpct. destruct (schema_ok_fields c Hs) as [Hv Hm].
  destruct (Coupon.type c).
  - specialize (Hpct eq_refl). cbn zeta.
    assert (0 <= orderValue * Coupon.value c / 100
            /\ orderValue * Coupon.value c / 100 <= orderValue) as [H0 H1].
    { split.
      - apply Qle_shift_div_l; [reflexivity|]. nra.
      - apply Qle_shift_div_r; [reflexivity|]. nra. }
    destruct (Coupon.maxDiscount c) as [m|]; [|by split].
    specialize (Hm m eq_refl).
    destruct (truthy_num m && negb (Qle_bool _ m)) eqn:E; [|by split].
    split; [exact Hm|].
    apply andb_true_iff in E as [_ E]. apply negb_true_iff in E.
    apply Qle_trans with (orderValue * Coupon.value c / 100); [|exact H1].
    apply Qnot_lt_le. intros Hlt. apply Qlt_le_weak, Qle_bool_iff in Hlt.
    congruence.
  - cbn zeta. split; [|apply Math_min_le_r].
    unfold Math_min. destruct (Qle_bool _ _); assumption.
  - cbn zeta. split; [apply Qle_refl|exact Hov].
Qed.

(** C2, amended.  For a coupon that satisfies the validators of its schema,
    of any type, whose [value] is at most 100 when it is a percentage, and a
    non-negative order value, [calculateDiscount] returns an amount that is
    not negative and not greater than the order value rounded to two
    decimals; so not greater than the order value itself when that is a whole
    number of cents. *)
Theorem calculateDiscount_bounds (c : Coupon.Coupon) (orderValue : Q) :
  Coupon.schema_ok c = true ->
  0 <= orderValue ->
  (Coupon.type c = Coupon.percentage -> Coupon.value c <= 100) ->
  exists d,
    fst (Coupon.calculateDiscount orderValue c) = Returned d
    /\ 0 <= d
    /\ d <= CouponSpec.round2 orderValue
    /\ (CouponSpec.whole_cents orderValue -> d <= orderValue).
Proof.
  intros Hs Hov Hpct.
  destruct (calculateDiscount_round2 c orderValue) as (discount & Hd & ->).
  destruct (discount_within_order_value c orderValue Hs Hov Hpct) as [H0 H1].
  cbv zeta in H0, H1, Hd. eexists. split; [exact Hd|].
  split; [by apply round2_nonneg|].
  split; [by apply round2_le|].
  intros Hc. apply Qle_trans with (CouponSpec.round2 orderValue).
  - by apply round2_le.
  - apply Qle_lteq. right. by apply round2_whole_cents.
Qed.

Lemma calculateDiscount_bounds_witness :
  exists d,
    fst (Coupon.calculateDiscount 100 Examples.percent20_cap10) = Returned d
    /\ 0 <= d
    /\ d <= CouponSpec.round2 100
    /\ (CouponSpec.whole_cents 100 -> d <= 100).
Proof.
  apply (calculateDiscount_bounds Examples.percent20_cap10 100).
  - reflexivity.
  - discriminate.
  - intros _. discriminate.
Defined.

(** C2, as stated, fails: a percentage above 100 yields more than the order
    value (150 percent of 10 is 15), and rounding can lift a fixed discount
    above an order value that has more than two decimals (50 off 30.006 is
    30.01). *)
Lemma calculateDiscount_exceeds_order_value :
  (Coupon.schema_ok Examples.percent150 = true
   /\ Coupon.type Examples.percent150 = Coupon.percentage
   /\ 0 <= 10
   /\ exists d, fst (Coupon.calculateDiscount 10 Examples.percent150) = Returned d
                /\ d == 15 /\ ~ d <= 10)
  /\ (Coupon.schema_ok Examples.fixed50 = true
      /\ Coupon.type Examples.fixed50 = Coupon.fixed
      /\ 0 <= 30006 # 1000
      /\ exists d, fst (Coupon.calculateDiscount (30006 # 1000) Examples.fixed50)
                   = Returned d
                   /\ d == 3001 # 100 /\ ~ d <= 30006 # 1000).
Proof.
  split; (split; [reflexivity|split; [reflexivity|split; [discriminate|]]]).
  - eexists. split; [reflexivity|]. split; [reflexivity|].
    intros H. vm_compute in H. by apply H.
  - eexists. split; [reflexivity|]. split; [reflexivity|].
    intros H. vm_compute in H. by apply H.
Qed.

Lemma round2_near (x : Q) : Qabs (CouponSpec.round2 x - x) <= 1 # 200.
Proof.
  unfold CouponSpec.round2.
  pose proof (Qfloor_le (x * 100 + (1 # 2))) as H1.
  pose proof (Qlt_floor (x * 100 + (1 # 2))) as H2.
  rewrite inject_Z_plus in H2. change (inject_Z 1) with 1 in H2.
  set (k := inject_Z (Qfloor (x * 100 + (1 # 2)))) in *.
  assert (k / 100 * 100 == k) as Hk by field.
  apply Qabs_Qle_condition. split; lra.
Qed.

Lemma round2_is_whole_cents (x : Q) : CouponSpec.whole_cents (CouponSpec.round2 x).
Proof.
  unfold CouponSpec.whole_cents, CouponSpec.round2.
  set (k := Qfloor (x * 100 + (1 # 2))).
  assert (inject_Z k / 100 * 100 == inject_Z k) as Hk by field.
  assert (Qfloor (inject_Z k / 100 * 100) = k) as ->.
  { rewrite <- (Qfloor_Z k) at 2. apply Qfloor_comp, Hk. }
  symmetry. exact Hk.
Qed.

(** C3, amended.  [calculateDiscount] returns an amount in whole cents that
    is within half a cent of: for a percentage coupon,
    [orderValue * value / 100], clamped down to [maxDiscount] when
    [maxDiscount] is set to a non-zero amount; for a fixed coupon, the
    smaller of [value] and the order value; for a free-shipping coupon, 0.
    (To which cent an amount that lies halfway goes is not stated: see the
    conventions on numbers.) *)
Theorem calculateDiscount_formula (c : Coupon.Coupon) (orderValue : Q) :
  (forall m, Coupon.maxDiscount c = Some m -> ~ m == 0) ->
  exists d,
    fst (Coupon.calculateDiscount orderValue c) = Returned d
    /\ CouponSpec.whole_cents d
    /\ Qabs (d - CouponSpec.discount_spec c orderValue) <= 1 # 200.
Proof.
  intros Hcap.
  destruct (calculateDiscount_round2 c orderValue) as (discount & Hd & Hraw).
  eexists. split; [exact Hd|]. split; [apply round2_is_whole_cents|].
  assert (discount == CouponSpec.discount_spec c orderValue) as <-;
    [|apply round2_near].
  rewrite Hraw. clear Hd Hraw discount.
  unfold CouponSpec.discount_spec. destruct (Coupon.type c); cbv zeta.
  - destruct (Coupon.maxDiscount c) as [m|]; [|reflexivity].
    specialize (Hcap m eq_refl).
    assert (truthy_num m = true) as ->.
    { unfold truthy_num. apply negb_true_iff.
      destruct (Qeq_bool m 0) eqn:E; [|reflexivity].
      apply Qeq_bool_iff in E. contradiction. }
    cbn [andb].
    destruct (Qle_bool (orderValue * Coupon.value c / 100) m) eqn:E; cbn [negb].
    + symmetry. apply Q.min_l. by apply Qle_bool_iff.
    + symmetry. apply Q.min_r. apply Qnot_lt_le. intros Hlt.
      apply Qlt_le_weak, Qle_bool_iff in Hlt. congruence.
  - apply Math_min_Qmin.
  - reflexivity.
Qed.

(** 20 percent of 100, capped at 10, is 10. *)
Lemma calculateDiscount_formula_witness :
  exists d,
    fst (Coupon.calculateDiscount 100 Examples.percent20_cap10) = Returned d
    /\ CouponSpec.whole_cents d
    /\ Qabs (d - CouponSpec.discount_spec Examples.percent20_cap10 100) <= 1 # 200.
Proof.
  apply (calculateDiscount_formula Examples.percent20_cap10 100).
  intros m [= <-]. discriminate.
Defined.

Example calculateDiscount_capped :
  exists d, fst (Coupon.calculateDiscount 100 Examples.percent20_cap10) = Returned d
            /\ d == 10.
Proof. eexists. split; reflexivity. Qed.

Example calculateDiscount_fixed_capped :
  exists d, fst (Coupon.calculateDiscount 30 Examples.fixed50) = Returned d
            /\ d == 30.
Proof. eexists. split; reflexivity. Qed.

(** C3, as stated, fails for a cap of 0: 20 percent of 100 with
    [maxDiscount = 0] is not clamped to 0 but stays 20, twenty away from
    the clamped amount. *)
Lemma calculateDiscount_zero_cap_not_applied :
  Coupon.maxDiscount Examples.percent20_cap0 = Some 0
  /\ CouponSpec.round2 (CouponSpec.discount_spec Examples.percent20_cap0 100) == 0
  /\ exists d,
       fst (Coupon.calculateDiscount 100 Examples.percent20_cap0) = Returned d
       /\ d == 20
       /\ ~ d == CouponSpec.round2 (CouponSpec.discount_spec Examples.percent20_cap0 100)
       /\ ~ Qabs (d - CouponSpec.discount_spec Examples.percent20_cap0 100) <= 1 # 200.
Proof.
  split; [reflexivity|]. split; [reflexivity|].
  eexists. split; [reflexivity|]. split; [reflexivity|].
  split; [discriminate|]. intros H. apply H. reflexivity.
Qed.

Local Close Scope Q_scope.

(** * Properties of the order lifecycle *)

(** What [updateStatus] does, field by field. *)
Lemma updateStatus_run (now1 now2 : Time) (newStatus : string)
    (note : option string) (o : Order.Order) :
  let delivered := String.eqb newStatus "delivered" in
  Order.updateStatus now1 now2 newStatus note o
  = (Returned tt,
     {| Order._id := Order._id o;
        Order.isNew := Order.isNew o;
        Order.user := Order.user o;
        Order.orderNumber := Order.orderNumber o;
        Order.orderItems := Order.orderItems o;
        Order.shippingAddress := Order.shippingAddress o;
        Order.paymentMethod := Order.paymentMethod o;
        Order.paymentResult := Order.paymentResult o;
        Order.itemsPrice := Order.itemsPrice o;
        Order.taxPrice := Order.taxPrice o;
        Order.shippingPrice := Order.shippingPrice o;
        Order.totalPrice := Order.totalPrice o;
        Order.discountAmount := Order.discountAmount o;
        Order.couponCode := Order.couponCode o;
        Order.isPaid := Order.isPaid o;
        Order.paidAt := Order.paidAt o;
        Order.isDelivered := if delivered then true else Order.isDelivered o;
        Order.deliveredAt := if delivered then Some now2 else Order.deliveredAt o;
        Order.status := newStatus;
        Order.trackingNumber := Order.trackingNumber o;
        Order.shippingCarrier := Order.shippingCarrier o;
        Order.notes := Order.notes o;
        Order.statusHistory :=
          Order.statusHistory o ++
            [{| Order.History.status := newStatus;
                Order.History.date := now1;
                Order.History.note := default ""%string note |}] |}).
Proof.
  unfold Order.updateStatus. cbv zeta.
  destruct (String.eqb newStatus "delivered"); [reflexivity|].
  destruct (String.eqb newStatus "cancelled" || String.eqb newStatus "refunded");
    reflexivity.
Qed.

(** C4.  For every order, status value and note, [updateStatus] returns
    normally, sets [status] to the new status and appends exactly one entry
    (the new status, the clock reading, the note or the empty string) after
    the existing entries of [statusHistory], which it keeps as they are.  For
    ['delivered'] it sets [isDelivered] and [deliveredAt]; for any other
    status both keep their values; and no other field ([isPaid], [paidAt],
    ...) ever changes. *)
Theorem updateStatus_effect (now1 now2 : Time) (newStatus : string)
    (note : option string) (o : Order.Order) :
  let delivered := String.eqb newStatus "delivered" in
  Order.updateStatus now1 now2 newStatus note o
  = (Returned tt,
     {| Order._id := Order._id o;
        Order.isNew := Order.isNew o;
        Order.user := Order.user o;
        Order.orderNumber := Order.orderNumber o;
        Order.orderItems := Order.orderItems o;
        Order.shippingAddress := Order.shippingAddress o;
        Order.paymentMethod := Order.paymentMethod o;
        Order.paymentResult := Order.paymentResult o;
        Order.itemsPrice := Order.itemsPrice o;
        Order.taxPrice := Order.taxPrice o;
        Order.shippingPrice := Order.shippingPrice o;
        Order.totalPrice := Order.totalPrice o;
        Order.discountAmount := Order.discountAmount o;
        Order.couponCode := Order.couponCode o;
        Order.isPaid := Order.isPaid o;
        Order.paidAt := Order.paidAt o;
        Order.isDelivered := if delivered then true else Order.isDelivered o;
        Order.deliveredAt := if delivered then Some now2 else Order.deliveredAt o;
        Order.status := newStatus;
        Order.trackingNumber := Order.trackingNumber o;
        Order.shippingCarrier := Order.shippingCarrier o;
        Order.notes := Order.notes o;
        Order.statusHistory :=
          Order.statusHistory o ++
            [{| Order.History.status := newStatus;
                Order.History.date := now1;
                Order.History.note := default ""%string note |}] |}).
Proof. apply updateStatus_run. Qed.

(** ** The store when it works *)

Lemma bind_cases {S A B} (m : M S A) (k : A -> M S B) (s : S) :
  (exists a s1, m s = (Returned a, s1) /\ (m ≫= k) s = k a s1)
  \/ (exists e s1, m s = (Thrown e, s1) /\ (m ≫= k) s = (Thrown e, s1)).
Proof.
  unfold mbind, M_bind. destruct (m s) as [[a|e] s1]; [left|right]; eauto.
Qed.

Lemma bind_inv {S A B} (m : M S A) (k : A -> M S B) (s s' : S) (out : Outcome B) :
  (m ≫= k) s = (out, s') ->
  (exists a s1, m s = (Returned a, s1) /\ k a s1 = (out, s'))
  \/ (exists e, m s = (Thrown e, s') /\ out = Thrown e).
Proof.
  unfold mbind, M_bind. destruct (m s) as [[a|e] s1]; intros H.
  - left. eauto.
  - right. injection H as <- <-. eauto.
Qed.

Lemma seq_inv {S R} (stmt : M S (option R)) (rest : M S R) (s s' : S)
    (out : Outcome R) :
  (stmt ;;; rest) s = (out, s') ->
  (exists r s1, stmt s = (Returned (Some r), s1) /\ out = Returned r /\ s' = s1)
  \/ (exists s1, stmt s = (Returned None, s1) /\ rest s1 = (out, s'))
  \/ (exists e, stmt s = (Thrown e, s') /\ out = Thrown e).
Proof.
  unfold seq. intros H. apply bind_inv in H as [(a & s1 & H1 & H2)|H]; [|by auto].
  destruct a as [r|].
  - left. injection H2 as <- <-. eauto.
  - right. left. eauto.
Qed.

Lemma bind_inv_thrown {S A B} (m : M S A) (k : A -> M S B) (s s1 : S) (e : Exn) :
  m s = (Thrown e, s1) -> (m ≫= k) s = (Thrown e, s1).
Proof. intros E. unfold mbind, M_bind. rewrite E. reflexivity. Qed.

Lemma bind_returned {S A B} (m : M S A) (k : A -> M S B) (s s1 : S) (a : A) :
  m s = (Returned a, s1) -> (m ≫= k) s = k a s1.
Proof. intros E. unfold mbind, M_bind. rewrite E. reflexivity. Qed.

Lemma try_catch_returned {S A} (body : M S A) (handler : Exn -> M S A)
    (s s1 : S) (a : A) :
  body s = (Returned a, s1) -> Store.try_catch body handler s = (Returned a, s1).
Proof. intros E. unfold Store.try_catch. rewrite E. reflexivity. Qed.

(** The operations of the store when no call fails. *)
Lemma await_ok (w : Store.World) :
  Store.faults w = [] -> Store.await w = (Returned tt, w).
Proof. intros E. unfold Store.await. rewrite E. reflexivity. Qed.

Lemma Order_findById_ok (id : string) (w : Store.World) :
  Store.faults w = [] ->
  Store.Order_findById id w
  = (Returned (Order.set_isNew false <$> Store.orders w !! id), w).
Proof.
  intros E. unfold Store.Order_findById.
  rewrite (bind_returned _ _ _ _ _ (await_ok w E)). reflexivity.
Qed.

Lemma Order_updateStatus_cancelled (note : option string) (doc : Order.Order)
    (w : Store.World) :
  Store.Order_updateStatus "cancelled" note doc w
  = (Returned
       (snd (Order.updateStatus (Store.clock w (Store.reads w))
               (Store.clock w (Store.reads w)) "cancelled" note doc)),
     Store.set_reads (S (Store.reads w)) w).
Proof. reflexivity. Qed.

(** With the store working, restoring the stock of every item succeeds and
    touches only the products. *)
Lemma restore_stock_ok (items : list Order.Item.OrderItem) (w : Store.World) :
  Store.faults w = [] ->
  exists ps',
    Store.for_of items (fun item =>
      Store.Product_inc_stock (Order.Item.product item) (Order.Item.quantity item)) w
    = (Returned tt, Store.set_products ps' w).
Proof.
  revert w. induction items as [|item items IH]; intros w E.
  - exists (Store.products w). destruct w; reflexivity.
  - cbn [Store.for_of].
    set (w1 := Store.set_products
                 (alter (Product.add_stock (Order.Item.quantity item))
                    (Order.Item.product item) (Store.products w)) w).
    assert (Store.Product_inc_stock (Order.Item.product item)
              (Order.Item.quantity item) w = (Returned tt, w1)) as E1.
    { unfold Store.Product_inc_stock.
      rewrite (bind_returned _ _ _ _ _ (await_ok w E)). reflexivity. }
    destruct (IH w1 E) as [ps' E'].
    exists ps'. rewrite (bind_returned _ _ _ _ _ E1), E'.
    destruct w; reflexivity.
Qed.

Lemma save_old_ok (doc : Order.Order) (w : Store.World) :
  Store.faults w = [] ->
  Order.isNew doc = false ->
  Store.save doc w
  = (Returned doc,
     Store.set_orders (<[Order._id doc := doc]> (Store.orders w)) w).
Proof.
  intros E Hold. unfold Store.save, Store.validate_before_save. rewrite Hold.
  cbn [andb]. rewrite (bind_returned (mret tt) _ w w tt eq_refl).
  assert (Store.call (Order.pre_save 0 0 0) doc w = (Returned (tt, doc), w)) as E1.
  { unfold Store.call, Order.pre_save. rewrite bind_get, Hold. reflexivity. }
  rewrite (bind_returned _ _ _ _ _ E1).
  rewrite (bind_returned _ _ _ _ _ (await_ok w E)).
  cbn [snd]. replace (Order.set_isNew false doc) with doc
    by (destruct doc; cbn in Hold; subst; reflexivity).
  reflexivity.
Qed.

Lemma Order_countDocuments_ok (w : Store.World) :
  Store.faults w = [] ->
  Store.Order_countDocuments w = (Returned (Z.of_nat (size (Store.orders w))), w).
Proof.
  intros E. unfold Store.Order_countDocuments.
  rewrite (bind_returned _ _ _ _ _ (await_ok w E)). reflexivity.
Qed.

(** The first save of a document: the hook reads the count and the clock
    twice, then the document is written. *)
Lemma save_new_ok (doc : Order.Order) (w : Store.World) :
  Store.faults w = [] ->
  Order.isNew doc = true ->
  Order.schema_ok doc = true ->
  let saved :=
    Order.set_isNew false
      (Order.set_statusHistory
         (Order.statusHistory doc
            ++ [OrderSpec.created_entry (Order.status doc)
                  (Store.clock w (S (Store.reads w)))])
         (Order.set_orderNumber
            (Some (OrderSpec.order_number (Store.clock w (Store.reads w))
                     (Z.of_nat (size (Store.orders w)))))
            doc)) in
  Store.save doc w
  = (Returned saved,
     Store.set_orders (<[Order._id doc := saved]> (Store.orders w))
       (Store.set_reads (S (S (Store.reads w))) w)).
Proof.
  intros E Hnew Hok saved. unfold Store.save, Store.validate_before_save.
  rewrite Hnew, Hok. cbn [andb negb].
  rewrite (bind_returned (mret tt) _ w w tt eq_refl).
  set (w2 := Store.set_reads (S (S (Store.reads w))) w).
  set (hooked := Order.set_statusHistory
         (Order.statusHistory doc
            ++ [OrderSpec.created_entry (Order.status doc)
                  (Store.clock w (S (Store.reads w)))])
         (Order.set_orderNumber
            (Some (OrderSpec.order_number (Store.clock w (Store.reads w))
                     (Z.of_nat (size (Store.orders w)))))
            doc)).
  assert ((count ← Store.Order_countDocuments;
           now_ms ← Store.Date_now;
           now ← Store.Date_now;
           Store.call (Order.pre_save count now_ms now) doc) w
          = (Returned (tt, hooked), w2)) as E1.
  { rewrite (bind_returned _ _ _ _ _ (Order_countDocuments_ok w E)).
    unfold Store.call, Order.pre_save.
    unfold mbind at 1 2, M_bind at 1 2, Store.Date_now.
    rewrite bind_get, Hnew. destruct doc, w; reflexivity. }
  rewrite (bind_returned _ _ _ _ _ E1).
  assert (Store.faults w2 = []) as E2 by exact E.
  rewrite (bind_returned _ _ _ _ _ (await_ok w2 E2)).
  assert (Order._id hooked = Order._id doc) as Hid by (destruct doc; reflexivity).
  cbn [snd]. fold saved.
  replace (Order._id saved) with (Order._id doc) by (destruct doc; reflexivity).
  reflexivity.
Qed.


(** ** What a computation on the store leaves alone *)

Section Keeps.

Context {T : Type} (part : Store.World -> T).

Local Abbreviation keeps := (Store.keeps part).

Lemma keeps_ret {A} (a : A) : keeps (mret a).
Proof. intros w. reflexivity. Qed.

Lemma keeps_bind {A B} (m : M Store.World A) (k : A -> M Store.World B) :
  keeps m -> (forall a, keeps (k a)) -> keeps (m ≫= k).
Proof.
  intros Hm Hk w. unfold mbind, M_bind.
  specialize (Hm w). destruct (m w) as [[a|e] w1]; cbn [snd] in *.
  - rewrite (Hk a w1). exact Hm.
  - exact Hm.
Qed.

Lemma keeps_get : keeps get.
Proof. intros w. reflexivity. Qed.

Lemma keeps_call {A} (m : M Order.Order A) (doc : Order.Order) :
  keeps (Store.call m doc).
Proof. intros w. unfold Store.call. destruct (m doc) as [[a|e] d]; reflexivity. Qed.

Lemma keeps_for_of {A} (l : list A) (f : A -> M Store.World unit) :
  (forall x, keeps (f x)) -> keeps (Store.for_of l f).
Proof.
  intros Hf. induction l as [|x l IH]; cbn [Store.for_of].
  - apply keeps_ret.
  - apply keeps_bind; [apply Hf|]. intros _. exact IH.
Qed.

(** The parts of the store that waiting and reading the clock do not
    touch. *)
Hypothesis part_faults : forall f w, part (Store.set_faults f w) = part w.
Hypothesis part_reads : forall n w, part (Store.set_reads n w) = part w.

Lemma keeps_await : keeps Store.await.
Proof.
  intros w. unfold Store.await.
  destruct (Store.faults w) as [|[e|] fs]; cbn [snd];
    [reflexivity|apply part_faults..].
Qed.

Lemma keeps_Date_now : keeps Store.Date_now.
Proof. intros w. apply part_reads. Qed.

Lemma keeps_Product_findById (id : string) : keeps (Store.Product_findById id).
Proof.
  apply keeps_bind; [apply keeps_await|]. intros _.
  apply keeps_bind; [apply keeps_get|]. intros w. apply keeps_ret.
Qed.

Lemma keeps_Order_findById (id : string) : keeps (Store.Order_findById id).
Proof.
  apply keeps_bind; [apply keeps_await|]. intros _.
  apply keeps_bind; [apply keeps_get|]. intros w. apply keeps_ret.
Qed.

Lemma keeps_Order_countDocuments : keeps Store.Order_countDocuments.
Proof.
  apply keeps_bind; [apply keeps_await|]. intros _.
  apply keeps_bind; [apply keeps_get|]. intros w. apply keeps_ret.
Qed.

Lemma keeps_Order_updateStatus (newStatus : string) (note : option string)
    (doc : Order.Order) :
  keeps (Store.Order_updateStatus newStatus note doc).
Proof.
  apply keeps_bind; [apply keeps_Date_now|]. intros now1.
  apply keeps_bind.
  { destruct (String.eqb newStatus "delivered");
      [apply keeps_Date_now|apply keeps_ret]. }
  intros now2. apply keeps_bind; [apply keeps_call|]. intros u. apply keeps_ret.
Qed.

(** The hook of [save], before anything is written. *)
Lemma keeps_save_hook (doc : Order.Order) :
  keeps (if Order.isNew doc then
           count ← Store.Order_countDocuments;
           now_ms ← Store.Date_now;
           now ← Store.Date_now;
           Store.call (Order.pre_save count now_ms now) doc
         else Store.call (Order.pre_save 0 0 0) doc).
Proof.
  destruct (Order.isNew doc); [|apply keeps_call].
  apply keeps_bind; [apply keeps_Order_countDocuments|]. intros count.
  apply keeps_bind; [apply keeps_Date_now|]. intros now_ms.
  apply keeps_bind; [apply keeps_Date_now|]. intros now.
  apply keeps_call.
Qed.

Lemma keeps_validate_items (items : list OrdersRoute.ItemBody)
    (validated : list Order.Item.OrderItem) (total : Q) :
  keeps (OrdersRoute.validate_items items validated total).
Proof.
  revert validated total.
  induction items as [|item rest IH]; intros validated total;
    cbn [OrdersRoute.validate_items].
  - apply keeps_ret.
  - apply keeps_bind; [apply keeps_Product_findById|].
    intros [p|]; [|apply keeps_ret].
    destruct (negb (Product.isActive p)); [apply keeps_ret|].
    destruct (Product.stock p <? OrdersRoute.quantity item); [apply keeps_ret|].
    apply IH.
Qed.

End Keeps.

Lemma keeps_orders_inc_stock (id : string) (d : Z) :
  Store.keeps Store.orders (Store.Product_inc_stock id d).
Proof.
  apply keeps_bind; [by apply keeps_await|]. intros _ w. reflexivity.
Qed.

(** A new document that does not pass the validators is rejected before
    anything is asked of the store or the clock. *)
Lemma save_rejected (doc : Order.Order) (w : Store.World) :
  Order.isNew doc = true ->
  Order.schema_ok doc = false ->
  Store.save doc w = (Thrown ValidationError, w).
Proof.
  intros Hnew Hbad. unfold Store.save, Store.validate_before_save.
  rewrite Hnew, Hbad. reflexivity.
Qed.

Lemma await_inv (w w1 : Store.World) (out : Outcome unit) :
  Store.await w = (out, w1) ->
  Store.products w1 = Store.products w /\ Store.orders w1 = Store.orders w
  /\ Store.clock w1 = Store.clock w /\ Store.reads w1 = Store.reads w.
Proof.
  unfold Store.await.
  destruct (Store.faults w) as [|[e|] fs]; intros [= _ <-]; repeat split.
Qed.

(** What [save] has done when it returns: the document passed the
    validation if it was new, the hook has run on the count of the orders
    and the next two readings of the clock, and the result is what is
    stored. *)
Lemma save_returned (doc saved : Order.Order) (w w' : Store.World) :
  Store.save doc w = (Returned saved, w') ->
  (Order.isNew doc = true -> Order.schema_ok doc = true)
  /\ saved
     = Order.set_isNew false
         (if Order.isNew doc
          then Order.set_statusHistory
                 (Order.statusHistory doc
                    ++ [OrderSpec.created_entry (Order.status doc)
                          (Store.clock w (S (Store.reads w)))])
                 (Order.set_orderNumber
                    (Some (OrderSpec.order_number (Store.clock w (Store.reads w))
                             (Z.of_nat (size (Store.orders w)))))
                    doc)
          else doc)
  /\ Store.orders w' = <[Order._id doc := saved]> (Store.orders w)
  /\ Store.products w' = Store.products w.
Proof.
  unfold Store.save, Store.validate_before_save. intros H.
  apply bind_inv in H as [([] & w0 & Hval & H)|(e & _ & [=])].
  assert (w0 = w /\ (Order.isNew doc = true -> Order.schema_ok doc = true))
    as [-> Hok].
  { destruct (Order.isNew doc); [destruct (Order.schema_ok doc)|];
      cbv in Hval; try discriminate Hval;
      (split; [congruence|]); intros; congruence. }
  split; [exact Hok|].
  apply bind_inv in H as [([[] hooked] & w1 & Hhook & H)|(e & _ & [=])].
  apply bind_inv in H as [([] & w2 & Hwait & H)|(e & _ & [=])].
  apply await_inv in Hwait as (Hp2 & Ho2 & _ & _).
  injection H as <- <-. cbn [snd Store.orders Store.products Store.set_orders].
  destruct (Order.isNew doc) eqn:Hnew.
  - apply bind_inv in Hhook as [(count & w3 & Hcount & Hhook)|(e & _ & [=])].
    apply bind_inv in Hhook as [(now_ms & w4 & Hms & Hhook)|(e & _ & [=])].
    apply bind_inv in Hhook as [(now & w5 & Hnow & Hhook)|(e & _ & [=])].
    unfold Store.Order_countDocuments in Hcount.
    apply bind_inv in Hcount as [([] & w6 & Hwait & Hcount)|(e & _ & [=])].
    apply await_inv in Hwait as (Hp6 & Ho6 & Hc6 & Hr6).
    rewrite bind_get in Hcount. injection Hcount as <- <-.
    injection Hms as <- <-. injection Hnow as <- <-.
    revert Hhook. unfold Store.call, Order.pre_save. rewrite bind_get, Hnew.
    cbn [Store.clock Store.reads Store.set_reads].
    rewrite Hc6, Hr6, Ho6. destruct doc. cbn. intros [= <- <-]. cbn.
    rewrite Hp2, Ho2. cbn. rewrite Ho6, Hp6. repeat split.
  - revert Hhook. unfold Store.call, Order.pre_save. rewrite bind_get, Hnew.
    intros [= <- <-]. rewrite Hp2, Ho2.
    replace (Order._id (Order.set_isNew false doc)) with (Order._id doc)
      by (destruct doc; reflexivity).
    repeat split.
Qed.

(** [save] changes neither orders nor products unless it returns. *)
Lemma save_thrown (doc : Order.Order) (w w' : Store.World) (e : Exn) :
  Store.save doc w = (Thrown e, w') ->
  Store.orders w' = Store.orders w /\ Store.products w' = Store.products w.
Proof.
  unfold Store.save, Store.validate_before_save. intros H.
  apply bind_inv in H as [([] & w0 & Hval & H)|(e0 & Hval & _)].
  2: { destruct (_ && _); cbv in Hval; [|discriminate Hval].
       assert (w' = w) as -> by congruence. by split. }
  assert (w0 = w) as ->.
  { destruct (_ && _); cbv in Hval; congruence. }
  pose proof (keeps_save_hook Store.orders (fun _ _ => eq_refl)
                (fun _ _ => eq_refl) doc w) as Ko.
  pose proof (keeps_save_hook Store.products (fun _ _ => eq_refl)
                (fun _ _ => eq_refl) doc w) as Kp.
  apply bind_inv in H as [([[] hooked] & w1 & Hhook & H)|(e0 & Hhook & _)];
    rewrite Hhook in Ko, Kp; cbn [snd] in Ko, Kp; [|by split].
  apply bind_inv in H as [([] & w2 & Hwait & H)|(e0 & Hwait & _)].
  - discriminate H.
  - apply await_inv in Hwait as (Hp & Ho & _). split; congruence.
Qed.

(** [save] changes the orders only when it returns. *)
Lemma save_orders (doc : Order.Order) (w : Store.World) :
  (exists saved, fst (Store.save doc w) = Returned saved)
  \/ Store.orders (snd (Store.save doc w)) = Store.orders w.
Proof.
  destruct (Store.save doc w) as [[saved|e] w'] eqn:E.
  - left. by exists saved.
  - right. by apply save_thrown in E as [Ho _].
Qed.

(** C9.  The [pre('save')] hook, for any order, count and clock readings:
    on a new document it assigns the order number made of [INK], the time
    and the count plus one padded to four digits, and appends one history
    entry with the order's status and the note [Order created]; on a document
    that is not new it changes nothing.  Whenever [save] returns, whatever
    the store did: a document that was new had passed the validation of its
    schema and is stored as the hook made it, with the number from the
    clock and the count of the stored orders and with exactly one more
    entry; a document that was not new is stored as it is; what is returned
    is no longer new, and any later save that returns returns it unchanged
    (the same number, no further entry).  With the store working, [save]
    does return for a document that is not new and for a new one that
    passes the validation.  A new document that does not pass is rejected
    with nothing assigned and nothing stored. *)
Theorem order_first_persistence (doc : Order.Order) :
  (forall count now_ms now,
     Order.pre_save count now_ms now doc
     = (Returned tt,
        if Order.isNew doc
        then Order.set_statusHistory
               (Order.statusHistory doc
                  ++ [OrderSpec.created_entry (Order.status doc) now])
               (Order.set_orderNumber
                  (Some (OrderSpec.order_number now_ms count)) doc)
        else doc))
  /\ (forall w saved w',
        Store.save doc w = (Returned saved, w') ->
        Store.orders w' = <[Order._id doc := saved]> (Store.orders w)
        /\ Order.isNew saved = false
        /\ (Order.isNew doc = true -> Order.schema_ok doc = true)
        /\ Order.orderNumber saved
           = (if Order.isNew doc
              then Some (OrderSpec.order_number
                           (Store.clock w (Store.reads w))
                           (Z.of_nat (size (Store.orders w))))
              else Order.orderNumber doc)
        /\ Order.statusHistory saved
           = Order.statusHistory doc
               ++ (if Order.isNew doc
                   then [OrderSpec.created_entry (Order.status doc)
                           (Store.clock w (S (Store.reads w)))]
                   else [])
        /\ Order.status saved = Order.status doc
        /\ forall w2 saved2 w3,
             Store.save saved w2 = (Returned saved2, w3) -> saved2 = saved)
  /\ (forall w,
        Store.faults w = [] ->
        (Order.isNew doc = true -> Order.schema_ok doc = true) ->
        exists saved w', Store.save doc w = (Returned saved, w'))
  /\ (forall w,
        Order.isNew doc = true ->
        Order.schema_ok doc = false ->
        Store.save doc w = (Thrown ValidationError, w)).
Proof.
  split; [|split; [|split]].
  - intros count now_ms now. unfold Order.pre_save. rewrite bind_get.
    destruct (Order.isNew doc); reflexivity.
  - intros w saved w' Hsave.
    apply save_returned in Hsave as (Hok & -> & Ho & _).
    split; [exact Ho|]. split; [destruct doc; reflexivity|].
    split; [exact Hok|].
    split; [destruct (Order.isNew doc); destruct doc; reflexivity|].
    split.
    { destruct (Order.isNew doc); destruct doc; cbn;
        [reflexivity|by rewrite app_nil_r]. }
    split; [destruct (Order.isNew doc); destruct doc; reflexivity|].
    intros w2 saved2 w3 Hagain.
    apply save_returned in Hagain as (_ & -> & _).
    destruct (Order.isNew doc); destruct doc; reflexivity.
  - intros w Hf Hok. destruct (Order.isNew doc) eqn:Hnew.
    + pose proof (save_new_ok doc w Hf Hnew (Hok eq_refl)) as Esave.
      cbv zeta in Esave. eauto.
    + pose proof (save_old_ok doc w Hf Hnew) as Esave. eauto.
  - intros w. apply save_rejected.
Qed.

(** A new order that has an order number is stored with the number of the
    hook; the new order of [POST /api/orders], which has none, is
    rejected. *)
Lemma order_first_persistence_witness :
  (exists saved w',
     Store.save OrderExamples.fresh_numbered (OrderExamples.shop ∅ [])
     = (Returned saved, w')
     /\ Order.orderNumber saved = Some "INK10000001"%string
     /\ Order.statusHistory saved = [OrderSpec.created_entry "pending" 1001])
  /\ Store.save OrderExamples.fresh (OrderExamples.shop ∅ [])
     = (Thrown ValidationError, OrderExamples.shop ∅ []).
Proof.
  split.
  - destruct (proj1 (proj2 (proj2 (order_first_persistence
                                     OrderExamples.fresh_numbered)))
                (OrderExamples.shop ∅ []) eq_refl (fun _ => eq_refl))
      as (saved & w' & Hsave).
    exists saved, w'. split; [exact Hsave|].
    destruct (proj1 (proj2 (order_first_persistence OrderExamples.fresh_numbered))
                _ _ _ Hsave) as (_ & _ & _ & Hn & Hh & _).
    split; [exact Hn|exact Hh].
  - exact (proj2 (proj2 (proj2 (order_first_persistence OrderExamples.fresh)))
             (OrderExamples.shop ∅ []) eq_refl eq_refl).
Defined.

(** ** Cancelling an order *)

Lemma includes_elem (l : list string) (s : string) :
  Array_includes l (Some s) = bool_decide (s ∈ l).
Proof. apply existsb_eqb_elem'. Qed.

(** The handler changes the orders only when it answers 200. *)
Lemma cancel_order_orders (id userId : string) (reason : option string)
    (w : Store.World) :
  exists resp,
    fst (OrdersRoute.cancel_order id userId reason w) = Returned resp
    /\ (OrdersRoute.status resp <> 200 ->
        Store.orders (snd (OrdersRoute.cancel_order id userId reason w))
        = Store.orders w).
Proof.
  unfold OrdersRoute.cancel_order, Store.try_catch.
  match goal with |- context [mbind ?k ?m w] =>
    pose proof (keeps_Order_findById Store.orders (fun _ _ => eq_refl) id w) as K1;
    destruct (bind_cases m k w) as [(found & w1 & E1 & ->)|(e & w1 & E1 & ->)]
  end; rewrite E1 in K1; cbn [snd] in K1.
  2: { destruct e; eexists; (split; [reflexivity|]); intros _;
       change (Store.orders w1 = Store.orders w); exact K1. }
  destruct found as [order|].
  2: { eexists. split; [reflexivity|]. intros _. exact K1. }
  rewrite seq_return_if. destruct (negb _).
  { eexists. split; [reflexivity|]. intros _. exact K1. }
  rewrite seq_return_if. destruct (Array_includes _ _).
  { eexists. split; [reflexivity|]. intros _. exact K1. }
  match goal with |- context [mbind ?k ?m w1] =>
    pose proof (keeps_Order_updateStatus Store.orders (fun _ _ => eq_refl)
                  "cancelled"
                  (Some (or_else reason "Cancelled by customer")) order w1) as K2;
    destruct (bind_cases m k w1) as [(order' & w2 & E2 & ->)|(e & w2 & E2 & ->)]
  end; rewrite E2 in K2; cbn [snd] in K2.
  2: { destruct e; eexists; (split; [reflexivity|]); intros _;
       change (Store.orders w2 = Store.orders w); congruence. }
  match goal with |- context [mbind ?k ?m w2] =>
    pose proof (keeps_for_of Store.orders (Order.orderItems order')
                  (fun item => Store.Product_inc_stock (Order.Item.product item)
                                 (Order.Item.quantity item))
                  (fun item => keeps_orders_inc_stock _ _) w2) as K3;
    destruct (bind_cases m k w2) as [([] & w3 & E3 & ->)|(e & w3 & E3 & ->)]
  end; rewrite E3 in K3; cbn [snd] in K3.
  2: { destruct e; eexists; (split; [reflexivity|]); intros _;
       change (Store.orders w3 = Store.orders w); congruence. }
  match goal with |- context [mbind ?k ?m w3] =>
    destruct (save_orders order' w3) as [[saved Es]|K4];
    destruct (bind_cases m k w3) as [(saved' & w4 & E4 & ->)|(e & w4 & E4 & ->)]
  end.
  - eexists. split; [reflexivity|]. intros H. cbn in H. congruence.
  - rewrite E4 in Es. discriminate.
  - eexists. split; [reflexivity|]. intros H. cbn in H. congruence.
  - rewrite E4 in K4. cbn [snd] in K4.
    destruct e; eexists; (split; [reflexivity|]); intros _;
      change (Store.orders w4 = Store.orders w); congruence.
Qed.

(** C5, amended.  [PUT /api/orders/:id/cancel] always answers, and leaves
    the stored orders as they were unless it answers 200.  For a stored order
    owned by the caller, with the store working, it rejects the cancellation
    exactly when the status is ['shipped'], ['delivered'] or ['cancelled']:
    then it answers 400 and the store is left as it was (no ['cancelled']
    entry is appended); from any other status (['pending'] and
    ['processing'] among them) it answers 200 and stores the order with
    status ['cancelled'] and one more history entry. *)
Theorem cancel_order_guard (id userId : string) (reason : option string)
    (w : Store.World) :
  (exists resp,
     fst (OrdersRoute.cancel_order id userId reason w) = Returned resp
     /\ (OrdersRoute.status resp <> 200 ->
         Store.orders (snd (OrdersRoute.cancel_order id userId reason w))
         = Store.orders w))
  /\ forall o,
       Store.orders w !! id = Some o ->
       Order._id o = id ->
       Order.user o = userId ->
       Store.faults w = [] ->
       (Order.status o ∈ OrderSpec.not_cancellable ->
        OrdersRoute.cancel_order id userId reason w
        = (Returned (OrdersRoute.reject 400
                       [Lit "Cannot cancel order with status: ";
                        Lit (Order.status o)]),
           w))
       /\ (Order.status o ∉ OrderSpec.not_cancellable ->
           exists saved w',
             OrdersRoute.cancel_order id userId reason w
             = (Returned {| OrdersRoute.status := 200;
                            OrdersRoute.success := true;
                            OrdersRoute.message := [Lit "Order cancelled successfully"];
                            OrdersRoute.data := Some saved |},
                w')
             /\ Store.orders w' = <[id := saved]> (Store.orders w)
             /\ Order.status saved = "cancelled"%string
             /\ Order.statusHistory saved
                = Order.statusHistory o
                    ++ [{| Order.History.status := "cancelled";
                           Order.History.date := Store.clock w (Store.reads w);
                           Order.History.note :=
                             or_else reason "Cancelled by customer" |}]).
Proof.
  split; [apply cancel_order_orders|].
  intros o Ho Hid Huser Hf.
  assert (Order.user (Order.set_isNew false o) = userId) as Hu
    by (destruct o; exact Huser).
  assert (Order.status (Order.set_isNew false o) = Order.status o) as Hst
    by (destruct o; reflexivity).
  assert (Array_includes ["shipped"; "delivered"; "cancelled"]%string
            (Some (Order.status (Order.set_isNew false o)))
          = bool_decide (Order.status o ∈ OrderSpec.not_cancellable)) as Hinc
    by (rewrite Hst; apply includes_elem).
  unfold OrdersRoute.cancel_order. split.
  - intros Hin. apply try_catch_returned.
    rewrite (bind_returned _ _ _ _ _ (Order_findById_ok id w Hf)), Ho.
    cbn [fmap option_fmap option_map].
    rewrite seq_return_if, Hu, String.eqb_refl. cbn [negb].
    rewrite seq_return_if, Hinc, bool_decide_eq_true_2 by exact Hin.
    by rewrite Hst.
  - intros Hnot.
    set (t := Store.clock w (Store.reads w)).
    set (note := Some (or_else reason "Cancelled by customer")).
    set (order := snd (Order.updateStatus t t "cancelled" note
                         (Order.set_isNew false o))).
    set (w1 := Store.set_reads (S (Store.reads w)) w).
    destruct (restore_stock_ok (Order.orderItems order) w1 Hf) as [ps' Erestore].
    set (w2 := Store.set_products ps' w1) in *.
    assert (Order.isNew order = false) as Hold
      by (subst order; rewrite updateStatus_run; reflexivity).
    assert (Order._id order = id) as Hid'
      by (subst order; rewrite updateStatus_run; destruct o; exact Hid).
    pose proof (save_old_ok order w2 Hf Hold) as Esave. rewrite Hid' in Esave.
    exists order, (Store.set_orders (<[id := order]> (Store.orders w2)) w2).
    split; [|split; [reflexivity|split]].
    + apply try_catch_returned.
      rewrite (bind_returned _ _ _ _ _ (Order_findById_ok id w Hf)), Ho.
      cbn [fmap option_fmap option_map].
      rewrite seq_return_if, Hu, String.eqb_refl. cbn [negb].
      rewrite seq_return_if, Hinc, bool_decide_eq_false_2 by exact Hnot.
      rewrite (bind_returned _ _ _ _ _
                 (Order_updateStatus_cancelled note (Order.set_isNew false o) w)).
      fold t order w1.
      rewrite (bind_returned _ _ _ _ _ Erestore).
      rewrite (bind_returned _ _ _ _ _ Esave). reflexivity.
    + subst order. rewrite updateStatus_run. reflexivity.
    + subst order. rewrite updateStatus_run. destruct o; reflexivity.
Qed.

Lemma cancel_order_guard_witness :
  OrdersRoute.cancel_order "o1" "u1" None
    (OrderExamples.shop {[ "o1"%string := OrderExamples.placed "shipped" ]} [])
  = (Returned (OrdersRoute.reject 400
                 [Lit "Cannot cancel order with status: "; Lit "shipped"]),
     OrderExamples.shop {[ "o1"%string := OrderExamples.placed "shipped" ]} []).
Proof.
  refine (proj1 (proj2 (cancel_order_guard "o1" "u1" None
                          (OrderExamples.shop
                             {[ "o1"%string := OrderExamples.placed "shipped" ]} []))
                   (OrderExamples.placed "shipped") _ _ _ _) _).
  - reflexivity.
  - reflexivity.
  - reflexivity.
  - reflexivity.
  - apply list_elem_of_here.
Defined.

(** C5, as stated, fails: an order in status ['refunded'] is neither
    ['pending'] nor ['processing'], yet the workflow cancels it. *)
Lemma cancel_order_from_refunded :
  Order.status (OrderExamples.placed "refunded") <> "pending"%string
  /\ Order.status (OrderExamples.placed "refunded") <> "processing"%string
  /\ exists resp w',
       OrdersRoute.cancel_order "o1" "u1" None
         (OrderExamples.shop {[ "o1"%string := OrderExamples.placed "refunded" ]} [])
       = (Returned resp, w')
       /\ OrdersRoute.status resp = 200
       /\ Order.status <$> Store.orders w' !! "o1"%string = Some "cancelled"%string
       /\ Order.statusHistory <$> Store.orders w' !! "o1"%string
          = Some [OrderSpec.created_entry "pending" 800;
                  {| Order.History.status := "cancelled";
                     Order.History.date := 1000;
                     Order.History.note := "Cancelled by customer" |}].
Proof.
  split; [discriminate|]. split; [discriminate|].
  eexists _, _. split; [vm_compute; reflexivity|].
  split; [reflexivity|]. split; vm_compute; reflexivity.
Qed.

(** * Further properties of the coupon engine *)

(** X1.  A coupon that is inactive, expired or not yet started is never
    valid, and [validate] answers with a result instead of throwing,
    whatever the other fields of the coupon and whatever the arguments
    (absent user references and cart items without product included). *)
Theorem validate_outside_window (now : Time) (c : Coupon.Coupon) (orderValue : Q)
    (userId : option string) (cartItems : list Coupon.CartItem) :
  Coupon.isActive c = false \/ CouponVirtuals.isExpired now c = true
  \/ now < Coupon.startDate c ->
  exists r,
    fst (Coupon.validate now orderValue userId cartItems c) = Returned r
    /\ Coupon.valid r = false
    /\ r = Coupon.invalid
             (if negb (Coupon.isActive c) then [Lit "This coupon is not active"]
              else if CouponVirtuals.isExpired now c then [Lit "This coupon has expired"]
              else [Lit "This coupon is not yet valid"]).
Proof.
  intros H. unfold Coupon.validate, CouponVirtuals.isExpired in *.
  rewrite bind_get, seq_return_if.
  destruct (Coupon.isActive c); cbn [negb]; [|eexists; repeat split].
  rewrite seq_return_if.
  destruct (Coupon.expiresAt c <? now); [eexists; repeat split|].
  rewrite seq_return_if.
  destruct H as [H|[H|H]]; [discriminate..|].
  apply Z.ltb_lt in H. rewrite H. eexists. repeat split.
Qed.

Lemma validate_outside_window_witness :
  exists r,
    fst (Coupon.validate 2000 100 (Some "u1"%string) Examples.cart_without_product
           Examples.with_null_user) = Returned r
    /\ Coupon.valid r = false
    /\ r = Coupon.invalid [Lit "This coupon has expired"].
Proof.
  apply (validate_outside_window 2000 Examples.with_null_user 100
           (Some "u1"%string) Examples.cart_without_product).
  right. left. reflexivity.
Defined.

(** X2.  For a coupon that is active and within its dates, [validate]
    answers that the coupon has been fully redeemed exactly when the virtual
    [isExhausted] is true; and then it does so whatever the user, the order
    value and the cart. *)
Theorem validate_exhausted (now : Time) (c : Coupon.Coupon) (orderValue : Q)
    (userId : option string) (cartItems : list Coupon.CartItem) :
  Coupon.isActive c = true ->
  now <= Coupon.expiresAt c ->
  Coupon.startDate c <= now ->
  (CouponVirtuals.isExhausted c = true <->
   fst (Coupon.validate now orderValue userId cartItems c)
   = Returned (Coupon.invalid [Lit "This coupon has been fully redeemed"])).
Proof.
  intros Ha He Hs. unfold Coupon.validate. rewrite bind_get.
  rewrite seq_return_if, Ha. cbn [negb].
  rewrite seq_return_if. destruct (Z.ltb_spec (Coupon.expiresAt c) now); [lia|].
  rewrite seq_return_if. destruct (Z.ltb_spec now (Coupon.startDate c)); [lia|].
  rewrite seq_return_if.
  assert (match Coupon.maxUses c with
          | Some m => truthy_int m && (m <=? Coupon.usedCount c)
          | None => false
          end = CouponVirtuals.isExhausted c) as ->.
  { unfold CouponVirtuals.isExhausted.
    destruct (Coupon.maxUses c) as [m|]; [|reflexivity].
    destruct (truthy_int m); reflexivity. }
  destruct (CouponVirtuals.isExhausted c); [tauto|].
  split; [discriminate|]. intros Hr. exfalso.
  (* the later statements never give this message *)
  destruct userId as [uid|]; [destruct (truthy_str uid)|].
  1: rewrite seq_bind_lift in Hr; destruct (Array_filter _ _); [|discriminate].
  1: rewrite seq_return_if in Hr; destruct (_ <=? _); [discriminate|].
  2,3: rewrite seq_skip in Hr.
  all: rewrite seq_return_if in Hr; destruct (negb _); [discriminate|].
  all: destruct (_ || _); [|discriminate].
  all: rewrite seq_bind_lift in Hr; destruct (Array_some _ _) as [[]|];
    discriminate.
Qed.

Lemma validate_exhausted_witness :
  CouponVirtuals.isExhausted MoreExamples.sold_out = true <->
  fst (Coupon.validate 5 100 None [] MoreExamples.sold_out)
  = Returned (Coupon.invalid [Lit "This coupon has been fully redeemed"]).
Proof.
  apply (validate_exhausted 5 MoreExamples.sold_out 100 None []).
  - reflexivity.
  - intros H. discriminate H.
  - intros H. discriminate H.
Defined.

(** X3.  [apply] keeps two invariants of a coupon: [usedBy] never has more
    entries than [usedCount] counts, and if every [usedBy] entry has a user
    this is still so afterwards; so [apply] never creates the entry on which
    [validate] throws. *)
Theorem apply_keeps_log (now : Time) (c : Coupon.Coupon) (userId : option string)
    (orderValue : Q) :
  let c' := snd (Coupon.apply now userId orderValue c) in
  (Z.of_nat (length (Coupon.usedBy c)) <= Coupon.usedCount c ->
   Z.of_nat (length (Coupon.usedBy c')) <= Coupon.usedCount c')
  /\ (Forall (fun u => Coupon.user u <> None) (Coupon.usedBy c) ->
      Forall (fun u => Coupon.user u <> None) (Coupon.usedBy c')).
Proof.
  cbv zeta. rewrite apply_state.
  destruct c as [? ? ? ? ? ? ? ? n l ? ? ? ? ? ? ? ?]. cbn.
  destruct userId as [uid|]; cbn; [destruct (String.eqb uid ""); cbn|].
  all: rewrite ?app_nil_r, ?length_app; cbn; split; [lia|]; try tauto.
  intros H. apply Forall_app. split; [exact H|]. constructor; [discriminate|constructor].
Qed.

Lemma apply_keeps_log_witness :
  let c' := snd (Coupon.apply 7 (Some "u2"%string) 50 MoreExamples.used_once) in
  Z.of_nat (length (Coupon.usedBy c')) <= Coupon.usedCount c'.
Proof.
  apply (proj1 (apply_keeps_log 7 MoreExamples.used_once (Some "u2"%string) 50)).
  intros H. discriminate H.
Defined.

(** * Properties of the coupon routes *)

(** Close a case in which the handler answers with a failure and the
    collection is as it was. *)
Ltac same_coupons :=
  left; cbn [fst snd mret M_ret];
  split; [congruence|eexists; split; [reflexivity|split; [discriminate|reflexivity]]].

Section CouponRoutes.

Variable toUpperCase : string -> string.

Lemma coupons_await (w w1 : CouponsRoute.World) (out : Outcome unit) :
  CouponsRoute.await w = (out, w1) ->
  CouponsRoute.coupons w1 = CouponsRoute.coupons w.
Proof.
  unfold CouponsRoute.await.
  destruct (CouponsRoute.faults w) as [|[e|] fs]; intros [= _ <-]; reflexivity.
Qed.

Lemma coupons_Date_now (w w1 : CouponsRoute.World) (out : Outcome Time) :
  CouponsRoute.Date_now w = (out, w1) ->
  CouponsRoute.coupons w1 = CouponsRoute.coupons w.
Proof. intros [= _ <-]. reflexivity. Qed.

Lemma call_inv {A} (m : M Coupon.Coupon A) (doc : Coupon.Coupon)
    (w w1 : CouponsRoute.World) (out : Outcome (A * Coupon.Coupon)) :
  CouponsRoute.call m doc w = (out, w1) ->
  w1 = w
  /\ match out with
     | Returned (a, doc') => m doc = (Returned a, doc')
     | Thrown e => fst (m doc) = Thrown e
     end.
Proof.
  unfold CouponsRoute.call. destruct (m doc) as [[a|e] d]; intros [= <- <-]; auto.
Qed.

(** What [findByCode] finds is a stored coupon that is active and has the
    code asked for, in upper case. *)
Lemma findByCode_inv (code : string) (w w1 : CouponsRoute.World)
    (out : Outcome (option (string * Coupon.Coupon))) :
  CouponsRoute.findByCode toUpperCase code w = (out, w1) ->
  CouponsRoute.coupons w1 = CouponsRoute.coupons w
  /\ forall id c, out = Returned (Some (id, c)) ->
       CouponsRoute.coupons w !! id = Some c
       /\ Coupon.code c = toUpperCase code
       /\ Coupon.isActive c = true.
Proof.
  unfold CouponsRoute.findByCode. intros H.
  apply bind_inv in H as [([] & s1 & H1 & H2)|(e & H1 & ->)].
  - apply coupons_await in H1. rewrite bind_get in H2.
    injection H2 as <- <-. split; [exact H1|].
    intros id c [= Hfind]. apply find_some in Hfind as [Hin Hp].
    apply list_elem_of_In, elem_of_map_to_list in Hin.
    apply andb_true_iff in Hp as [Hcode Hact]. cbn [snd] in *.
    apply String.eqb_eq in Hcode. rewrite <- H1. auto.
  - apply coupons_await in H1. split; [exact H1|]. discriminate.
Qed.

(** Every run of [POST /api/coupons/apply] either leaves the coupons as they
    were and does not answer 200, or it found an active coupon that
    [validate] accepts for the user without cart items, stored the coupon
    that [apply] makes of it, and answers 200 with the discount and the
    price that is left. *)
Lemma apply_route_cases (userId : string) (req : CouponsRoute.Request)
    (w : CouponsRoute.World) :
  let r := CouponsRoute.apply_route toUpperCase userId req w in
  (CouponsRoute.coupons (snd r) = CouponsRoute.coupons w
   /\ exists resp, fst r = Returned resp /\ CouponsRoute.status resp <> 200
                   /\ CouponsRoute.success resp = false)
  \/ (exists id c now usedAt v d,
        CouponsRoute.coupons w !! id = Some c
        /\ Coupon.isActive c = true
        /\ Coupon.code c = toUpperCase (CouponsRoute.body_code req)
        /\ fst (Coupon.validate now (CouponsRoute.orderValue req) (Some userId) [] c)
           = Returned v
        /\ Coupon.valid v = true
        /\ fst (Coupon.calculateDiscount (CouponsRoute.orderValue req) c) = Returned d
        /\ CouponsRoute.coupons (snd r)
           = <[id := snd (Coupon.apply usedAt (Some userId)
                            (CouponsRoute.orderValue req) c)]> (CouponsRoute.coupons w)
        /\ fst r
           = Returned
               {| CouponsRoute.status := 200; CouponsRoute.success := true;
                  CouponsRoute.message := [Lit "Coupon applied successfully"];
                  CouponsRoute.data :=
                    Some {| CouponsRoute.code := Coupon.code c;
                            CouponsRoute.type := None;
                            CouponsRoute.value := None;
                            CouponsRoute.discount := d;
                            CouponsRoute.description := None;
                            CouponsRoute.finalPrice :=
                              Some (CouponsRoute.Math_max0
                                      (CouponsRoute.orderValue req - d)%Q) |} |}).
Proof.
  cbv zeta. unfold CouponsRoute.apply_route, Store.try_catch.
  match goal with |- context [let (_, _) := ?b w in _] =>
    destruct (b w) as [out w'] eqn:Hbody
  end.
  rewrite seq_return_if in Hbody. destruct (negb _).
  { injection Hbody as <- <-. same_coupons. }
  apply bind_inv in Hbody as [(found & w1 & Hfind & Hbody)|(e & Hfind & ->)].
  2: { apply findByCode_inv in Hfind as [Hc _]. same_coupons. }
  apply findByCode_inv in Hfind as [Hc1 Hfound].
  destruct found as [[id c]|].
  2: { injection Hbody as <- <-. same_coupons. }
  destruct (Hfound id c eq_refl) as (Hid & Hcode & Hact). clear Hfound.
  apply bind_inv in Hbody as [(now & w2 & Hnow & Hbody)|(e & Hnow & ->)].
  2: { discriminate Hnow. }
  apply coupons_Date_now in Hnow.
  apply bind_inv in Hbody as [([v c1] & w3 & Hval & Hbody)|(e & Hval & ->)].
  2: { apply call_inv in Hval as [-> _]. same_coupons. }
  apply call_inv in Hval as [-> Hval]. cbn [fst snd] in Hbody.
  assert (c1 = c) as ->.
  { pose proof (validate_state now c (CouponsRoute.orderValue req) (Some userId) [])
      as Hs. rewrite Hval in Hs. exact Hs. }
  rewrite seq_return_if in Hbody. destruct (Coupon.valid v) eqn:Hvalid; cbn [negb] in Hbody.
  2: { injection Hbody as <- <-. same_coupons. }
  apply bind_inv in Hbody as [([d c2] & w4 & Hdisc & Hbody)|(e & Hdisc & ->)].
  2: { apply call_inv in Hdisc as [_ Hdisc]. discriminate Hdisc. }
  apply call_inv in Hdisc as [-> Hdisc]. cbn [fst snd] in Hbody.
  assert (c2 = c) as -> by (injection Hdisc as _ <-; reflexivity).
  apply bind_inv in Hbody as [(usedAt & w5 & Hat & Hbody)|(e & Hat & ->)].
  2: { discriminate Hat. }
  apply coupons_Date_now in Hat.
  apply bind_inv in Hbody as [([[] c3] & w6 & Happ & Hbody)|(e & Happ & ->)].
  2: { apply call_inv in Happ as [-> _]. same_coupons. }
  apply call_inv in Happ as [-> Happ]. cbn [snd] in Hbody.
  apply bind_inv in Hbody as [([] & w7 & Hsave & Hbody)|(e & Hsave & ->)].
  - injection Hbody as <- <-. right.
    exists id, c, now, usedAt, v, d.
    unfold CouponsRoute.save in Hsave.
    apply bind_inv in Hsave as [([] & w8 & Hw & Hsave)|(e & _ & [=])].
    apply coupons_await in Hw. injection Hsave as <-. cbn [fst snd].
    assert (Coupon.code c3 = Coupon.code c) as Hcode3.
    { pose proof (apply_state usedAt c (Some userId) (CouponsRoute.orderValue req)) as Hs.
      rewrite Happ in Hs. cbn [snd] in Hs. rewrite Hs. destruct c; reflexivity. }
    rewrite Hval, Hdisc, Happ, Hcode3. cbn [fst snd CouponsRoute.coupons CouponsRoute.set_coupons].
    repeat split; try assumption. congruence.
  - unfold CouponsRoute.save in Hsave.
    apply bind_inv in Hsave as [([] & w8 & Hw & [=])|(e' & Hw & _)].
    apply coupons_await in Hw. same_coupons.
Qed.

End CouponRoutes.

Ltac case_if_in H :=
  match type of H with
  | context [if ?b then _ else _] => destruct b eqn:?
  end.

(** What a valid answer of [validate] tells about the coupon: the counter is
    below the limit, the user's entries could all be read and are fewer than
    one user may have, and the coupon is not restricted to products or
    categories unless a cart item fits. *)
Lemma validate_valid_inv (now : Time) (c : Coupon.Coupon) (orderValue : Q)
    (userId : option string) (cartItems : list Coupon.CartItem)
    (v : Coupon.ValidationResult) :
  fst (Coupon.validate now orderValue userId cartItems c) = Returned v ->
  Coupon.valid v = true ->
  match Coupon.maxUses c with
  | Some m => m = 0 \/ Coupon.usedCount c < m
  | None => True
  end
  /\ (forall uid, userId = Some uid -> uid <> ""%string ->
      Forall (fun u => Coupon.user u <> None) (Coupon.usedBy c)
      /\ Z.of_nat (CouponSpec.uses_of c uid) < Coupon.maxUsesPerUser c)
  /\ (CouponSpec.restricted c = true ->
      Array_some (Coupon.item_applicable c) cartItems = Returned true).
Proof.
  unfold Coupon.validate. rewrite bind_get. intros Hr Hv.
  repeat (rewrite seq_return_if in Hr;
          match type of Hr with
          | context [if ?b then _ else _] => destruct b eqn:?
          end;
          [injection Hr as <-; discriminate Hv|]).
  split.
  { match goal with H : match Coupon.maxUses c with _ => _ end = false |- _ =>
      rename H into Hmax end.
    destruct (Coupon.maxUses c) as [m|]; [|exact I].
    apply andb_false_iff in Hmax as [H|H].
    - left. unfold truthy_int in H. apply negb_false_iff, Z.eqb_eq in H. exact H.
    - right. apply Z.leb_gt in H. exact H. }
  assert (forall uid, userId = Some uid -> uid <> ""%string ->
            Forall (fun u => Coupon.user u <> None) (Coupon.usedBy c)
            /\ Z.of_nat (CouponSpec.uses_of c uid) < Coupon.maxUsesPerUser c) as Huser.
  { intros uid -> Hne.
    assert (truthy_str uid = true) as Ht.
    { unfold truthy_str. apply negb_true_iff. by apply String.eqb_neq. }
    rewrite Ht, seq_bind_lift in Hr.
    destruct (Array_filter _ (Coupon.usedBy c)) as [uses|e] eqn:Hf; [|discriminate Hr].
    assert (Forall (fun u => Coupon.user u <> None) (Coupon.usedBy c)) as Hall.
    { clear -Hf. revert uses Hf.
      induction (Coupon.usedBy c) as [|u l IH]; intros uses Hf; [constructor|].
      cbn [Array_filter] in Hf. destruct (Coupon.user u) eqn:Eu; [|discriminate Hf].
      cbn in Hf. destruct (Array_filter _ l) as [r|]; [|discriminate Hf].
      constructor; [congruence|]. by eapply IH. }
    split; [exact Hall|].
    rewrite (user_uses_spec c uid Hall) in Hf. injection Hf as <-.
    rewrite seq_return_if in Hr.
    destruct (Coupon.maxUsesPerUser c <=? _) eqn:Hle in Hr;
      [injection Hr as <-; discriminate Hv|].
    apply Z.leb_gt in Hle. exact Hle. }
  split; [exact Huser|].
  intros Hres.
  rewrite restricted_lengths, Hres in Hr.
  destruct userId as [uid|]; [destruct (truthy_str uid)|].
  1: rewrite seq_bind_lift in Hr; destruct (Array_filter _ _); [|discriminate Hr].
  1: rewrite seq_return_if in Hr; case_if_in Hr;
       [injection Hr as <-; discriminate Hv|].
  2,3: rewrite seq_skip in Hr.
  all: rewrite seq_return_if in Hr; case_if_in Hr;
    [injection Hr as <-; discriminate Hv|].
  all: rewrite seq_bind_lift in Hr;
    destruct (Array_some _ _) as [[]|]; [reflexivity| |discriminate Hr].
  all: rewrite seq_return_if in Hr; cbn in Hr; injection Hr as <-; discriminate Hv.
Qed.

Lemma uses_of_apply (now : Time) (c : Coupon.Coupon) (userId uid : string)
    (orderValue : Q) :
  CouponSpec.uses_of (snd (Coupon.apply now (Some userId) orderValue c)) uid
  = (CouponSpec.uses_of c uid
     + if truthy_str userId && String.eqb userId uid then 1 else 0)%nat.
Proof.
  rewrite apply_state. unfold CouponSpec.uses_of, CouponSpec.provided.
  fold (truthy_str userId).
  replace (Coupon.usedBy (Coupon.set_usedBy _ _))
    with (Coupon.usedBy c ++
            if truthy_str userId
            then [{| Coupon.user := Some userId; Coupon.usedAt := now;
                     Coupon.orderValue := orderValue |}]
            else []) by (destruct c; reflexivity).
  rewrite filter_app, length_app. f_equal.
  destruct (truthy_str userId); [|reflexivity]. cbn [andb].
  rewrite filter_cons, filter_nil. cbn [Coupon.user].
  destruct (String.eqb_spec userId uid) as [->|Hne].
  - rewrite decide_True by reflexivity. reflexivity.
  - rewrite decide_False by congruence. reflexivity.
Qed.

Section CouponRouteProperties.

Variable toUpperCase : string -> string.

(** X4.  [POST /api/coupons/apply] always answers.  Unless it answers 200
    the coupons are exactly as before; when it answers 200, one stored
    coupon, active and with the code asked for, has been replaced by itself
    with [usedCount] one higher and (for a non-empty user id) one more
    [usedBy] entry for the user, and every other coupon is as before. *)
Theorem apply_route_effect (userId : string) (req : CouponsRoute.Request)
    (w : CouponsRoute.World) :
  let r := CouponsRoute.apply_route toUpperCase userId req w in
  exists resp,
    fst r = Returned resp
    /\ (CouponsRoute.status resp <> 200 ->
        CouponsRoute.coupons (snd r) = CouponsRoute.coupons w)
    /\ (CouponsRoute.status resp = 200 ->
        exists id c usedAt,
          CouponsRoute.coupons w !! id = Some c
          /\ Coupon.isActive c = true
          /\ Coupon.code c = toUpperCase (CouponsRoute.body_code req)
          /\ CouponsRoute.coupons (snd r)
             = <[id := Coupon.set_usedBy
                         (Coupon.usedBy c ++
                            if truthy_str userId
                            then [{| Coupon.user := Some userId;
                                     Coupon.usedAt := usedAt;
                                     Coupon.orderValue := CouponsRoute.orderValue req |}]
                            else [])
                         (Coupon.set_usedCount (Coupon.usedCount c + 1) c)]>
                 (CouponsRoute.coupons w)
          /\ exists c',
               CouponsRoute.coupons (snd r) !! id = Some c'
               /\ Coupon.usedCount c' = Coupon.usedCount c + 1
               /\ Coupon.usedBy c'
                  = Coupon.usedBy c ++
                      (if truthy_str userId
                       then [{| Coupon.user := Some userId;
                                Coupon.usedAt := usedAt;
                                Coupon.orderValue := CouponsRoute.orderValue req |}]
                       else [])
               /\ Coupon.maxUses c' = Coupon.maxUses c
               /\ Coupon.maxUsesPerUser c' = Coupon.maxUsesPerUser c
               /\ Coupon.isActive c' = Coupon.isActive c
               /\ Coupon.code c' = Coupon.code c).
Proof.
  cbv zeta.
  destruct (apply_route_cases toUpperCase userId req w)
    as [(Hsame & resp & Hr & Hst & _)
       |(id & c & now & usedAt & v & d & Hid & Hact & Hcode & _ & _ & _ & Hc & Hr)].
  - exists resp. split; [exact Hr|]. split; [auto|contradiction].
  - eexists. split; [exact Hr|]. split; [intros H; by destruct H|].
    intros _. exists id, c, usedAt.
    split; [exact Hid|]. split; [exact Hact|]. split; [exact Hcode|].
    split; [rewrite Hc, apply_state; reflexivity|].
    eexists. rewrite Hc, lookup_insert_eq. split; [reflexivity|].
    rewrite apply_state. destruct c. cbn. repeat split.
Qed.

(** X5.  Redeeming in sequence never passes the limit: if no stored coupon
    with a limit has a [usedCount] above its [maxUses], the same holds after
    any run of [POST /api/coupons/apply]. *)
Theorem apply_route_keeps_maxUses (userId : string) (req : CouponsRoute.Request)
    (w : CouponsRoute.World) :
  (forall id c, CouponsRoute.coupons w !! id = Some c -> CouponLimits.within_maxUses c) ->
  forall id c,
    CouponsRoute.coupons (snd (CouponsRoute.apply_route toUpperCase userId req w)) !! id
    = Some c ->
    CouponLimits.within_maxUses c.
Proof.
  intros Hinv id c.
  destruct (apply_route_cases toUpperCase userId req w)
    as [(Hsame & _)
       |(id0 & c0 & now & usedAt & v & d & Hid & _ & _ & Hval & Hvalid & _ & Hc & _)].
  - rewrite Hsame. apply Hinv.
  - rewrite Hc. destruct (decide (id0 = id)) as [->|Hne].
    + rewrite lookup_insert_eq. intros [= <-].
      destruct (validate_valid_inv _ _ _ _ _ _ Hval Hvalid) as (Hmax & _).
      rewrite apply_state. unfold CouponLimits.within_maxUses.
      replace (Coupon.maxUses (Coupon.set_usedBy _ _)) with (Coupon.maxUses c0)
        by (destruct c0; reflexivity).
      replace (Coupon.usedCount (Coupon.set_usedBy _ _)) with (Coupon.usedCount c0 + 1)
        by (destruct c0; reflexivity).
      destruct (Coupon.maxUses c0); [|exact I]. lia.
    + rewrite lookup_insert_ne by exact Hne. apply Hinv.
Qed.

(** X6.  Nor does any user pass the limit per user: if in every stored
    coupon no user has more [usedBy] entries than [maxUsesPerUser], the same
    holds after any run of [POST /api/coupons/apply]. *)
Theorem apply_route_keeps_user_limit (userId : string) (req : CouponsRoute.Request)
    (w : CouponsRoute.World) :
  (forall id c, CouponsRoute.coupons w !! id = Some c ->
                CouponLimits.within_user_limit c) ->
  forall id c,
    CouponsRoute.coupons (snd (CouponsRoute.apply_route toUpperCase userId req w)) !! id
    = Some c ->
    CouponLimits.within_user_limit c.
Proof.
  intros Hinv id c.
  destruct (apply_route_cases toUpperCase userId req w)
    as [(Hsame & _)
       |(id0 & c0 & now & usedAt & v & d & Hid & _ & _ & Hval & Hvalid & _ & Hc & _)].
  - rewrite Hsame. apply Hinv.
  - rewrite Hc. destruct (decide (id0 = id)) as [->|Hne].
    + rewrite lookup_insert_eq. intros [= <-] uid.
      destruct (validate_valid_inv _ _ _ _ _ _ Hval Hvalid) as (_ & Huser & _).
      rewrite uses_of_apply.
      replace (Coupon.maxUsesPerUser (Coupon.apply _ _ _ c0).2)
        with (Coupon.maxUsesPerUser c0)
        by (rewrite apply_state; destruct c0; reflexivity).
      specialize (Hinv _ _ Hid uid).
      destruct (truthy_str userId) eqn:Ht; cbn [andb]; [|lia].
      destruct (String.eqb_spec userId uid) as [->|]; [|lia].
      destruct (Huser uid eq_refl) as [_ Hlt]; [|lia].
      intros ->. discriminate Ht.
    + rewrite lookup_insert_ne by exact Hne. apply Hinv.
Qed.

(** X7.  The handler calls [validate] without the cart, so a coupon that is
    restricted to products or categories can never be applied: if every
    stored coupon with the code asked for is restricted, the answer is never
    200 and no coupon changes. *)
Theorem apply_route_restricted (userId : string) (req : CouponsRoute.Request)
    (w : CouponsRoute.World) :
  (forall id c, CouponsRoute.coupons w !! id = Some c ->
                Coupon.code c = toUpperCase (CouponsRoute.body_code req) ->
                CouponSpec.restricted c = true) ->
  let r := CouponsRoute.apply_route toUpperCase userId req w in
  CouponsRoute.coupons (snd r) = CouponsRoute.coupons w
  /\ exists resp, fst r = Returned resp /\ CouponsRoute.status resp <> 200
                  /\ CouponsRoute.success resp = false.
Proof.
  intros Hres. cbv zeta.
  destruct (apply_route_cases toUpperCase userId req w)
    as [Hsame
       |(id0 & c0 & now & usedAt & v & d & Hid & _ & Hcode & Hval & Hvalid & _)].
  - exact Hsame.
  - destruct (validate_valid_inv _ _ _ _ _ _ Hval Hvalid) as (_ & _ & Hcart).
    specialize (Hcart (Hres _ _ Hid Hcode)). discriminate Hcart.
Qed.

End CouponRouteProperties.

Lemma shop_coupons (id : string) (c : Coupon.Coupon) :
  CouponsRoute.coupons (CouponLimits.shop []) !! id = Some c ->
  c = Examples.percent20_cap10 \/ c = Examples.only_p1.
Proof.
  unfold CouponLimits.shop. cbn [CouponsRoute.coupons]. intros H.
  destruct (decide (id = "c1"%string)) as [->|H1];
    [|destruct (decide (id = "c2"%string)) as [->|H2]].
  - rewrite lookup_insert_eq in H. injection H as <-. by left.
  - rewrite lookup_insert_ne, lookup_insert_eq in H by congruence.
    injection H as <-. by right.
  - rewrite lookup_insert_ne, lookup_insert_ne, lookup_empty in H by congruence.
    discriminate H.
Qed.

Lemma limited_shop_coupons (id : string) (c : Coupon.Coupon) :
  CouponsRoute.coupons (CouponLimits.limited_shop []) !! id = Some c ->
  c = MoreExamples.single_use \/ c = MoreExamples.withdrawn.
Proof.
  unfold CouponLimits.limited_shop. cbn [CouponsRoute.coupons]. intros H.
  apply lookup_insert_Some in H as [[_ <-]|[_ H]]; [by left|].
  apply lookup_insert_Some in H as [[_ <-]|[_ H]]; [by right|].
  by rewrite lookup_empty in H.
Qed.

(** The coupon for a single use is redeemed: its count goes from 0 to its
    limit of 1, not beyond. *)
Lemma apply_route_keeps_maxUses_witness :
  exists c,
    CouponsRoute.coupons
      (snd (CouponsRoute.apply_route (fun s => s) "u1"
              (CouponLimits.request "ONCE" 100) (CouponLimits.limited_shop [])))
    !! "c3"%string = Some c
    /\ Coupon.maxUses c = Some 1
    /\ Coupon.usedCount c = 1
    /\ CouponLimits.within_maxUses c.
Proof.
  eexists. split; [vm_compute; reflexivity|].
  split; [reflexivity|]. split; [reflexivity|].
  refine (apply_route_keeps_maxUses (fun s => s) "u1"
            (CouponLimits.request "ONCE" 100) (CouponLimits.limited_shop [])
            _ "c3"%string _ _).
  - intros id c H. destruct (limited_shop_coupons id c H) as [-> | ->].
    + right. discriminate.
    + exact I.
  - vm_compute. reflexivity.
Defined.

Lemma apply_route_keeps_user_limit_witness :
  match CouponsRoute.coupons
          (snd (CouponsRoute.apply_route (fun s => s) "u1"
                  (CouponLimits.request "SAVE" 100) (CouponLimits.shop [])))
        !! "c1"%string with
  | Some c => CouponLimits.within_user_limit c
  | None => True
  end.
Proof.
  destruct (_ !! _) as [c|] eqn:E; [|exact I].
  refine (apply_route_keeps_user_limit (fun s => s) "u1"
            (CouponLimits.request "SAVE" 100) (CouponLimits.shop []) _ _ _ E).
  intros id c0 H uid. destruct (shop_coupons id c0 H) as [-> | ->]; discriminate.
Defined.

Lemma apply_route_restricted_witness :
  let r := CouponsRoute.apply_route (fun s => s) "u1"
             (CouponLimits.request "TEE" 100) (CouponLimits.shop []) in
  CouponsRoute.coupons (snd r) = CouponsRoute.coupons (CouponLimits.shop [])
  /\ exists resp, fst r = Returned resp /\ CouponsRoute.status resp <> 200
                  /\ CouponsRoute.success resp = false.
Proof.
  apply (apply_route_restricted (fun s => s) "u1"
           (CouponLimits.request "TEE" 100) (CouponLimits.shop [])).
  intros id c H Hcode. destruct (shop_coupons id c H) as [-> | ->].
  - discriminate Hcode.
  - reflexivity.
Defined.

Lemma find_all_false {A} (f : A -> bool) (l : list A) :
  (forall x, In x l -> f x = false) -> List.find f l = None.
Proof.
  induction l as [|x l IH]; intros H; [reflexivity|].
  cbn [List.find]. rewrite (H x) by (left; reflexivity).
  apply IH. intros y Hy. apply H. right. exact Hy.
Qed.

Local Open Scope Q_scope.

Lemma calculateDiscount_nonneg (c : Coupon.Coupon) (orderValue d : Q) :
  Coupon.schema_ok c = true ->
  0 <= orderValue ->
  fst (Coupon.calculateDiscount orderValue c) = Returned d ->
  0 <= d.
Proof.
  intros Hs Hov Hd.
  destruct (calculateDiscount_round2 c orderValue) as (discount & Hd' & ->).
  rewrite Hd' in Hd. injection Hd as <-. apply round2_nonneg.
  destruct (schema_ok_fields c Hs) as [Hv Hm].
  destruct (Coupon.type c); cbv zeta.
  - assert (0 <= orderValue * Coupon.value c / 100) as H0
      by (apply Qle_shift_div_l; [reflexivity|]; nra).
    destruct (Coupon.maxDiscount c) as [m|]; [|exact H0].
    destruct (truthy_num m && _); [by apply Hm|exact H0].
  - unfold Math_min. destruct (Qle_bool _ _); assumption.
  - apply Qle_refl.
Qed.

Lemma Math_max0_bounds (x y : Q) :
  0 <= x -> 0 <= y ->
  0 <= CouponsRoute.Math_max0 (x - y) /\ CouponsRoute.Math_max0 (x - y) <= x.
Proof.
  intros Hx Hy. unfold CouponsRoute.Math_max0.
  destruct (Qle_bool 0 (x - y)) eqn:E.
  - apply Qle_bool_iff in E. split; [exact E|lra].
  - split; [apply Qle_refl|exact Hx].
Qed.

Section CouponRouteAnswers.

Variable toUpperCase : string -> string.

(** X8.  When [POST /api/coupons/apply] succeeds on a store of coupons that
    pass their schema validators, for a non-negative order value, the
    discount it reports is not negative and the final price lies between 0
    and the order value, also for a discount larger than the order value. *)
Theorem apply_route_final_price (userId : string) (req : CouponsRoute.Request)
    (w : CouponsRoute.World) :
  (forall id c, CouponsRoute.coupons w !! id = Some c -> Coupon.schema_ok c = true) ->
  0 <= CouponsRoute.orderValue req ->
  forall resp dat,
    fst (CouponsRoute.apply_route toUpperCase userId req w) = Returned resp ->
    CouponsRoute.data resp = Some dat ->
    0 <= CouponsRoute.discount dat
    /\ exists p,
         CouponsRoute.finalPrice dat = Some p
         /\ 0 <= p /\ p <= CouponsRoute.orderValue req
         /\ (CouponsRoute.discount dat <= CouponsRoute.orderValue req ->
             p == CouponsRoute.orderValue req - CouponsRoute.discount dat).
Proof.
  intros Hok Hov resp dat Hr Hdat.
  destruct (apply_route_cases toUpperCase userId req w)
    as [(_ & resp0 & Hr0 & _ & Hfail)
       |(id0 & c0 & now & usedAt & v & d & Hid & _ & _ & _ & _ & Hd & _ & Hr0)];
    cbv zeta in *; rewrite Hr0 in Hr; injection Hr as <-.
  - exfalso. destruct resp0 as [st su msg [dat0|]]; cbn in *; [|discriminate Hdat].
    (* a failure carries no data *)
    revert Hr0. unfold CouponsRoute.apply_route, Store.try_catch.
    match goal with |- context [let (_, _) := ?b w in _] =>
      destruct (b w) as [[resp1|e] w'] eqn:Hbody
    end; [|intros [= <- <- <- [=]]].
    intros [= ->]. clear -Hbody Hfail.
    rewrite seq_return_if in Hbody. destruct (negb _); [discriminate Hbody|].
    apply bind_inv in Hbody as [([[id c]|] & w1 & _ & Hbody)|(e & _ & [=])];
      [|discriminate Hbody].
    apply bind_inv in Hbody as [(now & w2 & _ & Hbody)|(e & _ & [=])].
    apply bind_inv in Hbody as [([v c1] & w3 & _ & Hbody)|(e & _ & [=])].
    rewrite seq_return_if in Hbody. destruct (negb _); [discriminate Hbody|].
    apply bind_inv in Hbody as [([d c2] & w4 & _ & Hbody)|(e & _ & [=])].
    apply bind_inv in Hbody as [(usedAt & w5 & _ & Hbody)|(e & _ & [=])].
    apply bind_inv in Hbody as [([[] c3] & w6 & _ & Hbody)|(e & _ & [=])].
    apply bind_inv in Hbody as [([] & w7 & _ & Hbody)|(e & _ & [=])].
    injection Hbody as [= <- <-]. discriminate Hfail.
  - cbn in Hdat. injection Hdat as <-. cbn.
    pose proof (calculateDiscount_nonneg c0 _ d (Hok _ _ Hid) Hov Hd) as Hd0.
    split; [exact Hd0|]. eexists. split; [reflexivity|].
    destruct (Math_max0_bounds (CouponsRoute.orderValue req) d Hov Hd0) as [H1 H2].
    split; [exact H1|]. split; [exact H2|].
    intros Hle. unfold CouponsRoute.Math_max0.
    destruct (Qle_bool 0 _) eqn:E; [reflexivity|].
    assert (0 <= CouponsRoute.orderValue req - d) as H by lra.
    apply Qle_bool_iff in H. congruence.
Qed.

Local Close Scope Q_scope.

(** X9.  An inactive coupon is answered like a code that does not exist: if
    every stored coupon with the code asked for is inactive, a well-formed
    request to either handler, with the store working, is answered with 404
    and [Invalid coupon code], never with the reason [This coupon is not
    active]; nothing changes. *)
Theorem inactive_coupon_is_unknown (userId : string) (req : CouponsRoute.Request)
    (w : CouponsRoute.World) :
  CouponsRoute.validationErrors req = [] ->
  CouponsRoute.faults w = [] ->
  (forall id c, CouponsRoute.coupons w !! id = Some c ->
                Coupon.code c = toUpperCase (CouponsRoute.body_code req) ->
                Coupon.isActive c = false) ->
  CouponsRoute.apply_route toUpperCase userId req w
  = (Returned (CouponsRoute.reject 404 [Lit "Invalid coupon code"]), w)
  /\ CouponsRoute.validate_route toUpperCase req w
     = (Returned (CouponsRoute.reject 404 [Lit "Invalid coupon code"]), w).
Proof.
  intros He Hf Hin.
  assert (CouponsRoute.findByCode toUpperCase (CouponsRoute.body_code req) w
          = (Returned None, w)) as Hfind.
  { unfold CouponsRoute.findByCode.
    assert (CouponsRoute.await w = (Returned tt, w)) as Hw
      by (unfold CouponsRoute.await; rewrite Hf; reflexivity).
    rewrite (bind_returned _ _ _ _ _ Hw), bind_get. unfold mret, M_ret.
    f_equal. f_equal. apply find_all_false. intros [id c] Hx.
    apply list_elem_of_In, elem_of_map_to_list in Hx. cbn [snd].
    destruct (String.eqb_spec (Coupon.code c)
                (toUpperCase (CouponsRoute.body_code req))) as [Hc|]; [|reflexivity].
    rewrite (Hin id c Hx Hc). reflexivity. }
  split.
  - unfold CouponsRoute.apply_route. apply try_catch_returned.
    rewrite seq_return_if, He. cbn [length Nat.eqb negb].
    rewrite (bind_returned _ _ _ _ _ Hfind). reflexivity.
  - unfold CouponsRoute.validate_route. apply try_catch_returned.
    rewrite seq_return_if, He. cbn [length Nat.eqb negb]. cbv zeta.
    rewrite (bind_returned _ _ _ _ _ Hfind). reflexivity.
Qed.

(** X10.  [POST /api/coupons/validate] only reads: whatever the request and
    whatever fails, the stored coupons are as they were.  It answers 200 only
    for a stored, active coupon with the code asked for that [validate]
    accepts, and the discount it reports is the one [calculateDiscount]
    gives for that coupon. *)
Theorem validate_route_reads_only (req : CouponsRoute.Request) (w : CouponsRoute.World) :
  let r := CouponsRoute.validate_route toUpperCase req w in
  CouponsRoute.coupons (snd r) = CouponsRoute.coupons w
  /\ exists resp,
       fst r = Returned resp
       /\ (CouponsRoute.status resp = 200 ->
           exists id c now v dat,
             CouponsRoute.coupons w !! id = Some c
             /\ Coupon.isActive c = true
             /\ Coupon.code c = toUpperCase (CouponsRoute.body_code req)
             /\ fst (Coupon.validate now (CouponsRoute.orderValue req)
                       (CouponsRoute.or_null (CouponsRoute.user req))
                       (default [] (CouponsRoute.cartItems req)) c) = Returned v
             /\ Coupon.valid v = true
             /\ CouponsRoute.data resp = Some dat
             /\ fst (Coupon.calculateDiscount (CouponsRoute.orderValue req) c)
                = Returned (CouponsRoute.discount dat)).
Proof.
  cbv zeta. unfold CouponsRoute.validate_route, Store.try_catch.
  match goal with |- context [let (_, _) := ?b w in _] =>
    destruct (b w) as [out w'] eqn:Hbody
  end.
  rewrite seq_return_if in Hbody. destruct (negb _).
  { injection Hbody as <- <-. cbn. split; [reflexivity|].
    eexists. split; [reflexivity|discriminate]. }
  cbv zeta in Hbody.
  apply bind_inv in Hbody as [(found & w1 & Hfind & Hbody)|(e & Hfind & ->)].
  2: { apply findByCode_inv in Hfind as [Hc _]. cbn. split; [exact Hc|].
       eexists. split; [reflexivity|discriminate]. }
  apply findByCode_inv in Hfind as [Hc1 Hfound].
  destruct found as [[id c]|].
  2: { injection Hbody as <- <-. cbn. split; [exact Hc1|].
       eexists. split; [reflexivity|discriminate]. }
  destruct (Hfound id c eq_refl) as (Hid & Hcode & Hact). clear Hfound.
  apply bind_inv in Hbody as [(now & w2 & Hnow & Hbody)|(e & Hnow & ->)];
    [|discriminate Hnow].
  apply coupons_Date_now in Hnow.
  apply bind_inv in Hbody as [([v c1] & w3 & Hval & Hbody)|(e & Hval & ->)].
  2: { apply call_inv in Hval as [-> _]. cbn. split; [congruence|].
       eexists. split; [reflexivity|discriminate]. }
  apply call_inv in Hval as [-> Hval]. cbn [fst snd] in Hbody.
  assert (c1 = c) as ->.
  { pose proof (validate_state now c (CouponsRoute.orderValue req)
                  (CouponsRoute.or_null (CouponsRoute.user req))
                  (default [] (CouponsRoute.cartItems req))) as Hs.
    rewrite Hval in Hs. exact Hs. }
  rewrite seq_return_if in Hbody.
  destruct (Coupon.valid v) eqn:Hvalid; cbn [negb] in Hbody.
  2: { injection Hbody as <- <-. cbn. split; [congruence|].
       eexists. split; [reflexivity|discriminate]. }
  apply bind_inv in Hbody as [([d c2] & w4 & Hdisc & Hbody)|(e & Hdisc & ->)].
  2: { apply call_inv in Hdisc as [_ Hdisc]. discriminate Hdisc. }
  apply call_inv in Hdisc as [-> Hdisc]. injection Hbody as <- <-.
  cbn [fst snd]. split; [congruence|]. eexists. split; [reflexivity|].
  intros _. exists id, c, now, v. eexists.
  rewrite Hval, Hdisc. cbn. repeat split; assumption.
Qed.

End CouponRouteAnswers.

Local Close Scope Q_scope.

Lemma apply_route_final_price_witness :
  exists resp dat,
    fst (CouponsRoute.apply_route (fun s => s) "u1"
           (CouponLimits.request "SAVE" 100) (CouponLimits.shop [])) = Returned resp
    /\ CouponsRoute.data resp = Some dat
    /\ (0 <= CouponsRoute.discount dat)%Q
    /\ exists p,
         CouponsRoute.finalPrice dat = Some p
         /\ (0 <= p)%Q /\ (p <= 100)%Q
         /\ ((CouponsRoute.discount dat <= 100)%Q ->
             (p == 100 - CouponsRoute.discount dat)%Q).
Proof.
  eexists. eexists.
  split; [vm_compute; reflexivity|].
  split; [reflexivity|].
  refine (apply_route_final_price (fun s => s) "u1"
            (CouponLimits.request "SAVE" 100) (CouponLimits.shop []) _ _ _ _ _ _).
  - intros id c H. destruct (shop_coupons id c H) as [-> | ->]; reflexivity.
  - discriminate.
  - vm_compute. reflexivity.
  - reflexivity.
Defined.

(** The withdrawn coupon has the code asked for, and is answered as if
    there were no such code. *)
Lemma inactive_coupon_is_unknown_witness :
  CouponsRoute.coupons (CouponLimits.limited_shop []) !! "c4"%string
  = Some MoreExamples.withdrawn
  /\ Coupon.code MoreExamples.withdrawn = "SAVE"%string
  /\ Coupon.isActive MoreExamples.withdrawn = false
  /\ CouponsRoute.apply_route (fun s => s) "u1"
       (CouponLimits.request "SAVE" 100) (CouponLimits.limited_shop [])
     = (Returned (CouponsRoute.reject 404 [Lit "Invalid coupon code"]),
        CouponLimits.limited_shop []).
Proof.
  split; [reflexivity|]. split; [reflexivity|]. split; [reflexivity|].
  refine (proj1 (inactive_coupon_is_unknown (fun s => s) "u1"
                   (CouponLimits.request "SAVE" 100) (CouponLimits.limited_shop [])
                   _ _ _)).
  - reflexivity.
  - reflexivity.
  - intros id c H Hcode. destruct (limited_shop_coupons id c H) as [-> | ->].
    + discriminate Hcode.
    + reflexivity.
Defined.

(** ** Two requests at the same time *)

Section CouponRace.

Variable toUpperCase : string -> string.

(** The two halves are the handler: run one after the other without
    anything in between, they are [apply_route]. *)
Lemma apply_route_split (userId : string) (req : CouponsRoute.Request)
    (w : CouponsRoute.World) :
  CouponsRoute.apply_route toUpperCase userId req w
  = (held ← CouponsRoute.apply_read toUpperCase req;
     CouponsRoute.apply_resume userId req held) w.
Proof.
  unfold CouponsRoute.apply_route, CouponsRoute.apply_read,
    CouponsRoute.apply_resume, Store.try_catch, seq, return_if.
  unfold mbind, M_bind, mret, M_ret. lazy beta.
  destruct (negb _); lazy beta iota; [reflexivity|].
  destruct (CouponsRoute.findByCode toUpperCase (CouponsRoute.body_code req) w)
    as [[found|e] w1]; reflexivity.
Qed.

Lemma blind_ret {A} (a : A) : CouponsRoute.blind (mret a).
Proof. intros w1 w2 H. by split. Qed.

Lemma blind_bind {A B} (m : M CouponsRoute.World A)
    (k : A -> M CouponsRoute.World B) :
  CouponsRoute.blind m -> (forall a, CouponsRoute.blind (k a)) -> CouponsRoute.blind (m ≫= k).
Proof.
  intros Hm Hk w1 w2 H. destruct (Hm w1 w2 H) as [Hout Hnext].
  unfold mbind, M_bind.
  destruct (m w1) as [[a1|e1] s1], (m w2) as [[a2|e2] s2]; cbn in *;
    try discriminate Hout.
  - injection Hout as <-. by apply Hk.
  - injection Hout as <-. by split.
Qed.

Lemma blind_try_catch {A} (body : M CouponsRoute.World A)
    (handler : Exn -> M CouponsRoute.World A) :
  CouponsRoute.blind body -> (forall e, CouponsRoute.blind (handler e)) ->
  CouponsRoute.blind (Store.try_catch body handler).
Proof.
  intros Hb Hh w1 w2 H. destruct (Hb w1 w2 H) as [Hout Hnext].
  unfold Store.try_catch.
  destruct (body w1) as [[a1|e1] s1], (body w2) as [[a2|e2] s2]; cbn in *;
    try discriminate Hout.
  - injection Hout as <-. by split.
  - injection Hout as <-. by apply Hh.
Qed.

Lemma blind_await : CouponsRoute.blind CouponsRoute.await.
Proof.
  intros w1 w2 (Hf & Hc & Hr). unfold CouponsRoute.await. rewrite Hf.
  destruct (CouponsRoute.faults w2) as [|[e|] fs] eqn:E; cbn [fst snd];
    (split; [reflexivity|]); unfold CouponsRoute.same_but_coupons; cbn;
    rewrite ?Hf, ?E; auto.
Qed.

Lemma blind_Date_now : CouponsRoute.blind CouponsRoute.Date_now.
Proof.
  intros w1 w2 (Hf & Hc & Hr). unfold CouponsRoute.Date_now. cbn [fst snd].
  rewrite Hc, Hr. split; [reflexivity|].
  unfold CouponsRoute.same_but_coupons. cbn. auto.
Qed.

Lemma blind_call {A} (m : M Coupon.Coupon A) (doc : Coupon.Coupon) :
  CouponsRoute.blind (CouponsRoute.call m doc).
Proof.
  intros w1 w2 H. unfold CouponsRoute.call.
  destruct (m doc) as [[a|e] d]; by split.
Qed.

Lemma blind_save (id : string) (doc : Coupon.Coupon) :
  CouponsRoute.blind (CouponsRoute.save id doc).
Proof.
  apply blind_bind; [apply blind_await|]. intros _ w1 w2 H.
  split; [reflexivity|exact H].
Qed.

(** What the handler does after its first [await] does not look at the
    store again. *)
Lemma apply_resume_blind (userId : string) (req : CouponsRoute.Request)
    (held : CouponsRoute.Response + option (string * Coupon.Coupon)) :
  CouponsRoute.blind (CouponsRoute.apply_resume userId req held).
Proof.
  destruct held as [resp|found]; [apply blind_ret|].
  apply blind_try_catch; [|intros e; apply blind_ret].
  destruct found as [[id c]|]; [|apply blind_ret].
  apply blind_bind; [apply blind_Date_now|]. intros now.
  apply blind_bind; [apply blind_call|]. intros validated.
  apply blind_bind.
  { unfold return_if. apply blind_ret. }
  intros [r|]; [apply blind_ret|].
  apply blind_bind; [apply blind_call|]. intros discounted.
  apply blind_bind; [apply blind_Date_now|]. intros usedAt.
  apply blind_bind; [apply blind_call|]. intros applied.
  apply blind_bind; [apply blind_save|]. intros _. apply blind_ret.
Qed.

(** C6.  The two halves at which [POST /api/coupons/apply] gives way are the
    handler.  For the coupon with [maxUses = 1] that has not been used: two
    requests one after the other are answered 200 and 400, [This coupon has
    been fully redeemed]; two requests that have both been answered by
    [findByCode] before either goes on are both answered 200, each with its
    discount, while [usedCount] ends at 1: the coupon for a single use has
    been redeemed twice, and the second write has replaced the first.  In
    general, what a handler answers after its first [await] does not depend
    on the coupons in the store at all: not on what another request has
    written since. *)
Theorem concurrent_apply_redeems_twice :
  toUpperCase "ONCE" = "ONCE"%string ->
  let w := CouponLimits.limited_shop [] in
  let req := CouponLimits.request "ONCE" 100 in
  (forall userId req w,
     CouponsRoute.apply_route toUpperCase userId req w
     = (held ← CouponsRoute.apply_read toUpperCase req;
        CouponsRoute.apply_resume userId req held) w)
  /\ (forall userId req held w1 w2,
        CouponsRoute.faults w1 = CouponsRoute.faults w2 ->
        CouponsRoute.clock w1 = CouponsRoute.clock w2 ->
        CouponsRoute.reads w1 = CouponsRoute.reads w2 ->
        fst (CouponsRoute.apply_resume userId req held w1)
        = fst (CouponsRoute.apply_resume userId req held w2))
  /\ CouponsRoute.coupons w !! "c3"%string = Some MoreExamples.single_use
  /\ Coupon.maxUses MoreExamples.single_use = Some 1
  /\ Coupon.usedCount MoreExamples.single_use = 0
  /\ (exists r1 r2 w',
        CouponsRoute.apply_in_turn toUpperCase "u1" req "u2" req w
        = (Returned (r1, r2), w')
        /\ CouponsRoute.status r1 = 200
        /\ r2 = CouponsRoute.reject 400 [Lit "This coupon has been fully redeemed"]
        /\ Coupon.usedCount <$> CouponsRoute.coupons w' !! "c3"%string = Some 1)
  /\ (exists r1 r2 w',
        CouponsRoute.apply_both_read_first toUpperCase "u1" req "u2" req w
        = (Returned (r1, r2), w')
        /\ CouponsRoute.status r1 = 200 /\ CouponsRoute.success r1 = true
        /\ CouponsRoute.status r2 = 200 /\ CouponsRoute.success r2 = true
        /\ is_Some (CouponsRoute.data r1) /\ is_Some (CouponsRoute.data r2)
        /\ Coupon.usedCount <$> CouponsRoute.coupons w' !! "c3"%string = Some 1).
Proof.
  intros Hup w req. subst w req.
  split; [apply apply_route_split|].
  split.
  { intros userId req held w1 w2 Hf Hc Hr.
    by apply (apply_resume_blind userId req held w1 w2). }
  split; [reflexivity|]. split; [reflexivity|]. split; [reflexivity|].
  unfold CouponsRoute.apply_in_turn, CouponsRoute.apply_both_read_first,
    CouponsRoute.apply_route, CouponsRoute.apply_read, CouponsRoute.findByCode.
  cbn [CouponsRoute.body_code CouponLimits.request]. rewrite Hup.
  split.
  - eexists _, _, _. split; [vm_compute; reflexivity|].
    split; [reflexivity|]. split; [reflexivity|]. vm_compute. reflexivity.
  - eexists _, _, _. split; [vm_compute; reflexivity|].
    split; [reflexivity|]. split; [reflexivity|].
    split; [reflexivity|]. split; [reflexivity|].
    split; [by eexists|]. split; [by eexists|]. vm_compute. reflexivity.
Qed.

End CouponRace.

Lemma concurrent_apply_redeems_twice_witness :
  exists r1 r2 w',
    CouponsRoute.apply_both_read_first (fun s => s) "u1"
      (CouponLimits.request "ONCE" 100) "u2" (CouponLimits.request "ONCE" 100)
      (CouponLimits.limited_shop [])
    = (Returned (r1, r2), w')
    /\ CouponsRoute.status r1 = 200 /\ CouponsRoute.success r1 = true
    /\ CouponsRoute.status r2 = 200 /\ CouponsRoute.success r2 = true
    /\ is_Some (CouponsRoute.data r1) /\ is_Some (CouponsRoute.data r2)
    /\ Coupon.usedCount <$> CouponsRoute.coupons w' !! "c3"%string = Some 1.
Proof.
  exact (proj2 (proj2 (proj2 (proj2 (proj2 (proj2
           (concurrent_apply_redeems_twice (fun s => s) eq_refl))))))).
Defined.

(** * Further properties of the order routes *)

(** ** The operations of the store, read backwards *)

Lemma store_await_inv (w w1 : Store.World) (out : Outcome unit) :
  Store.await w = (out, w1) ->
  Store.products w1 = Store.products w /\ Store.orders w1 = Store.orders w.
Proof.
  unfold Store.await.
  destruct (Store.faults w) as [|[e|] fs]; intros [= _ <-]; split; reflexivity.
Qed.

Lemma store_Date_now_inv (w w1 : Store.World) (out : Outcome Time) :
  Store.Date_now w = (out, w1) ->
  Store.products w1 = Store.products w /\ Store.orders w1 = Store.orders w.
Proof. intros [= _ <-]. split; reflexivity. Qed.

Lemma Order_findById_inv (id : string) (w w1 : Store.World)
    (out : Outcome (option Order.Order)) :
  Store.Order_findById id w = (out, w1) ->
  Store.products w1 = Store.products w /\ Store.orders w1 = Store.orders w
  /\ forall found, out = Returned found ->
       found = Order.set_isNew false <$> Store.orders w !! id.
Proof.
  unfold Store.Order_findById. intros H.
  apply bind_inv in H as [([] & s1 & H1 & H2)|(e & H1 & ->)].
  - apply store_await_inv in H1 as [Hp Ho]. rewrite bind_get in H2.
    injection H2 as <- <-. repeat split; try assumption.
    intros found [= <-]. by rewrite Ho.
  - apply store_await_inv in H1 as [Hp Ho]. repeat split; try assumption.
    discriminate.
Qed.

Lemma Product_findById_inv (id : string) (w w1 : Store.World)
    (out : Outcome (option Product.Product)) :
  Store.Product_findById id w = (out, w1) ->
  Store.products w1 = Store.products w /\ Store.orders w1 = Store.orders w
  /\ forall found, out = Returned found -> found = Store.products w !! id.
Proof.
  unfold Store.Product_findById. intros H.
  apply bind_inv in H as [([] & s1 & H1 & H2)|(e & H1 & ->)].
  - apply store_await_inv in H1 as [Hp Ho]. rewrite bind_get in H2.
    injection H2 as <- <-. repeat split; try assumption.
    intros found [= <-]. by rewrite Hp.
  - apply store_await_inv in H1 as [Hp Ho]. repeat split; try assumption.
    discriminate.
Qed.

Lemma Order_updateStatus_inv (newStatus : string) (note : option string)
    (doc : Order.Order) (w w1 : Store.World) (out : Outcome Order.Order) :
  Store.Order_updateStatus newStatus note doc w = (out, w1) ->
  Store.products w1 = Store.products w /\ Store.orders w1 = Store.orders w
  /\ exists now1 now2,
       out = Returned (snd (Order.updateStatus now1 now2 newStatus note doc)).
Proof.
  unfold Store.Order_updateStatus. intros H.
  apply bind_inv in H as [(now1 & s1 & H1 & H)|(e & H1 & ->)]; [|discriminate H1].
  apply store_Date_now_inv in H1 as [Hp1 Ho1].
  apply bind_inv in H as [(now2 & s2 & H2 & H)|(e & H2 & ->)].
  2: { destruct (String.eqb newStatus "delivered"); discriminate H2. }
  assert (Store.products s2 = Store.products s1
          /\ Store.orders s2 = Store.orders s1) as [Hp2 Ho2].
  { destruct (String.eqb newStatus "delivered").
    - by apply store_Date_now_inv in H2.
    - injection H2 as _ <-. by split. }
  unfold Store.call in H. rewrite updateStatus_run in H. cbv zeta in H.
  rewrite bind_returned with (a := (tt, snd (Order.updateStatus now1 now2 newStatus note doc)))
                             (s1 := s2) in H
    by (rewrite updateStatus_run; reflexivity).
  injection H as <- <-. split; [congruence|]. split; [congruence|].
  exists now1, now2. reflexivity.
Qed.

(** Saving a document that is not new writes it as it is. *)
Lemma save_old_inv (doc : Order.Order) (w w1 : Store.World)
    (out : Outcome Order.Order) :
  Order.isNew doc = false ->
  Store.save doc w = (out, w1) ->
  Store.products w1 = Store.products w
  /\ match out with
     | Returned saved =>
         saved = doc
         /\ Store.orders w1 = <[Order._id doc := doc]> (Store.orders w)
     | Thrown _ => Store.orders w1 = Store.orders w
     end.
Proof.
  intros Hold H. destruct out as [saved|e].
  - apply save_returned in H as (_ & Hsaved & Ho & Hp). rewrite Hold in Hsaved.
    replace (Order.set_isNew false doc) with doc in Hsaved
      by (destruct doc; cbn in Hold; subst; reflexivity).
    subst saved. auto.
  - apply save_thrown in H as [Ho Hp]. auto.
Qed.

Lemma Product_inc_stock_inv (id : string) (d : Z) (w w1 : Store.World)
    (out : Outcome unit) :
  Store.Product_inc_stock id d w = (out, w1) ->
  Store.orders w1 = Store.orders w
  /\ (out = Returned tt ->
      Store.products w1 = alter (Product.add_stock d) id (Store.products w)).
Proof.
  unfold Store.Product_inc_stock. intros H.
  apply bind_inv in H as [([] & s1 & H1 & H)|(e & H1 & ->)].
  - apply store_await_inv in H1 as [Hp Ho]. injection H as <- <-. cbn.
    rewrite Hp. auto.
  - apply store_await_inv in H1 as [Hp Ho]. split; [exact Ho|discriminate].
Qed.

(** A loop that changes the stock of the product of each item, when it
    completes. *)
Lemma stock_loop_inv (d : Order.Item.OrderItem -> Z)
    (items : list Order.Item.OrderItem) (w w1 : Store.World) (out : Outcome unit) :
  Store.for_of items (fun item =>
    Store.Product_inc_stock (Order.Item.product item) (d item)) w = (out, w1) ->
  Store.orders w1 = Store.orders w
  /\ (out = Returned tt ->
      Store.products w1
      = foldl (fun m item => alter (Product.add_stock (d item))
                               (Order.Item.product item) m)
              (Store.products w) items).
Proof.
  revert w. induction items as [|item items IH]; intros w; cbn [Store.for_of].
  - intros [= <- <-]. auto.
  - intros H. apply bind_inv in H as [([] & s1 & H1 & H)|(e & H1 & ->)].
    + apply Product_inc_stock_inv in H1 as [Ho Hp]. apply IH in H as [Ho' Hp'].
      split; [congruence|]. intros E. cbn [foldl]. rewrite <- Hp by reflexivity.
      by apply Hp'.
    + apply Product_inc_stock_inv in H1 as [Ho _]. split; [exact Ho|discriminate].
Qed.

Lemma add_stock_add (a b : Z) (p : Product.Product) :
  Product.add_stock a (Product.add_stock b p) = Product.add_stock (b + a) p.
Proof. destruct p. unfold Product.add_stock. cbn. f_equal. lia. Qed.

Lemma add_stock_0 (p : Product.Product) : Product.add_stock 0 p = p.
Proof. destruct p. unfold Product.add_stock. cbn. f_equal. lia. Qed.

(** What such a loop leaves of one product: its stock has moved by the sum
    over the items that name it. *)
Lemma stock_loop_lookup (d : Order.Item.OrderItem -> Z) (sign : Z)
    (items : list Order.Item.OrderItem) (m : gmap string Product.Product)
    (p : string) :
  (forall item, d item = sign * Order.Item.quantity item) ->
  foldl (fun m item => alter (Product.add_stock (d item))
                         (Order.Item.product item) m) m items !! p
  = Product.add_stock (sign * OrderLedger.quantity_of p items) <$> m !! p.
Proof.
  intros Hd. revert m.
  induction items as [|item items IH]; intros m; cbn [foldl].
  - unfold OrderLedger.quantity_of. cbn [foldr]. rewrite Z.mul_0_r.
    destruct (m !! p) as [x|]; cbn; [|reflexivity].
    by rewrite add_stock_0.
  - rewrite IH. unfold OrderLedger.quantity_of. cbn [foldr].
    destruct (String.eqb_spec (Order.Item.product item) p) as [->|Hne].
    + rewrite lookup_alter_eq. destruct (m !! p) as [x|]; cbn; [|reflexivity].
      rewrite add_stock_add, Hd. do 2 f_equal. lia.
    + by rewrite lookup_alter_ne.
Qed.

(** ** What each handler does to the store *)

(** Close a case in which the handler answers with a failure and the store
    is as it was. *)
Ltac store_unchanged :=
  cbn [fst snd mret M_ret];
  split; [congruence|]; eexists; split; [reflexivity|]; left;
  split; [discriminate|congruence].

Lemma pay_order_cases (id userId : string) (body : Order.Payment.PaymentResult)
    (w : Store.World) :
  let r := OrdersAdmin.pay_order id userId body w in
  Store.products (snd r) = Store.products w
  /\ exists resp,
       fst r = Returned resp
       /\ ((OrdersRoute.status resp <> 200 /\ Store.orders (snd r) = Store.orders w)
           \/ exists o now1 now2 paidAt,
                Store.orders w !! id = Some o
                /\ Order.user o = userId
                /\ Order.isPaid o = false
                /\ let o' :=
                     OrdersAdmin.set_paymentResult (Some body)
                       (snd (Order.updateStatus now1 now2 "processing"
                               (Some "Payment received"%string)
                               (OrdersAdmin.set_paidAt (Some paidAt)
                                  (OrdersAdmin.set_isPaid true
                                     (Order.set_isNew false o))))) in
                   Store.orders (snd r) = <[Order._id o := o']> (Store.orders w)
                   /\ resp = {| OrdersRoute.status := 200;
                                OrdersRoute.success := true;
                                OrdersRoute.message := [Lit "Order marked as paid"];
                                OrdersRoute.data := Some o' |}).
Proof.
  cbv zeta. unfold OrdersAdmin.pay_order, Store.try_catch.
  match goal with |- context [let (_, _) := ?b w in _] =>
    destruct (b w) as [out w'] eqn:Hbody
  end.
  apply bind_inv in Hbody as [(found & w1 & Hfind & Hbody)|(e & Hfind & ->)].
  2: { apply Order_findById_inv in Hfind as (Hp & Ho & _).
       destruct e; store_unchanged. }
  apply Order_findById_inv in Hfind as (Hp1 & Ho1 & Hfound).
  specialize (Hfound _ eq_refl).
  destruct (Store.orders w !! id) as [o|] eqn:Eo; cbn in Hfound; subst found.
  2: { injection Hbody as <- <-. store_unchanged. }
  rewrite seq_return_if in Hbody.
  destruct (String.eqb_spec (Order.user (Order.set_isNew false o)) userId)
    as [Huser|Huser]; cbn [negb] in Hbody.
  2: { injection Hbody as <- <-. store_unchanged. }
  rewrite seq_return_if in Hbody.
  destruct (Order.isPaid (Order.set_isNew false o)) eqn:Hpaid.
  { injection Hbody as <- <-. store_unchanged. }
  cbv zeta in Hbody.
  apply bind_inv in Hbody as [(paidAt & w2 & Hnow & Hbody)|(e & Hnow & ->)];
    [|discriminate Hnow].
  apply store_Date_now_inv in Hnow as [Hp2 Ho2].
  apply bind_inv in Hbody as [(order' & w3 & Hupd & Hbody)|(e & Hupd & ->)].
  2: { apply Order_updateStatus_inv in Hupd as (_ & _ & ? & ? & [=]). }
  apply Order_updateStatus_inv in Hupd as (Hp3 & Ho3 & now1 & now2 & [= ->]).
  match type of Hbody with context [Store.save ?d] => set (o' := d) in * end.
  assert (Order.isNew o' = false) as Hold
    by (unfold o'; try rewrite updateStatus_run; reflexivity).
  assert (Order._id o' = Order._id o) as Hid
    by (unfold o'; try rewrite updateStatus_run; reflexivity).
  apply bind_inv in Hbody as [(saved & w4 & Hsave & Hbody)|(e & Hsave & ->)].
  2: { apply (save_old_inv _ _ _ _ Hold) in Hsave as [Hp4 Ho4].
       destruct e; store_unchanged. }
  apply (save_old_inv _ _ _ _ Hold) in Hsave as [Hp4 [-> Ho4]].
  injection Hbody as <- <-. cbn [fst snd]. split; [congruence|].
  eexists. split; [reflexivity|]. right.
  exists o, now1, now2, paidAt. split; [reflexivity|].
  split; [exact Huser|]. split; [exact Hpaid|].
  split; [|reflexivity]. rewrite Ho4, Hid, Ho3, Ho2, Ho1. reflexivity.
Qed.

Lemma assign_if_truthy_fields (x y : option string) (doc : Order.Order) :
  let doc' :=
    OrdersAdmin.assign_if_truthy y OrdersAdmin.set_shippingCarrier
      (OrdersAdmin.assign_if_truthy x OrdersAdmin.set_trackingNumber doc) in
  Order._id doc' = Order._id doc /\ Order.isNew doc' = Order.isNew doc
  /\ OrderLedger.later doc doc'
  /\ Order.status doc' = Order.status doc
  /\ Order.statusHistory doc' = Order.statusHistory doc
  /\ Order.isDelivered doc' = Order.isDelivered doc
  /\ Order.deliveredAt doc' = Order.deliveredAt doc.
Proof.
  cbv zeta. unfold OrdersAdmin.assign_if_truthy.
  destruct x as [s|]; [destruct (truthy_str s)|];
    (destruct y as [s'|]; [destruct (truthy_str s')|]);
    repeat split; auto.
Qed.

Lemma update_status_cases (id : string) (req : OrdersAdmin.StatusRequest)
    (w : Store.World) :
  let r := OrdersAdmin.update_status id req w in
  Store.products (snd r) = Store.products w
  /\ exists resp,
       fst r = Returned resp
       /\ ((OrdersRoute.status resp <> 200 /\ Store.orders (snd r) = Store.orders w)
           \/ exists o now1 now2,
                Store.orders w !! id = Some o
                /\ let o' :=
                     OrdersAdmin.assign_if_truthy (OrdersAdmin.shippingCarrier req)
                       OrdersAdmin.set_shippingCarrier
                       (OrdersAdmin.assign_if_truthy (OrdersAdmin.trackingNumber req)
                          OrdersAdmin.set_trackingNumber
                          (snd (Order.updateStatus now1 now2 (OrdersAdmin.status req)
                                  (OrdersAdmin.note req)
                                  (Order.set_isNew false o)))) in
                   Store.orders (snd r) = <[Order._id o := o']> (Store.orders w)
                   /\ resp = {| OrdersRoute.status := 200;
                                OrdersRoute.success := true;
                                OrdersRoute.message :=
                                  [Lit "Order status updated successfully"];
                                OrdersRoute.data := Some o' |}).
Proof.
  cbv zeta. unfold OrdersAdmin.update_status, Store.try_catch.
  match goal with |- context [let (_, _) := ?b w in _] =>
    destruct (b w) as [out w'] eqn:Hbody
  end.
  rewrite seq_return_if in Hbody. destruct (negb _).
  { injection Hbody as <- <-. store_unchanged. }
  apply bind_inv in Hbody as [(found & w1 & Hfind & Hbody)|(e & Hfind & ->)].
  2: { apply Order_findById_inv in Hfind as (Hp & Ho & _).
       destruct e; store_unchanged. }
  apply Order_findById_inv in Hfind as (Hp1 & Ho1 & Hfound).
  specialize (Hfound _ eq_refl).
  destruct (Store.orders w !! id) as [o|] eqn:Eo; cbn in Hfound; subst found.
  2: { injection Hbody as <- <-. store_unchanged. }
  apply bind_inv in Hbody as [(order' & w3 & Hupd & Hbody)|(e & Hupd & ->)].
  2: { apply Order_updateStatus_inv in Hupd as (_ & _ & ? & ? & [=]). }
  apply Order_updateStatus_inv in Hupd as (Hp3 & Ho3 & now1 & now2 & [= ->]).
  cbv zeta in Hbody.
  match type of Hbody with context [Store.save ?d] => set (o' := d) in * end.
  destruct (assign_if_truthy_fields (OrdersAdmin.trackingNumber req)
              (OrdersAdmin.shippingCarrier req)
              (snd (Order.updateStatus now1 now2 (OrdersAdmin.status req)
                      (OrdersAdmin.note req) (Order.set_isNew false o))))
    as (Hid & Hold & _). cbv zeta in Hid, Hold. fold o' in Hid, Hold.
  rewrite updateStatus_run in Hid, Hold. cbn in Hid, Hold.
  apply bind_inv in Hbody as [(saved & w4 & Hsave & Hbody)|(e & Hsave & ->)].
  2: { apply (save_old_inv _ _ _ _ Hold) in Hsave as [Hp4 Ho4].
       destruct e; store_unchanged. }
  apply (save_old_inv _ _ _ _ Hold) in Hsave as [Hp4 [-> Ho4]].
  injection Hbody as <- <-. cbn [fst snd]. split; [congruence|].
  eexists. split; [reflexivity|]. right.
  exists o, now1, now2. split; [reflexivity|].
  split; [|reflexivity]. rewrite Ho4, Hid, Ho3, Ho1. reflexivity.
Qed.

(** Close a case in which cancelling fails. *)
Ltac cancel_failed :=
  cbn [fst snd mret M_ret];
  eexists; split; [reflexivity|]; left;
  split; [discriminate|]; split; [congruence|];
  first [ intros [H|H]; discriminate H | intros _; congruence ].

Lemma cancel_order_cases (id userId : string) (reason : option string)
    (w : Store.World) :
  let r := OrdersRoute.cancel_order id userId reason w in
  exists resp,
    fst r = Returned resp
    /\ ((OrdersRoute.status resp <> 200
         /\ Store.orders (snd r) = Store.orders w
         /\ (OrdersRoute.status resp = 400 \/ OrdersRoute.status resp = 403 ->
             Store.products (snd r) = Store.products w))
        \/ exists o now1 now2,
             Store.orders w !! id = Some o
             /\ Order.user o = userId
             /\ Array_includes ["shipped"; "delivered"; "cancelled"]%string
                  (Some (Order.status o)) = false
             /\ let o' :=
                  snd (Order.updateStatus now1 now2 "cancelled"
                         (Some (or_else reason "Cancelled by customer"))
                         (Order.set_isNew false o)) in
                Store.orders (snd r) = <[Order._id o := o']> (Store.orders w)
                /\ Store.products (snd r)
                   = foldl (fun m item =>
                              alter (Product.add_stock (Order.Item.quantity item))
                                (Order.Item.product item) m)
                       (Store.products w) (Order.orderItems o)
                /\ resp = {| OrdersRoute.status := 200;
                             OrdersRoute.success := true;
                             OrdersRoute.message := [Lit "Order cancelled successfully"];
                             OrdersRoute.data := Some o' |}).
Proof.
  cbv zeta. unfold OrdersRoute.cancel_order, Store.try_catch.
  match goal with |- context [let (_, _) := ?b w in _] =>
    destruct (b w) as [out w'] eqn:Hbody
  end.
  apply bind_inv in Hbody as [(found & w1 & Hfind & Hbody)|(e & Hfind & ->)].
  2: { apply Order_findById_inv in Hfind as (Hp & Ho & _).
       destruct e; cancel_failed. }
  apply Order_findById_inv in Hfind as (Hp1 & Ho1 & Hfound).
  specialize (Hfound _ eq_refl).
  destruct (Store.orders w !! id) as [o|] eqn:Eo; cbn in Hfound; subst found.
  2: { injection Hbody as <- <-. cancel_failed. }
  rewrite seq_return_if in Hbody.
  destruct (String.eqb_spec (Order.user (Order.set_isNew false o)) userId)
    as [Huser|Huser]; cbn [negb] in Hbody.
  2: { injection Hbody as <- <-. cancel_failed. }
  rewrite seq_return_if in Hbody.
  destruct (Array_includes _ _) eqn:Hguard.
  { injection Hbody as <- <-. cancel_failed. }
  apply bind_inv in Hbody as [(order' & w3 & Hupd & Hbody)|(e & Hupd & ->)].
  2: { apply Order_updateStatus_inv in Hupd as (_ & _ & ? & ? & [=]). }
  apply Order_updateStatus_inv in Hupd as (Hp3 & Ho3 & now1 & now2 & [= ->]).
  set (o' := snd (Order.updateStatus now1 now2 "cancelled"
                    (Some (or_else reason "Cancelled by customer"))
                    (Order.set_isNew false o))) in *.
  assert (Order.isNew o' = false) as Hold
    by (unfold o'; try rewrite updateStatus_run; reflexivity).
  assert (Order._id o' = Order._id o) as Hid
    by (unfold o'; try rewrite updateStatus_run; reflexivity).
  assert (Order.orderItems o' = Order.orderItems o) as Hitems
    by (unfold o'; try rewrite updateStatus_run; reflexivity).
  apply bind_inv in Hbody as [([] & w4 & Hloop & Hbody)|(e & Hloop & ->)].
  2: { apply stock_loop_inv in Hloop as [Ho4 _]. destruct e; cancel_failed. }
  apply stock_loop_inv in Hloop as [Ho4 Hp4]. specialize (Hp4 eq_refl).
  apply bind_inv in Hbody as [(saved & w5 & Hsave & Hbody)|(e & Hsave & ->)].
  2: { apply (save_old_inv _ _ _ _ Hold) in Hsave as [Hp5 Ho5].
       destruct e; cancel_failed. }
  apply (save_old_inv _ _ _ _ Hold) in Hsave as [Hp5 [-> Ho5]].
  injection Hbody as <- <-. cbn [fst snd].
  eexists. split; [reflexivity|]. right.
  exists o, now1, now2. split; [reflexivity|].
  split; [exact Huser|]. split; [exact Hguard|].
  split; [rewrite Ho5, Hid, Ho4, Ho3, Ho1; reflexivity|].
  split; [|reflexivity]. rewrite Hp5, Hp4, Hp3, Hp1. reflexivity.
Qed.

(** ** Creating an order *)

(** The first loop of [POST /api/orders], read backwards: it writes nothing,
    and when it stops early it is with a rejection, a 400 or a 404. *)
Lemma validate_items_inv (items : list OrdersRoute.ItemBody)
    (validated : list Order.Item.OrderItem) (total : Q) (w w1 : Store.World)
    (out : Outcome (OrdersRoute.Response + list Order.Item.OrderItem * Q)) :
  OrdersRoute.validate_items items validated total w = (out, w1) ->
  Store.products w1 = Store.products w /\ Store.orders w1 = Store.orders w
  /\ forall resp,
       out = Returned (inl resp) ->
       OrdersRoute.success resp = false
       /\ OrdersRoute.data resp = None
       /\ (OrdersRoute.status resp = 400 \/ OrdersRoute.status resp = 404).
Proof.
  revert validated total w.
  induction items as [|item rest IH]; intros validated total w;
    cbn [OrdersRoute.validate_items].
  - intros [= <- <-]. split; [reflexivity|]. split; [reflexivity|]. discriminate.
  - intros H.
    apply bind_inv in H as [(found & s1 & H1 & H)|(e & H1 & ->)].
    2: { apply Product_findById_inv in H1 as (Hp & Ho & _).
         split; [exact Hp|]. split; [exact Ho|]. discriminate. }
    apply Product_findById_inv in H1 as (Hp & Ho & _).
    destruct found as [p|].
    2: { injection H as <- <-. split; [exact Hp|]. split; [exact Ho|].
         intros resp [= <-]. cbn. auto. }
    destruct (negb (Product.isActive p)).
    { injection H as <- <-. split; [exact Hp|]. split; [exact Ho|].
      intros resp [= <-]. cbn. auto. }
    destruct (Product.stock p <? OrdersRoute.quantity item).
    { injection H as <- <-. split; [exact Hp|]. split; [exact Ho|].
      intros resp [= <-]. cbn. auto. }
    apply IH in H as (Hp' & Ho' & Hout).
    split; [congruence|]. split; [congruence|]. exact Hout.
Qed.

(** The order that [POST /api/orders] makes has no order number when it is
    validated: [save] rejects it, whatever the request and the store. *)
Lemma save_new_order_rejected (oid : string) (req : OrdersRoute.CreateRequest)
    (items : list Order.Item.OrderItem) (price : Q) (w : Store.World) :
  Store.save (OrdersRoute.new_order oid req items price) w
  = (Thrown ValidationError, w).
Proof. apply save_rejected; reflexivity. Qed.

Lemma create_order_unchanged (oid : string) (req : OrdersRoute.CreateRequest)
    (w : Store.World) :
  let r := OrdersRoute.create_order oid req w in
  exists resp,
    fst r = Returned resp
    /\ OrdersRoute.success resp = false
    /\ OrdersRoute.data resp = None
    /\ OrdersRoute.status resp <> 201
    /\ Store.products (snd r) = Store.products w
    /\ Store.orders (snd r) = Store.orders w.
Proof.
  cbv zeta. unfold OrdersRoute.create_order, Store.try_catch.
  match goal with |- context [let (_, _) := ?b w in _] =>
    destruct (b w) as [out w'] eqn:Hbody
  end.
  rewrite seq_return_if in Hbody. destruct (negb _).
  { injection Hbody as <- <-. eexists. repeat split. discriminate. }
  apply bind_inv in Hbody as [(checked & w1 & Hcheck & Hbody)|(e & Hcheck & ->)].
  2: { apply validate_items_inv in Hcheck as (Hp & Ho & _).
       eexists. cbn. repeat split; try assumption. discriminate. }
  apply validate_items_inv in Hcheck as (Hp & Ho & Hout).
  destruct checked as [resp|[items price]].
  { injection Hbody as <- <-. destruct (Hout resp eq_refl) as (Hs & Hd & Hst).
    exists resp. cbn. repeat split; try assumption.
    destruct Hst as [-> | ->]; discriminate. }
  cbv zeta in Hbody. rewrite seq_return_if in Hbody.
  match type of Hbody with context [if ?c then _ else _] => destruct c end.
  { injection Hbody as <- <-. eexists. cbn. repeat split; try assumption.
    discriminate. }
  rewrite (bind_inv_thrown _ _ _ _ _ (save_new_order_rejected _ _ _ _ _)) in Hbody.
  injection Hbody as <- <-. eexists. cbn. repeat split; try assumption.
  discriminate.
Qed.


Lemma Product_findById_ok (id : string) (w : Store.World) :
  Store.faults w = [] ->
  Store.Product_findById id w = (Returned (Store.products w !! id), w).
Proof.
  intros E. unfold Store.Product_findById.
  rewrite (bind_returned _ _ _ _ _ (await_ok w E)). reflexivity.
Qed.

(** With the store working, the first loop accepts items that can all be
    served, and leaves the store as it is. *)
Lemma validate_items_ok (items : list OrdersRoute.ItemBody)
    (validated : list Order.Item.OrderItem) (total : Q) (w : Store.World) :
  Store.faults w = [] ->
  Forall (fun item => OrderSpec.unavailable w item = false) items ->
  exists all price,
    OrdersRoute.validate_items items validated total w
    = (Returned (inr (all, price)), w).
Proof.
  intros Hf Hall. revert validated total.
  induction Hall as [|item rest Hitem _ IH]; intros validated total;
    cbn [OrdersRoute.validate_items].
  - eexists _, _. reflexivity.
  - rewrite (bind_returned _ _ _ _ _ (Product_findById_ok _ w Hf)).
    unfold OrderSpec.unavailable in Hitem.
    destruct (Store.products w !! OrdersRoute.product item) as [p|];
      [|discriminate Hitem].
    apply orb_false_iff in Hitem as [-> ->]. apply IH.
Qed.

(** X16.  No order can be placed.  A request that passed the validation of
    the route, whose items are all in the store, active and in stock, with
    the store working, is answered 500, [Server error while creating order]
    (or 400, [Price mismatch detected], if it states an items price that is
    off), and the store is exactly as it was. *)
Theorem create_order_refused (oid : string) (req : OrdersRoute.CreateRequest)
    (w : Store.World) :
  OrdersRoute.validationErrors req = [] ->
  Store.faults w = [] ->
  Forall (fun item => OrderSpec.unavailable w item = false)
    (OrdersRoute.orderItems req) ->
  exists resp,
    OrdersRoute.create_order oid req w = (Returned resp, w)
    /\ (resp = OrdersRoute.reject 500 [Lit "Server error while creating order"]
        \/ (resp = OrdersRoute.reject 400 [Lit "Price mismatch detected"]
            /\ OrdersRoute.itemsPrice req <> None)).
Proof.
  intros He Hf Hall.
  destruct (validate_items_ok _ [] 0%Q w Hf Hall) as (all & price & Hcheck).
  unfold OrdersRoute.create_order, Store.try_catch.
  rewrite seq_return_if, He. cbn [length Nat.eqb negb].
  rewrite (bind_returned _ _ _ _ _ Hcheck). cbv zeta.
  rewrite seq_return_if.
  destruct (OrdersRoute.itemsPrice req) as [p|].
  - destruct (negb _).
    + eexists. split; [reflexivity|]. right. split; [reflexivity|discriminate].
    + rewrite (bind_inv_thrown _ _ _ _ _ (save_new_order_rejected _ _ _ _ _)).
      eexists. split; [reflexivity|]. by left.
  - rewrite (bind_inv_thrown _ _ _ _ _ (save_new_order_rejected _ _ _ _ _)).
    eexists. split; [reflexivity|]. by left.
Qed.

(** Two tees and three pairs of socks, which the shop has, at the right
    price: refused. *)
Lemma create_order_refused_witness :
  OrdersRoute.create_order "o1" OrderExamples.two_items (OrderExamples.shop ∅ [])
  = (Returned (OrdersRoute.reject 500 [Lit "Server error while creating order"]),
     OrderExamples.shop ∅ []).
Proof.
  destruct (create_order_refused "o1" OrderExamples.two_items
              (OrderExamples.shop ∅ []) eq_refl eq_refl)
    as (resp & Hrun & [-> | [-> _]]).
  - repeat constructor.
  - exact Hrun.
  - exfalso. revert Hrun. vm_compute. discriminate.
Defined.

(** ** Orders over time *)

Lemma later_refl (o : Order.Order) : OrderLedger.later o o.
Proof. constructor; auto. Qed.

Lemma later_trans (o1 o2 o3 : Order.Order) :
  OrderLedger.later o1 o2 -> OrderLedger.later o2 o3 -> OrderLedger.later o1 o3.
Proof.
  intros [a1 a2 a3 a4 a5 a6 a7 a8 a9 a10 a11 a12 a13 a14 a15]
         [b1 b2 b3 b4 b5 b6 b7 b8 b9 b10 b11 b12 b13 b14 b15].
  constructor; try congruence.
  - by etrans.
  - intros H. destruct (a14 H) as (H1 & H2 & H3).
    destruct (b14 H1) as (H4 & H5 & H6). repeat split; congruence.
  - auto.
Qed.

Lemma later_set_isNew (b : bool) (o : Order.Order) :
  OrderLedger.later o (Order.set_isNew b o).
Proof. constructor; auto. Qed.

Lemma later_updateStatus (now1 now2 : Time) (newStatus : string)
    (note : option string) (o : Order.Order) :
  OrderLedger.later o (snd (Order.updateStatus now1 now2 newStatus note o)).
Proof.
  rewrite updateStatus_run. cbv zeta. constructor; cbn; auto.
  - by eexists.
  - intros ->. by destruct (String.eqb _ _).
Qed.

Lemma later_set_paid (t : option Time) (o : Order.Order) :
  Order.isPaid o = false ->
  OrderLedger.later o (OrdersAdmin.set_paidAt t (OrdersAdmin.set_isPaid true o)).
Proof. intros Hpaid. constructor; cbn; auto. congruence. Qed.

Lemma later_set_paymentResult (r : option Order.Payment.PaymentResult)
    (o o' : Order.Order) :
  Order.isPaid o = false ->
  OrderLedger.later o o' ->
  OrderLedger.later o (OrdersAdmin.set_paymentResult r o').
Proof.
  intros Hpaid [a1 a2 a3 a4 a5 a6 a7 a8 a9 a10 a11 a12 a13 a14 a15].
  constructor; cbn; auto. congruence.
Qed.

(** Writing a later state of an order under its identifier. *)
Lemma grows_insert (w w' : Store.World) (k : string) (o o' : Order.Order) :
  OrderLedger.keyed w ->
  Store.orders w !! k = Some o ->
  Store.orders w' = <[Order._id o := o']> (Store.orders w) ->
  Order._id o' = Order._id o ->
  OrderLedger.later o o' ->
  OrderLedger.keyed w' /\ OrderLedger.grows w w'.
Proof.
  intros Hk Ho Hw' Hid Hlater. pose proof (Hk _ _ Ho) as Hkey. split.
  - intros j x. rewrite Hw'. intros [[<- <-]|[_ H]]%lookup_insert_Some.
    + exact Hid.
    + by apply Hk.
  - intros j x Hx. rewrite Hw'.
    destruct (decide (j = Order._id o)) as [->|Hne].
    + exists o'. rewrite lookup_insert_eq. split; [reflexivity|].
      rewrite Hkey in Hx. congruence.
    + exists x. rewrite lookup_insert_ne by congruence.
      split; [exact Hx|apply later_refl].
Qed.

Lemma grows_same (w w' : Store.World) :
  OrderLedger.keyed w ->
  Store.orders w' = Store.orders w ->
  OrderLedger.keyed w' /\ OrderLedger.grows w w'.
Proof.
  intros Hk Hw'. split.
  - intros j x. rewrite Hw'. apply Hk.
  - intros j x Hx. exists x. rewrite Hw'. split; [exact Hx|apply later_refl].
Qed.

(** X11.  The handlers that write orders never lose or rewrite one.  On a
    store in which every order is kept under its identifier, after
    [PUT /:id/pay], [PUT /:id/status], [PUT /:id/cancel], or [POST /] with
    an identifier that is not in use, whatever the request, the answer and
    the failures of the store: every order that was stored still is, with
    the same user, order number, items, address and prices; its status
    history has its old entries at the front; and an order that was paid or
    delivered still is, with the payment as it was recorded. *)
Theorem orders_only_grow (w : Store.World) :
  OrderLedger.keyed w ->
  (forall id userId body,
     let w' := snd (OrdersAdmin.pay_order id userId body w) in
     OrderLedger.keyed w' /\ OrderLedger.grows w w')
  /\ (forall id req,
        let w' := snd (OrdersAdmin.update_status id req w) in
        OrderLedger.keyed w' /\ OrderLedger.grows w w')
  /\ (forall id userId reason,
        let w' := snd (OrdersRoute.cancel_order id userId reason w) in
        OrderLedger.keyed w' /\ OrderLedger.grows w w')
  /\ (forall oid req,
        Store.orders w !! oid = None ->
        let w' := snd (OrdersRoute.create_order oid req w) in
        OrderLedger.keyed w' /\ OrderLedger.grows w w').
Proof.
  intros Hk. split; [|split; [|split]].
  - intros id userId body. cbv zeta.
    destruct (pay_order_cases id userId body w)
      as (_ & resp & _ & [[_ Hsame]|(o & now1 & now2 & t & Ho & _ & Hpaid & Hw' & _)]);
      cbv zeta in *.
    + apply (grows_same _ _ Hk Hsame).
    + apply (grows_insert _ _ _ _ _ Hk Ho Hw').
      * rewrite updateStatus_run. reflexivity.
      * apply later_set_paymentResult; [exact Hpaid|].
        apply later_trans with (Order.set_isNew false o);
          [apply later_set_isNew|].
        eapply later_trans; [|apply later_updateStatus].
        by apply later_set_paid.
  - intros id req. cbv zeta.
    destruct (update_status_cases id req w)
      as (_ & resp & _ & [[_ Hsame]|(o & now1 & now2 & Ho & Hw' & _)]);
      cbv zeta in *.
    + apply (grows_same _ _ Hk Hsame).
    + destruct (assign_if_truthy_fields (OrdersAdmin.trackingNumber req)
                  (OrdersAdmin.shippingCarrier req)
                  (snd (Order.updateStatus now1 now2 (OrdersAdmin.status req)
                          (OrdersAdmin.note req) (Order.set_isNew false o))))
        as (Hid & _ & Hlater & _). cbv zeta in Hid, Hlater.
      apply (grows_insert _ _ _ _ _ Hk Ho Hw').
      * rewrite Hid, updateStatus_run. reflexivity.
      * apply later_trans with (Order.set_isNew false o);
          [apply later_set_isNew|].
        eapply later_trans; [apply later_updateStatus|exact Hlater].
  - intros id userId reason. cbv zeta.
    destruct (cancel_order_cases id userId reason w)
      as (resp & _ & [(_ & Hsame & _)|(o & now1 & now2 & Ho & _ & _ & Hw' & _)]);
      cbv zeta in *.
    + apply (grows_same _ _ Hk Hsame).
    + apply (grows_insert _ _ _ _ _ Hk Ho Hw').
      * rewrite updateStatus_run. reflexivity.
      * apply later_trans with (Order.set_isNew false o);
          [apply later_set_isNew|apply later_updateStatus].
  - intros oid req Hfresh. cbv zeta.
    destruct (create_order_unchanged oid req w) as (resp & _ & _ & _ & _ & _ & Hsame).
    apply (grows_same _ _ Hk Hsame).
Qed.

Lemma keyed_shop_with (o : Order.Order) (faults : list (option Exn)) :
  OrderLedger.keyed (MoreOrderExamples.shop_with o faults).
Proof.
  intros k x. unfold MoreOrderExamples.shop_with. cbn [Store.orders OrderExamples.shop].
  intros [[<- <-]|[_ H]]%lookup_insert_Some; [reflexivity|].
  by rewrite lookup_empty in H.
Qed.

Lemma orders_only_grow_witness :
  OrderLedger.grows
    (MoreOrderExamples.shop_with (OrderExamples.placed "pending") [])
    (snd (OrdersRoute.cancel_order "o1" "u1" None
            (MoreOrderExamples.shop_with (OrderExamples.placed "pending") []))).
Proof.
  exact (proj2 (proj1 (proj2 (proj2
           (orders_only_grow
              (MoreOrderExamples.shop_with (OrderExamples.placed "pending") [])
              (keyed_shop_with _ _)))) "o1"%string "u1"%string None)).
Defined.

(** ** Paying *)

(** X12.  An order is paid once.  On a store in which every order is kept
    under its identifier: when [PUT /:id/pay] answers 200, the stored order
    is paid, has a payment date and the payment result of the request, is
    in status ['processing'] and belongs to the caller; and a further
    request to pay the same order, by anyone and whatever the store does,
    is not answered with 200 and leaves the orders as they are. *)
Theorem pay_order_once (id userId userId' : string)
    (body body' : Order.Payment.PaymentResult) (w : Store.World) :
  OrderLedger.keyed w ->
  let r1 := OrdersAdmin.pay_order id userId body w in
  forall resp1,
    fst r1 = Returned resp1 ->
    OrdersRoute.status resp1 = 200 ->
    (exists o',
       Store.orders (snd r1) !! id = Some o'
       /\ Order.isPaid o' = true
       /\ is_Some (Order.paidAt o')
       /\ Order.paymentResult o' = Some body
       /\ Order.status o' = "processing"%string
       /\ Order.user o' = userId)
    /\ let r2 := OrdersAdmin.pay_order id userId' body' (snd r1) in
       exists resp2,
         fst r2 = Returned resp2
         /\ OrdersRoute.status resp2 <> 200
         /\ Store.orders (snd r2) = Store.orders (snd r1).
Proof.
  intros Hk r1 resp1 Hr1 H200. subst r1.
  destruct (pay_order_cases id userId body w)
    as (_ & resp & Hr & [[Hne _]|(o & now1 & now2 & t & Ho & Hu & Hpaid & Hw' & _)]);
    cbv zeta in *; rewrite Hr in Hr1; injection Hr1 as <-; [contradiction|].
  pose proof (Hk _ _ Ho) as Hid. rewrite Hid in Hw'.
  assert (exists o', Store.orders (snd (OrdersAdmin.pay_order id userId body w)) !! id
                     = Some o'
                     /\ Order.isPaid o' = true
                     /\ is_Some (Order.paidAt o')
                     /\ Order.paymentResult o' = Some body
                     /\ Order.status o' = "processing"%string
                     /\ Order.user o' = userId) as (o' & Ho' & Hpaid' & Hrest).
  { eexists. rewrite Hw', lookup_insert_eq. split; [reflexivity|].
    rewrite updateStatus_run. cbn. repeat split; eauto. }
  split; [by exists o'|].
  destruct (pay_order_cases id userId' body'
              (snd (OrdersAdmin.pay_order id userId body w)))
    as (_ & resp2 & Hr2 & [[Hne Hsame]|(o2 & ? & ? & ? & Ho2 & _ & Hpaid2 & _)]);
    cbv zeta in *.
  - exists resp2. auto.
  - rewrite Ho' in Ho2. injection Ho2 as <-. congruence.
Qed.

Lemma pay_order_once_witness :
  exists resp2,
    fst (OrdersAdmin.pay_order "o1" "u1" MoreOrderExamples.receipt
           (snd (OrdersAdmin.pay_order "o1" "u1" MoreOrderExamples.receipt
                   (MoreOrderExamples.shop_with MoreOrderExamples.unpaid []))))
    = Returned resp2
    /\ OrdersRoute.status resp2 <> 200
    /\ Store.orders
         (snd (OrdersAdmin.pay_order "o1" "u1" MoreOrderExamples.receipt
                 (snd (OrdersAdmin.pay_order "o1" "u1" MoreOrderExamples.receipt
                         (MoreOrderExamples.shop_with MoreOrderExamples.unpaid [])))))
       = Store.orders
           (snd (OrdersAdmin.pay_order "o1" "u1" MoreOrderExamples.receipt
                   (MoreOrderExamples.shop_with MoreOrderExamples.unpaid []))).
Proof.
  refine (proj2 (pay_order_once "o1" "u1" "u1" MoreOrderExamples.receipt
                   MoreOrderExamples.receipt
                   (MoreOrderExamples.shop_with MoreOrderExamples.unpaid [])
                   (keyed_shop_with _ _) _ _ _)).
  - vm_compute. reflexivity.
  - reflexivity.
Defined.

(** X13.  Paying an order and setting its status never touch the products,
    whatever the request and whatever fails: in particular an order that an
    admin sets to ['cancelled'] or ['refunded'] through [PUT /:id/status]
    gets no stock back, unlike one cancelled through [PUT /:id/cancel]. *)
Theorem pay_and_status_keep_products (id userId : string)
    (body : Order.Payment.PaymentResult) (req : OrdersAdmin.StatusRequest) :
  Store.keeps Store.products (OrdersAdmin.pay_order id userId body)
  /\ Store.keeps Store.products (OrdersAdmin.update_status id req).
Proof.
  split; intros w.
  - apply (pay_order_cases id userId body w).
  - apply (update_status_cases id req w).
Qed.

(** ** Setting the status *)

Lemma call_updateStatus (now1 now2 : Time) (newStatus : string)
    (note : option string) (doc : Order.Order) (w : Store.World) :
  Store.call (Order.updateStatus now1 now2 newStatus note) doc w
  = (Returned (tt, snd (Order.updateStatus now1 now2 newStatus note doc)), w).
Proof. unfold Store.call. rewrite updateStatus_run. reflexivity. Qed.

Lemma Order_updateStatus_ok (newStatus : string) (note : option string)
    (doc : Order.Order) (w : Store.World) :
  exists now1 now2 w1,
    Store.Order_updateStatus newStatus note doc w
    = (Returned (snd (Order.updateStatus now1 now2 newStatus note doc)), w1)
    /\ Store.faults w1 = Store.faults w
    /\ Store.orders w1 = Store.orders w
    /\ Store.products w1 = Store.products w.
Proof.
  unfold Store.Order_updateStatus.
  rewrite (bind_returned Store.Date_now _ w _ _ eq_refl).
  destruct (String.eqb newStatus "delivered").
  - rewrite (bind_returned Store.Date_now _ _ _ _ eq_refl).
    rewrite (bind_returned _ _ _ _ _ (call_updateStatus _ _ _ _ _ _)).
    eexists _, _, _. split; [reflexivity|]. repeat split.
  - rewrite (bind_returned (mret _) _ _ _ _ eq_refl).
    rewrite (bind_returned _ _ _ _ _ (call_updateStatus _ _ _ _ _ _)).
    eexists _, _, _. split; [reflexivity|]. repeat split.
Qed.

(** X14.  [PUT /:id/status] has no rule about which status may follow
    which.  For a request that passed the validation of the route (its
    status is one of the six, its note a string or absent), a stored order
    and a working store, whatever the status of the order (['cancelled'] and
    ['delivered'] included): the answer is 200 with the order as it is
    stored, and that is the order that was stored with the new status, one
    more history entry (the status, the time, the note or the empty
    string), [isDelivered] set and [deliveredAt] set to the time if the new
    status is ['delivered'], the tracking number and the carrier of the
    request where it gives them, and every other field as it was; the
    products are as they were. *)
Theorem update_status_any_transition (id : string) (req : OrdersAdmin.StatusRequest)
    (w : Store.World) (o : Order.Order) :
  OrdersAdmin.validationErrors req = [] ->
  OrdersAdmin.status req ∈ Order.statuses ->
  Store.faults w = [] ->
  Store.orders w !! id = Some o ->
  Order._id o = id ->
  let r := OrdersAdmin.update_status id req w in
  let delivered := String.eqb (OrdersAdmin.status req) "delivered" in
  exists now1 now2,
    let o' :=
      {| Order._id := Order._id o;
         Order.isNew := false;
         Order.user := Order.user o;
         Order.orderNumber := Order.orderNumber o;
         Order.orderItems := Order.orderItems o;
         Order.shippingAddress := Order.shippingAddress o;
         Order.paymentMethod := Order.paymentMethod o;
         Order.paymentResult := Order.paymentResult o;
         Order.itemsPrice := Order.itemsPrice o;
         Order.taxPrice := Order.taxPrice o;
         Order.shippingPrice := Order.shippingPrice o;
         Order.totalPrice := Order.totalPrice o;
         Order.discountAmount := Order.discountAmount o;
         Order.couponCode := Order.couponCode o;
         Order.isPaid := Order.isPaid o;
         Order.paidAt := Order.paidAt o;
         Order.isDelivered := if delivered then true else Order.isDelivered o;
         Order.deliveredAt := if delivered then Some now2 else Order.deliveredAt o;
         Order.status := OrdersAdmin.status req;
         Order.trackingNumber :=
           match OrdersAdmin.trackingNumber req with
           | Some s => if truthy_str s then s else Order.trackingNumber o
           | None => Order.trackingNumber o
           end;
         Order.shippingCarrier :=
           match OrdersAdmin.shippingCarrier req with
           | Some s => if truthy_str s then s else Order.shippingCarrier o
           | None => Order.shippingCarrier o
           end;
         Order.notes := Order.notes o;
         Order.statusHistory :=
           Order.statusHistory o
             ++ [{| Order.History.status := OrdersAdmin.status req;
                    Order.History.date := now1;
                    Order.History.note :=
                      default ""%string (OrdersAdmin.note req) |}] |} in
    fst r = Returned {| OrdersRoute.status := 200; OrdersRoute.success := true;
                        OrdersRoute.message :=
                          [Lit "Order status updated successfully"];
                        OrdersRoute.data := Some o' |}
    /\ Store.orders (snd r) = <[id := o']> (Store.orders w)
    /\ Store.products (snd r) = Store.products w.
Proof.
  intros He _ Hf Ho Hid r delivered. subst r delivered.
  destruct (Order_updateStatus_ok (OrdersAdmin.status req) (OrdersAdmin.note req)
              (Order.set_isNew false o) w)
    as (now1 & now2 & w1 & Hupd & Hf1 & Ho1 & Hp1).
  exists now1, now2. cbv zeta.
  match goal with
  |- _ = Returned (OrdersRoute.Build_Response _ _ _ (Some ?x)) /\ _ =>
      set (o' := x)
  end.
  assert (OrdersAdmin.assign_if_truthy (OrdersAdmin.shippingCarrier req)
            OrdersAdmin.set_shippingCarrier
            (OrdersAdmin.assign_if_truthy (OrdersAdmin.trackingNumber req)
               OrdersAdmin.set_trackingNumber
               (snd (Order.updateStatus now1 now2 (OrdersAdmin.status req)
                       (OrdersAdmin.note req) (Order.set_isNew false o))))
          = o') as Hdoc.
  { rewrite updateStatus_run. cbv zeta. unfold o', OrdersAdmin.assign_if_truthy.
    destruct (OrdersAdmin.trackingNumber req) as [s|]; [destruct (truthy_str s)|];
      (destruct (OrdersAdmin.shippingCarrier req) as [s'|];
       [destruct (truthy_str s')|]); reflexivity. }
  assert (OrdersAdmin.update_status id req w
          = (Returned {| OrdersRoute.status := 200; OrdersRoute.success := true;
                         OrdersRoute.message :=
                           [Lit "Order status updated successfully"];
                         OrdersRoute.data := Some o' |},
             Store.set_orders (<[Order._id o' := o']> (Store.orders w1)) w1))
    as Hrun.
  { unfold OrdersAdmin.update_status. apply try_catch_returned.
    rewrite seq_return_if, He. cbn [length Nat.eqb negb].
    rewrite (bind_returned _ _ _ _ _ (Order_findById_ok id w Hf)), Ho.
    cbn [fmap option_fmap option_map].
    rewrite (bind_returned _ _ _ _ _ Hupd). cbv zeta. rewrite Hdoc.
    assert (Store.faults w1 = []) as Hf1' by congruence.
    rewrite (bind_returned _ _ _ _ _ (save_old_ok o' w1 Hf1' eq_refl)).
    reflexivity. }
  rewrite Hrun. cbn [fst snd Store.orders Store.products Store.set_orders].
  split; [reflexivity|]. split; [|exact Hp1].
  rewrite Ho1. change (Order._id o') with (Order._id o). by rewrite Hid.
Qed.

(** A cancelled order is set to delivered. *)
Lemma update_status_any_transition_witness :
  exists resp o',
    fst (OrdersAdmin.update_status "o1" MoreOrderExamples.deliver
           (MoreOrderExamples.shop_with (OrderExamples.placed "cancelled") []))
    = Returned resp
    /\ OrdersRoute.status resp = 200
    /\ OrdersRoute.data resp = Some o'
    /\ Store.orders
         (snd (OrdersAdmin.update_status "o1" MoreOrderExamples.deliver
                 (MoreOrderExamples.shop_with (OrderExamples.placed "cancelled") [])))
       !! "o1"%string = Some o'
    /\ Order.status o' = "delivered"%string
    /\ Order.isDelivered o' = true
    /\ Order.isPaid o' = true
    /\ Order.trackingNumber o' = "TRK1"%string.
Proof.
  destruct (update_status_any_transition "o1" MoreOrderExamples.deliver
              (MoreOrderExamples.shop_with (OrderExamples.placed "cancelled") [])
              (OrderExamples.placed "cancelled") eq_refl)
    as (now1 & now2 & Hr & Ho & _);
    [apply (bool_decide_unpack _); reflexivity|reflexivity..|].
  cbv zeta in Hr, Ho. eexists _, _. split; [exact Hr|].
  split; [reflexivity|]. split; [reflexivity|].
  split; [rewrite Ho; apply lookup_insert_eq|]. repeat split.
Defined.

(** ** Stock *)

Lemma restock_lookup (items : list Order.Item.OrderItem)
    (m : gmap string Product.Product) (p : string) :
  foldl (fun m item => alter (Product.add_stock (Order.Item.quantity item))
                         (Order.Item.product item) m) m items !! p
  = Product.add_stock (OrderLedger.quantity_of p items) <$> m !! p.
Proof.
  rewrite (stock_loop_lookup _ 1) by (intros; lia).
  by rewrite Z.mul_1_l.
Qed.

(** X15.  [PUT /:id/cancel] always answers.  When it answers 200, every
    product has got back the units the items of the order name for it
    (a product on several items: their sum; a product that is no longer in
    the store: nothing), and nothing else of a product has changed.  When it
    answers 400 or 403, products and orders are as they were. *)
Theorem cancel_order_stock (id userId : string) (reason : option string)
    (w : Store.World) :
  let r := OrdersRoute.cancel_order id userId reason w in
  exists resp,
    fst r = Returned resp
    /\ (OrdersRoute.status resp = 200 ->
        exists o,
          Store.orders w !! id = Some o
          /\ forall p,
               Store.products (snd r) !! p
               = Product.add_stock (OrderLedger.quantity_of p (Order.orderItems o))
                   <$> Store.products w !! p)
    /\ (OrdersRoute.status resp = 400 \/ OrdersRoute.status resp = 403 ->
        Store.products (snd r) = Store.products w
        /\ Store.orders (snd r) = Store.orders w).
Proof.
  cbv zeta.
  destruct (cancel_order_cases id userId reason w)
    as (resp & Hr & [(Hne & Ho & Hp)
                    |(o & now1 & now2 & Ho & _ & _ & _ & Hp & Hresp)]);
    cbv zeta in *; exists resp; (split; [exact Hr|]).
  - split; [contradiction|]. auto.
  - split.
    + intros _. exists o. split; [exact Ho|]. intros p.
      rewrite Hp. apply restock_lookup.
    + rewrite Hresp. intros [H|H]; discriminate H.
Qed.

(** * Properties of the listing and of the product model *)

(** ** Pages *)

Lemma ceiling_of_quotient (total limit : Z) :
  0 < limit ->
  let pages := Qceiling (inject_Z total / inject_Z limit) in
  (pages - 1) * limit < total <= pages * limit.
Proof.
  intros Hl pages.
  set (x := (inject_Z total / inject_Z limit)%Q) in *.
  assert (inject_Z 0 < inject_Z limit)%Q as HL by (rewrite <- Zlt_Qlt; exact Hl).
  change (inject_Z 0) with 0%Q in HL.
  assert (x * inject_Z limit == inject_Z total)%Q as Hx.
  { unfold x. field. intros E. rewrite E in HL. by apply Qlt_irrefl in HL. }
  pose proof (Qle_ceiling x) as Hup. pose proof (Qceiling_lt x) as Hlow.
  fold pages in Hup, Hlow.
  split.
  - rewrite Zlt_Qlt, inject_Z_mult, <- Hx.
    apply Qmult_lt_compat_r; [exact HL|exact Hlow].
  - rewrite Zle_Qle, inject_Z_mult, <- Hx.
    apply Qmult_le_compat_r; [exact Hup|]. by apply Qlt_le_weak.
Qed.

(** X20.  The [pagination] object of the two order listings, for a page
    number and a page size of at least 1: [totalPages] is the least number
    of pages that hold all the orders (0 when there are none);
    [hasNextPage] says exactly that there are orders after those of this
    page ([skip + limit < total]); [hasPrevPage] says exactly that some
    orders were skipped. *)
Theorem pagination_flags (page limit total : Z) :
  1 <= page -> 1 <= limit -> 0 <= total ->
  let p := OrdersAdmin.pagination page limit total in
  let skip := OrdersAdmin.skip page limit in
  (OrdersAdmin.totalPages p - 1) * limit < total <= OrdersAdmin.totalPages p * limit
  /\ 0 <= OrdersAdmin.totalPages p
  /\ (total = 0 -> OrdersAdmin.totalPages p = 0)
  /\ (OrdersAdmin.hasNextPage p = true <-> skip + limit < total)
  /\ (OrdersAdmin.hasPrevPage p = true <-> 0 < skip)
  /\ OrdersAdmin.currentPage p = page /\ OrdersAdmin.totalOrders p = total.
Proof.
  intros Hp Hl Ht p skip. subst p skip.
  unfold OrdersAdmin.pagination, OrdersAdmin.skip. cbn.
  pose proof (ceiling_of_quotient total limit ltac:(lia)) as H. cbv zeta in H.
  set (pages := Qceiling (inject_Z total / inject_Z limit)) in *.
  split; [exact H|]. split; [nia|]. split; [nia|].
  split; [rewrite Z.ltb_lt; nia|]. split; [rewrite Z.ltb_lt; nia|]. auto.
Qed.

Lemma pagination_flags_witness :
  OrdersAdmin.hasNextPage (OrdersAdmin.pagination 2 10 25) = true
  <-> OrdersAdmin.skip 2 10 + 10 < 25.
Proof.
  refine (proj1 (proj2 (proj2 (proj2
            (pagination_flags 2 10 25 _ _ _))))); discriminate.
Defined.

(** ** Slugs *)

Section ProductProperties.

Import ProductModel.

Local Abbreviation slug_chars :=
  (Forall (fun c : N => is_alnum c = true \/ c = dash)).

Lemma no_pair_nil (l1 l2 : text) : [] <> l1 ++ dash :: dash :: l2.
Proof. destruct l1; discriminate. Qed.

Lemma no_pair_cons (c : N) (s : text) :
  ~ (c = dash /\ exists t, s = dash :: t) ->
  (forall l1 l2, s <> l1 ++ dash :: dash :: l2) ->
  forall l1 l2, c :: s <> l1 ++ dash :: dash :: l2.
Proof.
  intros Hc Hs [|x l1] l2 E; injection E as E1 E2.
  - apply Hc. eauto.
  - by apply (Hs l1 l2).
Qed.

Lemma no_pair_infix (pre s post : text) :
  (forall l1 l2, pre ++ s ++ post <> l1 ++ dash :: dash :: l2) ->
  forall l1 l2, s <> l1 ++ dash :: dash :: l2.
Proof.
  intros H l1 l2 ->. apply (H (pre ++ l1) (l2 ++ post)).
  by rewrite <- !app_assoc.
Qed.

Lemma collapse_dashes_head (s t : text) :
  collapse_dashes s = dash :: t -> exists t', s = dash :: t'.
Proof.
  destruct s as [|c s']; cbn [collapse_dashes]; [discriminate|].
  destruct (N.eqb_spec c dash) as [->|Hc]; [eauto|].
  cbn [andb]. intros [= E _]. contradiction.
Qed.

Lemma collapse_dashes_no_pair (s : text) :
  forall l1 l2, collapse_dashes s <> l1 ++ dash :: dash :: l2.
Proof.
  induction s as [|c s IH]; cbn [collapse_dashes]; [apply no_pair_nil|].
  destruct (_ && _) eqn:E; [exact IH|].
  apply no_pair_cons; [|exact IH].
  intros [-> (t & Ht)]. apply collapse_dashes_head in Ht as (t' & ->).
  discriminate E.
Qed.

Lemma collapse_dashes_chars (s : text) :
  slug_chars s -> slug_chars (collapse_dashes s).
Proof.
  induction 1 as [|c s Hc Hs IH]; cbn [collapse_dashes]; [constructor|].
  destruct (_ && _); [exact IH|by constructor].
Qed.

Lemma strip_leading_suffix (s : text) :
  exists pre, s = pre ++ strip_leading s.
Proof.
  destruct s as [|c s]; [by exists []|]. cbn [strip_leading].
  destruct (c =? dash)%N; [by exists [c]|by exists []].
Qed.

Lemma strip_trailing_prefix (s : text) :
  exists post, s = strip_trailing s ++ post.
Proof.
  unfold strip_trailing. destruct (rev s) as [|c r] eqn:E.
  - exists []. apply (f_equal (@rev N)) in E. rewrite rev_involutive in E.
    by rewrite E.
  - destruct (c =? dash)%N; [|exists []; by rewrite app_nil_r].
    exists [c]. apply (f_equal (@rev N)) in E. rewrite rev_involutive in E.
    exact E.
Qed.

(** X21.  The slug that the [pre('save')] hook of a product computes is well
    formed whatever the name and whatever [toLowerCase] makes of it: only
    ASCII letters, digits and dashes, no two dashes in a row, no dash at the
    start and none at the end. *)
Theorem slug_well_formed (toLowerCase : text -> text) (name : text) :
  let slug := slug_of toLowerCase name in
  Forall (fun c => is_alnum c = true \/ c = dash) slug
  /\ (forall l1 l2, slug <> l1 ++ dash :: dash :: l2)
  /\ (forall l, slug <> dash :: l)
  /\ (forall l, slug <> l ++ [dash]).
Proof.
  cbv zeta. unfold slug_of, trim_dashes.
  set (b := collapse_dashes (replace_non_alnum (toLowerCase name))).
  assert (slug_chars b) as Hchars.
  { apply collapse_dashes_chars. unfold replace_non_alnum.
    apply List.Forall_map, Forall_forall. intros c _.
    destruct (is_alnum c) eqn:E; auto. }
  pose proof (collapse_dashes_no_pair (replace_non_alnum (toLowerCase name)))
    as Hpair. fold b in Hpair.
  destruct (strip_leading_suffix b) as [pre Hpre].
  destruct (strip_trailing_prefix (strip_leading b)) as [post Hpost].
  set (c := strip_leading b) in *. set (d := strip_trailing c) in *.
  assert (forall l1 l2, c <> l1 ++ dash :: dash :: l2) as Hpair_c.
  { apply (no_pair_infix pre c []). by rewrite app_nil_r, <- Hpre. }
  assert (forall l, c <> dash :: l) as Hhead.
  { intros l E. unfold c in E. destruct b as [|x b']; [discriminate E|].
    cbn [strip_leading] in E. destruct (N.eqb_spec x dash) as [->|Hx].
    - subst b'. by apply (Hpair [] l).
    - injection E as E _. contradiction. }
  split; [|split; [|split]].
  - rewrite Hpre in Hchars. apply Forall_app in Hchars as [_ Hchars].
    rewrite Hpost in Hchars. by apply Forall_app in Hchars as [Hchars _].
  - apply (no_pair_infix [] d post). cbn [app]. by rewrite <- Hpost.
  - intros l E. apply (Hhead (l ++ post)). by rewrite Hpost, E.
  - intros l E. unfold d, strip_trailing in E.
    destruct (rev c) as [|x r] eqn:Er; [by destruct l|].
    apply (f_equal (@rev N)) in Er. rewrite rev_involutive in Er. cbn [rev] in Er.
    destruct (N.eqb_spec x dash) as [->|Hx].
    + apply (Hpair_c l []). rewrite Er, E, <- app_assoc. reflexivity.
    + rewrite Er in E. apply app_inj_tail in E as [_ E]. contradiction.
Qed.

(** ** Ratings and discounts *)

Local Open Scope Q_scope.

Lemma totalRating_bounds (lo hi : Q) (l : list Review.Review) (acc : Q) :
  Forall (fun r => lo <= Review.rating r <= hi) l ->
  acc + lo * inject_Z (Z.of_nat (length l))
  <= List.fold_left (fun sum review => sum + Review.rating review) l acc
  <= acc + hi * inject_Z (Z.of_nat (length l)).
Proof.
  intros H. revert acc. induction H as [|r l [Hlo Hhi] _ IH]; intros acc.
  - cbn [List.fold_left length]. change (inject_Z (Z.of_nat 0)) with 0. lra.
  - cbn [List.fold_left length]. specialize (IH (acc + Review.rating r)).
    rewrite Nat2Z.inj_succ. unfold Z.succ. rewrite inject_Z_plus.
    change (inject_Z 1) with 1. lra.
Qed.

Lemma round_tenths (x : Q) :
  let r := inject_Z (Math_round (x * 10)) / 10 in
  x - (1 # 20) < r /\ r <= x + (1 # 20).
Proof.
  cbv zeta. unfold Math_round.
  pose proof (Qfloor_le (x * 10 + (1 # 2))) as H1.
  pose proof (Qlt_floor (x * 10 + (1 # 2))) as H2.
  rewrite inject_Z_plus in H2. change (inject_Z 1) with 1 in H2.
  set (f := inject_Z (Qfloor (x * 10 + (1 # 2)))) in *.
  split.
  - apply Qlt_shift_div_l; [reflexivity|]. lra.
  - apply Qle_shift_div_r; [reflexivity|]. lra.
Qed.

Lemma round_tenths_between (lo hi : Z) (x : Q) :
  inject_Z lo <= x <= inject_Z hi ->
  inject_Z lo <= inject_Z (Math_round (x * 10)) / 10 <= inject_Z hi.
Proof.
  intros [Hlo Hhi]. unfold Math_round. split.
  - apply Qle_shift_div_l; [reflexivity|].
    change 10 with (inject_Z 10). rewrite <- inject_Z_mult. rewrite <- Zle_Qle.
    rewrite <- (Qfloor_half (lo * 10)). apply Qfloor_resp_le.
    rewrite inject_Z_mult. change (inject_Z 10) with 10. lra.
  - apply Qle_shift_div_r; [reflexivity|].
    change 10 with (inject_Z 10). rewrite <- inject_Z_mult. rewrite <- Zle_Qle.
    rewrite <- (Qfloor_half (hi * 10)). apply Qfloor_resp_le.
    rewrite inject_Z_mult. change (inject_Z 10) with 10. lra.
Qed.

(** X22.  [calculateAverageRating] returns normally and changes only
    [rating] and [numReviews].  [numReviews] becomes the number of reviews.
    Without reviews the rating is 0; otherwise it is within 0.05 of the mean
    of the ratings, and if every rating lies between two whole numbers (1
    and 5 in the schema), so does the rating of the product. *)
Theorem calculateAverageRating_bounds (lo hi : Z) (this : Product) :
  Forall (fun r => inject_Z lo <= Review.rating r <= inject_Z hi) (reviews this) ->
  let n := length (reviews this) in
  let mean := totalRating (reviews this) / inject_Z (Z.of_nat n) in
  exists this',
    calculateAverageRating this = (Returned tt, this')
    /\ reviews this' = reviews this
    /\ price this' = price this /\ comparePrice this' = comparePrice this
    /\ numReviews this' = Z.of_nat n
    /\ (n = 0%nat -> rating this' = 0)
    /\ (n <> 0%nat ->
        inject_Z lo <= rating this' <= inject_Z hi
        /\ mean - (1 # 20) < rating this' /\ rating this' <= mean + (1 # 20)).
Proof.
  intros Hall n mean. subst n mean. unfold calculateAverageRating.
  rewrite bind_get. destruct (reviews this) as [|r l] eqn:E.
  - eexists. split; [reflexivity|]. cbn. rewrite E. repeat split; congruence.
  - cbn [length Nat.eqb]. cbv zeta. eexists. split; [reflexivity|].
    cbn [snd reviews price comparePrice numReviews rating set_rating].
    rewrite E.
    split; [reflexivity|]. split; [reflexivity|]. split; [reflexivity|].
    split; [reflexivity|]. split; [discriminate|]. intros _.
    assert (0 < inject_Z (Z.of_nat (S (length l)))) as Hn.
    { change 0 with (inject_Z 0). rewrite <- Zlt_Qlt. lia. }
    pose proof (totalRating_bounds _ _ _ 0 Hall) as [H1 H2].
    fold (totalRating (r :: l)) in H1, H2. cbn [length] in H1, H2.
    assert (inject_Z lo
            <= totalRating (r :: l) / inject_Z (Z.of_nat (S (length l)))
            <= inject_Z hi) as Hmean.
    { split; [apply Qle_shift_div_l|apply Qle_shift_div_r]; try exact Hn; lra. }
    split; [by apply round_tenths_between|]. apply round_tenths.
Qed.

Lemma calculateAverageRating_bounds_witness :
  exists this',
    calculateAverageRating ProductExamples.reviewed_tee = (Returned tt, this')
    /\ numReviews this' = 2%Z
    /\ 1 <= rating this' <= 5.
Proof.
  destruct (calculateAverageRating_bounds 1 5 ProductExamples.reviewed_tee)
    as (this' & H1 & _ & _ & _ & H5 & _ & H7).
  - repeat constructor; discriminate.
  - exists this'. split; [exact H1|]. split; [exact H5|].
    apply H7. discriminate.
Defined.

(** X23.  The virtual [discountPercentage] of a product whose price is not
    negative (as the schema demands) is a whole number from 0 to 100; it is
    0 unless there is a compare price above the price, and then it is at
    most half a point away from the reduction in percent of the compare
    price. *)
Theorem discountPercentage_bounds (this : Product) :
  0 <= price this ->
  (0 <= discountPercentage this <= 100)%Z
  /\ match comparePrice this with
     | Some cp =>
         if Qle_bool cp (price this) then discountPercentage this = 0%Z
         else
           let reduction := (cp - price this) / cp * 100 in
           Qabs (inject_Z (discountPercentage this) - reduction) <= 1 # 2
     | None => discountPercentage this = 0%Z
     end.
Proof.
  intros Hp. unfold discountPercentage.
  destruct (comparePrice this) as [cp|]; [|split; [lia|reflexivity]].
  destruct (Qle_bool cp (price this)) eqn:E.
  { rewrite andb_false_r. split; [lia|reflexivity]. }
  assert (price this < cp) as Hlt.
  { apply Qnot_le_lt. intros H. apply Qle_bool_iff in H. congruence. }
  assert (truthy_num cp = true) as ->.
  { unfold truthy_num. apply negb_true_iff.
    destruct (Qeq_bool cp 0) eqn:E0; [|reflexivity].
    apply Qeq_bool_eq in E0. lra. }
  cbn [andb negb]. cbv zeta.
  set (x := (cp - price this) / cp * 100).
  assert (0 < cp) as Hcp by lra.
  assert (0 <= x /\ x <= 100) as [Hx0 Hx1].
  { unfold x. split.
    - apply Qmult_le_0_compat; [|discriminate].
      apply Qle_shift_div_l; [exact Hcp|]. lra.
    - assert ((cp - price this) / cp <= 1) by (apply Qle_shift_div_r; [exact Hcp|]; lra).
      lra. }
  unfold Math_round.
  pose proof (Qfloor_le (x + (1 # 2))) as H1.
  pose proof (Qlt_floor (x + (1 # 2))) as H2.
  rewrite inject_Z_plus in H2. change (inject_Z 1) with 1 in H2.
  split; [|apply Qabs_Qle_condition; split; lra].
  split.
  - change 0%Z with (Qfloor 0). apply Qfloor_resp_le. lra.
  - rewrite <- (Qfloor_half 100). apply Qfloor_resp_le.
    change (inject_Z 100) with 100. lra.
Qed.

Lemma discountPercentage_bounds_witness :
  (0 <= discountPercentage ProductExamples.reviewed_tee <= 100)%Z.
Proof.
  refine (proj1 (discountPercentage_bounds ProductExamples.reviewed_tee _)).
  discriminate.
Defined.

Local Close Scope Q_scope.

End ProductProperties.
